(** * The swarm orchestrator of [src/swarm.ts], embedded in Rocq

    The file follows the class [Swarm]: the shared context and its
    shallow merge, the tool adapter [wrapTools], the turn loop that
    [generateText] and [streamText] share, and the post-loop bookkeeping.

    Conventions of the embedding.
    - A JavaScript object used as a dictionary (the context, the arguments
      of a tool call, an agent's [tools], the [shape] of a zod object) is a
      [gmap string _]; the object spread [{...a, ...b}] is the left-biased
      union [b ∪ a], in which the keys of [b] win.
    - Agents are immutable objects that the swarm only holds by reference:
      a reference is an [AgentRef] and the objects live in a constant store
      [agents : AgentRef -> Agent.t].
    - The mutable fields of the class ([context], [messages],
      [_activeAgent]) are threaded explicitly; a method is a function from
      the swarm to a completion (a value or a thrown exception) and the
      swarm it leaves behind.
    - The model-invocation engine ([generateText] and [streamText] of the
      [ai] package) is external: it is a parameter [engine] of the
      development, indexed by the number of the call so that two calls on
      the same request may answer differently.  What it returns says which
      wrapped executors it called, when the promise of each settled, and how
      the call ended.
    - The wrapped executors are async functions: what one reads when it is
      called and what it writes when the promise of the tool settles are
      kept apart, so that executors started together all read the context
      of before. *)

From stdpp Require Import base option list strings gmap fin_maps numbers.

Set Warnings "-register-all".

(** ** JSON values, contexts and call arguments *)

Inductive JSONValue : Type :=
| JNull
| JBool (b : bool)
| JNumber (n : Z)
| JString (s : string)
| JArray (items : list JSONValue)
| JObject (fields : gmap string JSONValue).

(** [SWARM_CONTEXT]: an open mapping from keys to JSON values. *)
Abbreviation Context := (gmap string JSONValue).

(** The arguments of a tool call, an object generated by the model. *)
Abbreviation Args := (gmap string JSONValue).

Definition SWARM_CONTEXT_PROPERTY_NAME : string := "swarmContext".

(** [{...base, ...patch}] *)
Definition spread (base patch : gmap string JSONValue) : gmap string JSONValue :=
  patch ∪ base.

(** [{...base, ...patch}] where [patch] may be [undefined]: spreading
    [undefined] adds no key. *)
Definition spreadOpt (base : Context) (patch : option Context) : Context :=
  match patch with
  | Some p => spread base p
  | None => base
  end.

(** ** Exceptions and completions *)

Inductive Exception : Type :=
| TypeError (what : string)    (* raised by the JavaScript runtime *)
| Thrown (reason : string).    (* raised by the engine or by an executor *)

Inductive Completion (A : Type) : Type :=
| Normal (a : A)
| Throw (e : Exception).
Arguments Normal {A} a.
Arguments Throw {A} e.

(** ** Zod object schemas

    Of a zod object schema the adapter uses its [shape] (the declared
    fields) and [omit]. *)

Inductive ZodType : Type :=
| ZodString
| ZodNumber
| ZodBoolean
| ZodAny.

Abbreviation ZodObject := (gmap string ZodType).

(** [key in schema.shape] *)
Definition inShape (key : string) (schema : ZodObject) : bool :=
  bool_decide (is_Some (schema !! key)).

(** [schema.omit({[key]: true})] *)
Definition omit (key : string) (schema : ZodObject) : ZodObject :=
  delete key schema.

(** ** Agents and their tools *)

Definition AgentRef : Type := nat.
Definition LanguageModel : Type := string.
Definition ToolChoice : Type := string.

Inductive ToolType : Type :=
| function
| handover.

#[global] Instance ToolType_eq_dec : EqDecision ToolType.
Proof. solve_decision. Defined.

(** What the executor of a function tool resolves to:
    [{result, context?}]. *)
Record FunctionExecuteResult : Type := {
  fn_result : JSONValue;
  fn_context : option Context
}.

(** What the executor of a handover tool resolves to:
    [{agent, context?}]. *)
Record HandoverExecuteResult : Type := {
  ho_agent : AgentRef;
  ho_context : option Context
}.

(** Modelled from the spec: the type [AgentTool] of [./agent], which is not
    among the sources. "Tool: polymorphic over two variants - function tools
    (have an executor returning a result plus an optional context patch) and
    handover tools (return a target Agent plus an optional context patch)".
    Each variant carries a description, a parameter schema and its executor;
    the second argument of an executor (the engine's execution options) is
    left out. *)
Inductive AgentTool : Type :=
| AgentFunctionTool
    (description : option string) (parameters : ZodObject)
    (execute : Args -> Exception + FunctionExecuteResult)
| AgentHandoverTool
    (description : option string) (parameters : ZodObject)
    (execute : Args -> Exception + HandoverExecuteResult).

Module AgentTool.
Definition type (t : AgentTool) : ToolType :=
  match t with
  | AgentFunctionTool _ _ _ => function
  | AgentHandoverTool _ _ _ => handover
  end.

Definition description (t : AgentTool) : option string :=
  match t with
  | AgentFunctionTool d _ _ | AgentHandoverTool d _ _ => d
  end.

Definition parameters (t : AgentTool) : ZodObject :=
  match t with
  | AgentFunctionTool _ p _ | AgentHandoverTool _ p _ => p
  end.
End AgentTool.

Module Agent.
Record Config : Type := {
  model : option LanguageModel;
  maxTurns : option Z;
  toolChoice : option ToolChoice
}.

(** Modelled from the spec: the class [Agent] of [./agent], of which the
    swarm reads [name], [uuid], [getInstructions], [tools] and [config]. *)
Record t : Type := {
  name : string;
  uuid : string;
  getInstructions : Context -> string;
  tools : option (gmap string AgentTool);
  config : Config
}.
End Agent.

(** ** Tools as the engine sees them *)

(** What a wrapped executor hands back to the engine: the [result] payload
    of a function tool, or, for a tool that is called without the function
    wrapper, whatever its own executor resolved to. *)
Inductive ExecuteReturn : Type :=
| ReturnResult (result : JSONValue)
| ReturnUnwrapped (raw : HandoverExecuteResult).

(** What one call of a wrapped executor comes to once the promise of the
    tool's own executor has settled: the value or the exception that the
    engine is handed, and the context, if any, that is then merged into
    [this.context] as it is at that moment. *)
Record Settlement : Type := {
  handedBack : Completion ExecuteReturn;
  merged : option Context
}.

(** A wrapped executor is an async closure over the swarm: from the
    arguments of the call and [this.context] at the time of the call to
    what the call comes to. *)
Definition Executor : Type := Args -> Context -> Settlement.

Module CoreTool.
Record t : Type := {
  description : option string;
  parameters : ZodObject;
  execute : option Executor
}.
End CoreTool.

(** [tool(...)] of the [ai] package returns its argument. *)
Definition tool (t : CoreTool.t) : CoreTool.t := t.

(** The [functionWrapper] of [wrapTools]: run the executor of the function
    tool, merge the context it asks for, hand only [result] back. *)
Definition functionWrapper
    (execute : Args -> Exception + FunctionExecuteResult) : Executor :=
  fun args _ =>
    match execute args with
    | inl e => {| handedBack := Throw e; merged := None |}
    | inr r => {| handedBack := Normal (ReturnResult (fn_result r));
                  merged := fn_context r |}
    end.

(** [agentTool.execute!(args, options)] called without the function
    wrapper. *)
Definition unwrappedExecutor
    (execute : Args -> Exception + HandoverExecuteResult) : Executor :=
  fun args _ =>
    match execute args with
    | inl e => {| handedBack := Throw e; merged := None |}
    | inr r => {| handedBack := Normal (ReturnUnwrapped r); merged := None |}
    end.

(** The executor built when the schema declares the context field: it reads
    the context of the swarm when it is called and passes it under
    [SWARM_CONTEXT_PROPERTY_NAME]. *)
Definition injectContext (inner : Executor) : Executor :=
  fun args context =>
    let swarmContext := context in
    inner (<[SWARM_CONTEXT_PROPERTY_NAME := JObject swarmContext]> args) context.

(** The body of the [map] callback of [wrapTools], for one tool. *)
Definition wrapTool (agentTool : AgentTool) : CoreTool.t :=
  let parameters := AgentTool.parameters agentTool in
  (* [functionWrapper] is defined exactly for the function tools *)
  let wrapper : option Executor :=
    match agentTool with
    | AgentFunctionTool _ _ execute => Some (functionWrapper execute)
    | AgentHandoverTool _ _ _ => None
    end in
  let '(parameters, executor) :=
    if inShape SWARM_CONTEXT_PROPERTY_NAME (AgentTool.parameters agentTool)
    then
      (omit SWARM_CONTEXT_PROPERTY_NAME (AgentTool.parameters agentTool),
       (* [if (agentTool.execute)]: both variants have an executor;
          [functionWrapper ? functionWrapper(...) : agentTool.execute!(...)] *)
       Some (injectContext
               match agentTool with
               | AgentFunctionTool _ _ execute => functionWrapper execute
               | AgentHandoverTool _ _ execute => unwrappedExecutor execute
               end))
    else (parameters, wrapper) in
  let executor :=
    if decide (AgentTool.type agentTool = handover) then None else executor in
  match executor with
  | Some execute =>
      tool {| CoreTool.description := AgentTool.description agentTool;
              CoreTool.parameters := parameters;
              CoreTool.execute := Some execute |}
  | None =>
      tool {| CoreTool.description := AgentTool.description agentTool;
              CoreTool.parameters := parameters;
              CoreTool.execute := None |}
  end.

(** [wrapTools]: [Object.fromEntries(Object.entries(tools).map(...))], or
    [undefined] when the agent has no tools. *)
Definition wrapTools (tools : option (gmap string AgentTool))
    : option (gmap string CoreTool.t) :=
  match tools with
  | None => None
  | Some tools => Some (wrapTool <$> tools)
  end.

(** ** Messages, tool calls and tool results *)

Inductive Role : Type :=
| RoleUser
| RoleAssistant
| RoleTool
| RoleSystem.

#[global] Instance Role_eq_dec : EqDecision Role.
Proof. solve_decision. Defined.

(** The [{id, name}] pair that tags streamed parts. *)
Record AgentInfo : Type := {
  info_id : string;
  info_name : string
}.

Module ToolCall.
Record t : Type := {
  toolCallId : string;
  toolName : string;
  args : Args
}.
End ToolCall.

Module ToolResultPart.
(** A tool result: an entry of the engine's [toolResults], a part of a
    tool message, and the result the swarm makes up for a handover.  The
    result made up by [generateText] has no [args]; the last two fields are
    those that only the handover result of [streamText] carries. *)
Record t : Type := {
  toolCallId : string;
  toolName : string;
  result : JSONValue;
  args : option Args;
  handedOverTo : option AgentInfo;
  agent : option AgentInfo
}.
End ToolResultPart.

(** The parts of an array content; [part.type === 'tool-call'] holds of
    [ToolCallPart] alone. *)
Inductive ContentPart : Type :=
| TextPart (text : string)
| ImagePart (image : string)
| FilePart (data : string)
| ToolCallPart (call : ToolCall.t)
| ToolResult (part : ToolResultPart.t).

Inductive MessageContent : Type :=
| StringContent (text : string)
| ArrayContent (parts : list ContentPart).

Module Message.
(** [SwarmMessage]; a message of the engine is one without [sender]. *)
Record t : Type := {
  role : Role;
  content : MessageContent;
  sender : option string
}.

Definition setSender (s : string) (m : t) : t :=
  {| role := role m; content := content m; sender := Some s |}.

Definition setContent (c : MessageContent) (m : t) : t :=
  {| role := role m; content := c; sender := sender m |}.
End Message.

Abbreviation SwarmMessage := Message.t.

Inductive FinishReason : Type :=
| FinishStop
| FinishLength
| FinishContentFilter
| FinishToolCalls
| FinishError
| FinishOther
| FinishUnknown.

(** [['stop', 'length', 'content-filter', 'error'].includes(finishReason)] *)
Definition endsGeneration (reason : FinishReason) : bool :=
  match reason with
  | FinishStop | FinishLength | FinishContentFilter | FinishError => true
  | FinishToolCalls | FinishOther | FinishUnknown => false
  end.

(** ** The model-invocation engine *)

Module EngineRequest.
(** The options the swarm passes to the engine.  [onStepFinish] only
    observes and is left out. *)
Record t : Type := {
  model : LanguageModel;
  system : string;
  tools : option (gmap string CoreTool.t);
  maxSteps : Z;
  toolChoice : option ToolChoice;
  messages : list SwarmMessage;
  experimental_toolCallStreaming : option bool
}.
End EngineRequest.

Module EngineResult.
(** What the swarm reads of [GenerateTextResult] and of the awaited
    fields of [StreamTextResult]; [messages] is [response.messages]. *)
Record t : Type := {
  finishReason : FinishReason;
  text : string;
  messages : list SwarmMessage;
  toolCalls : list ToolCall.t;
  toolResults : list ToolResultPart.t
}.
End EngineResult.

(** What the engine does with the executors while it generates: it calls
    the executor of a tool with the arguments of a call, and later the
    promise of one of the executors called so far settles.  The executors
    called are numbered from 0 in the order of the calls. *)
Inductive ToolEvent : Type :=
| Called (toolName : string) (args : Args)
| Settled (run : nat).

Module EngineRun.
(** One call of the engine: the wrapped executors it called and the
    settlements of their promises, in the order in which they happened up
    to the end of the call, and how the call ended.  A promise that is
    still pending then is not followed further. *)
Record t : Type := {
  toolRuns : list ToolEvent;
  outcome : Exception + EngineResult.t
}.
End EngineRun.

(** The swarm and the promises while the engine runs: [this.context], the
    promise of each call of an executor ([None] for a call that found no
    executor and once the promise has settled), and what the promises
    settled with, in the order of settlement. *)
Record Running : Type := {
  live : Context;
  promises : list (option Settlement);
  settled : list (Completion ExecuteReturn)
}.

(** [tools[toolName].execute] as the engine finds it. *)
Definition executorOf (tools : option (gmap string CoreTool.t))
    (toolName : string) : option Executor :=
  match tools with
  | Some tools =>
      match tools !! toolName with
      | Some wrapped => CoreTool.execute wrapped
      | None => None
      end
  | None => None
  end.

(** One event.  A call runs the wrapper up to its [await]: it reads the
    context as it is now.  A settlement runs the rest of the wrapper: it
    merges the context of the outcome into the context as it is by then. *)
Definition toolEvent (tools : option (gmap string CoreTool.t))
    (running : Running) (event : ToolEvent) : Running :=
  match event with
  | Called toolName args =>
      {| live := live running;
         promises :=
           promises running
           ++ [match executorOf tools toolName with
               | Some execute => Some (execute args (live running))
               | None => None
               end];
         settled := settled running |}
  | Settled run =>
      match promises running !! run with
      | Some (Some settlement) =>
          {| live := spreadOpt (live running) (merged settlement);
             promises := <[run := None]> (promises running);
             settled := settled running ++ [handedBack settlement] |}
      | _ => running
      end
  end.

Definition runTools (tools : option (gmap string CoreTool.t))
    (events : list ToolEvent) (context : Context) : Running :=
  foldl (toolEvent tools) {| live := context; promises := []; settled := [] |} events.

(** ** The swarm *)

Module SwarmOptions.
Record t : Type := {
  defaultModel : option LanguageModel;
  queen : AgentRef;
  initialContext : Context;
  messages : option (list SwarmMessage);
  name : option string;
  maxTurns : option Z;
  returnToQueen : option bool
}.
End SwarmOptions.

(** [content] and [messages] exclude each other. *)
Inductive SwarmInvocationInput : Type :=
| WithContent (content : MessageContent)
| WithMessages (messages : list SwarmMessage).

Module SwarmInvocationOptions.
Record t : Type := {
  contextUpdate : option Context;
  setAgent : option AgentRef;
  maxTurns : option Z;
  returnToQueen : option bool;
  input : SwarmInvocationInput;
  experimental_toolCallStreaming : option bool
}.
End SwarmInvocationOptions.

Module Swarm.
Record t : Type := {
  defaultModel : LanguageModel;
  name : option string;
  queen : AgentRef;
  context : Context;
  messages : list SwarmMessage;
  maxTurns : Z;
  returnToQueen : bool;
  _activeAgent : AgentRef
}.

Definition setContext (c : Context) (s : t) : t :=
  {| defaultModel := defaultModel s; name := name s; queen := queen s;
     context := c; messages := messages s; maxTurns := maxTurns s;
     returnToQueen := returnToQueen s; _activeAgent := _activeAgent s |}.

Definition setMessages (ms : list SwarmMessage) (s : t) : t :=
  {| defaultModel := defaultModel s; name := name s; queen := queen s;
     context := context s; messages := ms; maxTurns := maxTurns s;
     returnToQueen := returnToQueen s; _activeAgent := _activeAgent s |}.

Definition setActiveAgent (a : AgentRef) (s : t) : t :=
  {| defaultModel := defaultModel s; name := name s; queen := queen s;
     context := context s; messages := messages s; maxTurns := maxTurns s;
     returnToQueen := returnToQueen s; _activeAgent := a |}.
End Swarm.

(** [x || d] on a number: [0] is falsy. *)
Definition orNumber (x : option Z) (d : Z) : Z :=
  match x with
  | Some n => if (n =? 0)%Z then d else n
  | None => d
  end.

(** The constructor of the class. *)
Definition constructor (options : SwarmOptions.t) : Swarm.t :=
  {| Swarm.context := SwarmOptions.initialContext options;
     Swarm.defaultModel := default "gpt-4o-mini" (SwarmOptions.defaultModel options);
     Swarm.queen := SwarmOptions.queen options;
     Swarm._activeAgent := SwarmOptions.queen options;
     Swarm.messages := default [] (SwarmOptions.messages options);
     Swarm.name := SwarmOptions.name options;
     Swarm.maxTurns := orNumber (SwarmOptions.maxTurns options) 100;
     Swarm.returnToQueen := default false (SwarmOptions.returnToQueen options) |}.

Definition getContext (this : Swarm.t) : Context := Swarm.context this.

Definition getMessages (this : Swarm.t) : list SwarmMessage := Swarm.messages this.

Definition activeAgent (this : Swarm.t) : AgentRef := Swarm._activeAgent this.

(** [updateContext]: the new context is stored and returned. *)
Definition updateContext (update : Context) (this : Swarm.t) : Context * Swarm.t :=
  let context := spread (Swarm.context this) update in
  (context, Swarm.setContext context this).

Definition handleUpdatesAndOverrides
    (invocationOptions : SwarmInvocationOptions.t) (this : Swarm.t) : Swarm.t :=
  let this :=
    match SwarmInvocationOptions.setAgent invocationOptions with
    | Some a => Swarm.setActiveAgent a this
    | None => this
    end in
  let this :=
    match SwarmInvocationOptions.input invocationOptions with
    | WithMessages ms => Swarm.setMessages ms this
    | WithContent _ => this
    end in
  Swarm.setContext
    (spreadOpt (Swarm.context this) (SwarmInvocationOptions.contextUpdate invocationOptions))
    this.

(** ** JavaScript array helpers *)

(** [ids.includes(id)] *)
Definition includes (ids : list string) (id : string) : bool :=
  bool_decide (id ∈ ids).

(** The position that [array.at(i)] reads in an array of [len] elements:
    a negative [i] counts from the end; out of range there is none. *)
Definition atIndex (len : nat) (i : Z) : option nat :=
  let j := if (i <? 0)%Z then (Z.of_nat len + i)%Z else i in
  if ((0 <=? j)%Z && (j <? Z.of_nat len)%Z)%bool then Some (Z.to_nat j) else None.

(** [array.at(i)], [None] for [undefined]. *)
Definition at_ {A : Type} (l : list A) (i : Z) : option A :=
  match atIndex (length l) i with
  | Some j => l !! j
  | None => None
  end.

(** [array.filter(p)] for a callback that may throw: the first exception
    ends the traversal. *)
Fixpoint filterC {A : Type} (p : A -> Completion bool) (l : list A)
    : Completion (list A) :=
  match l with
  | [] => Normal []
  | x :: l =>
      match p x with
      | Throw e => Throw e
      | Normal keep =>
          match filterC p l with
          | Throw e => Throw e
          | Normal kept => Normal (if keep then x :: kept else kept)
          end
      end
  end.

(** [messages.filter(message => message.role === 'assistant').length] *)
Definition assistantCount (messages : list SwarmMessage) : Z :=
  Z.of_nat (length (filter (λ message, Message.role message = RoleAssistant) messages)).

(** ** One turn: the handover protocol *)

(** The calls of the last step that the engine left without a result. *)
Definition unhandledToolCalls (lastResult : EngineResult.t) : list ToolCall.t :=
  let toolResultIds := ToolResultPart.toolCallId <$> EngineResult.toolResults lastResult in
  filter (λ toolCall, includes toolResultIds (ToolCall.toolCallId toolCall) = false)
         (EngineResult.toolCalls lastResult).

(** The names that every plain object inherits from [Object.prototype]. *)
Definition objectPrototypeNames : list string :=
  ["constructor"; "__defineGetter__"; "__defineSetter__"; "hasOwnProperty";
   "__lookupGetter__"; "__lookupSetter__"; "isPrototypeOf";
   "propertyIsEnumerable"; "toString"; "valueOf"; "__proto__"; "toLocaleString"].

(** What [table[name]] reads on a plain object used as a table: an entry of
    the table, else a member inherited from [Object.prototype], else
    [undefined]. *)
Inductive Member (A : Type) : Type :=
| Own (entry : A)
| Inherited
| Undefined.
Arguments Own {A} entry.
Arguments Inherited {A}.
Arguments Undefined {A}.

Definition member {A : Type} (table : gmap string A) (name : string) : Member A :=
  match table !! name with
  | Some entry => Own entry
  | None =>
      if bool_decide (name ∈ objectPrototypeNames) then Inherited else Undefined
  end.

(** [tools?.[toolCall.toolName].type === 'handover']: without tools the
    chain is [undefined]; an inherited member has no [type]; where the name
    reads [undefined], reading [type] of it throws. *)
Definition isHandoverCall (tools : option (gmap string AgentTool))
    (toolCall : ToolCall.t) : Completion bool :=
  match tools with
  | None => Normal false
  | Some tools =>
      match member tools (ToolCall.toolName toolCall) with
      | Own agentTool => Normal (bool_decide (AgentTool.type agentTool = handover))
      | Inherited => Normal false
      | Undefined => Throw (TypeError "Cannot read properties of undefined (reading 'type')")
      end
  end.

Definition findHandoverCalls (tools : option (gmap string AgentTool))
    (lastResult : EngineResult.t) : Completion (list ToolCall.t) :=
  filterC (isHandoverCall tools) (unhandledToolCalls lastResult).

(** [{...handoverCalls[0].args, ...this.context}]: what the executor of the
    handover tool is called with. *)
Definition handoverArguments (call : ToolCall.t) (context : Context) : Args :=
  spread (ToolCall.args call) context.

Inductive Mode : Type :=
| Blocking      (* generateText *)
| Streaming.    (* streamText *)

Definition agentInfo (a : Agent.t) : AgentInfo :=
  {| info_id := Agent.uuid a; info_name := Agent.name a |}.

(** The "artificial" tool result of a handover; [streamText] adds the
    agents on both sides and the arguments of the call. *)
Definition makeHandoverToolResult (mode : Mode) (call : ToolCall.t)
    (previousAgent newAgent : Agent.t) : ToolResultPart.t :=
  {| ToolResultPart.toolCallId := ToolCall.toolCallId call;
     ToolResultPart.toolName := ToolCall.toolName call;
     ToolResultPart.result := JString ("Handing over to agent " +:+ Agent.name newAgent);
     ToolResultPart.args :=
       match mode with Streaming => Some (ToolCall.args call) | Blocking => None end;
     ToolResultPart.handedOverTo :=
       match mode with Streaming => Some (agentInfo newAgent) | Blocking => None end;
     ToolResultPart.agent :=
       match mode with Streaming => Some (agentInfo previousAgent) | Blocking => None end |}.

(** [{role: 'tool', content: [handoverToolResult]}] *)
Definition toolMessageOf (handoverToolResult : ToolResultPart.t) : SwarmMessage :=
  {| Message.role := RoleTool;
     Message.content := ArrayContent [ToolResult handoverToolResult];
     Message.sender := None |}.

(** The filter that cleans an assistant content of unused tool calls. *)
Definition keepPart (unusedToolCallIds : list string) (part : ContentPart) : bool :=
  match part with
  | ToolCallPart call => negb (includes unusedToolCallIds (ToolCall.toolCallId call))
  | _ => true
  end.

(** [handoverCalls.filter((call, index) => index > 0).map(call => call.toolCallId)] *)
Definition unusedToolCallIds (handoverCalls : list ToolCall.t) : list string :=
  ToolCall.toolCallId <$> tail handoverCalls.

(** [if (typeof assistantMessage.content !== 'string') assistantMessage.content
    = assistantMessage.content.filter(...)] *)
Definition cleanAssistantMessage (unusedToolCallIds : list string)
    (assistantMessage : SwarmMessage) : SwarmMessage :=
  match Message.content assistantMessage with
  | StringContent _ => assistantMessage
  | ArrayContent parts =>
      Message.setContent
        (ArrayContent (List.filter (keepPart unusedToolCallIds) parts))
        assistantMessage
  end.

(** Lines 212-246 of [generateText] (454-489 of [streamText]): locate the
    assistant message of the turn and the tool message after it, add the
    handover result, clean the assistant message.  The messages are objects
    updated in place; here the array is updated at their positions.  The
    push into the tool message also reaches the message of the engine that
    shares the content array; of the messages of the engine the swarm reads
    nothing but the roles afterwards. *)
Definition recordHandover (handoverToolResult : option ToolResultPart.t)
    (handoverCalls : list ToolCall.t) (responseMessages : list SwarmMessage)
    : Completion (list SwarmMessage) :=
  let toolMessage :=
    match at_ responseMessages (-1) with
    | Some m => if decide (Message.role m = RoleTool) then Some m else None
    | None => None
    end in
  let assistantIndex :=
    atIndex (length responseMessages)
            (match toolMessage with None => -1 | Some _ => -2 end)%Z in
  let pushed :=
    match handoverToolResult, toolMessage with
    | None, _ => Normal responseMessages
    | Some r, None => Normal (responseMessages ++ [toolMessageOf r])
    | Some r, Some m =>
        match Message.content m with
        | ArrayContent parts =>
            Normal (<[length responseMessages - 1 :=
                       Message.setContent (ArrayContent (parts ++ [ToolResult r])) m]>
                    responseMessages)
        | StringContent _ => Throw (TypeError "toolMessage.content.push is not a function")
        end
    end in
  match pushed with
  | Throw e => Throw e
  | Normal pushed =>
      match assistantIndex with
      | None => Throw (TypeError "Cannot read properties of undefined (reading 'content')")
      | Some i =>
          Normal (alter (cleanAssistantMessage (unusedToolCallIds handoverCalls)) i pushed)
      end
  end.

(** ** The turn loop *)

(** The composite channel of [streamText]: the engine streams added to it
    (named by the number of the engine call) and the parts enqueued. *)
Inductive StreamItem : Type :=
| AddedStream (call : nat)
| Enqueued (part : ToolResultPart.t).

(** The locals of an invocation that a turn extends. *)
Record Accumulated : Type := {
  responseMessages : list SwarmMessage;
  stream : list StreamItem
}.

(** What [generateText] returns and what the promises of [streamText]
    resolve to. *)
Module Output.
Record t : Type := {
  finishReason : FinishReason;
  activeAgent : AgentRef;
  text : string;
  messages : list SwarmMessage;
  context : Context;
  fullStream : list StreamItem
}.
End Output.

(** How the background task of [streamText] ends for the caller. *)
Inductive Background (A : Type) : Type :=
| Resolves (a : A)
| NeverSettles (lost : Exception).
Arguments Resolves {A} a.
Arguments NeverSettles {A} lost.

(** A JavaScript number used as a condition. *)
Definition truthy (n : option Z) : bool :=
  match n with
  | Some n => negb (n =? 0)%Z
  | None => false
  end.

Section TurnLoop.

(** The agent objects. *)
Variable agents : AgentRef -> Agent.t.

(** The engine: the answer to its [call]-th invocation. *)
Variable engine : nat -> EngineRequest.t -> EngineRun.t.

Definition engineRequest (mode : Mode) (options : SwarmInvocationOptions.t)
    (initialMessages : list SwarmMessage) (maxTotalSteps : Z)
    (responseMessages : list SwarmMessage) (this : Swarm.t) : EngineRequest.t :=
  let active := agents (Swarm._activeAgent this) in
  {| EngineRequest.model :=
       default (Swarm.defaultModel this) (Agent.model (Agent.config active));
     EngineRequest.system := Agent.getInstructions active (Swarm.context this);
     EngineRequest.tools := wrapTools (Agent.tools active);
     EngineRequest.maxSteps :=
       default maxTotalSteps (Agent.maxTurns (Agent.config active));
     EngineRequest.toolChoice := Agent.toolChoice (Agent.config active);
     EngineRequest.messages := initialMessages ++ responseMessages;
     EngineRequest.experimental_toolCallStreaming :=
       match mode with
       | Blocking => None
       | Streaming =>
           Some (negb (bool_decide
             (SwarmInvocationOptions.experimental_toolCallStreaming options = Some false)))
       end |}.

(** Lines 181-210 (413-452): run the first handover call, if any; take
    the agent of its result, merge its context if it has one, make up the
    tool result. *)
Definition executeHandover (mode : Mode) (handoverCalls : list ToolCall.t)
    (this : Swarm.t) : Completion (option ToolResultPart.t) * Swarm.t :=
  match handoverCalls with
  | [] => (Normal None, this)
  | call :: _ =>
      let previousAgent := agents (Swarm._activeAgent this) in
      match Agent.tools previousAgent with
      | Some tools =>
          match tools !! ToolCall.toolName call with
          | Some (AgentHandoverTool _ _ execute) =>
              match execute (handoverArguments call (Swarm.context this)) with
              | inl e => (Throw e, this)
              | inr result =>
                  let this := Swarm.setActiveAgent (ho_agent result) this in
                  let this :=
                    Swarm.setContext
                      (spreadOpt (Swarm.context this) (ho_context result)) this in
                  (Normal (Some (makeHandoverToolResult mode call previousAgent
                                   (agents (Swarm._activeAgent this)))),
                   this)
              end
          | _ =>
              (* not reached: the calls were filtered on this very table *)
              (Throw (TypeError "handoverTool.execute is not a handover executor"), this)
          end
      | None =>
          (Throw (TypeError "Cannot read properties of undefined (reading 'execute')"), this)
      end
  end.

(** Lines 250-257 (493-500): the return to the queen when the agent of
    the turn used up its own turns. *)
Definition forcedReturn (initialAgent : AgentRef) (lastResult : EngineResult.t)
    (maxTotalSteps : Z) (responseMessages : list SwarmMessage)
    (this : Swarm.t) : Swarm.t :=
  let assistantMessages :=
    filter (λ message, Message.role message = RoleAssistant)
           (EngineResult.messages lastResult) in
  let cap := Agent.maxTurns (Agent.config (agents initialAgent)) in
  if (truthy cap
      && bool_decide (cap = Some (Z.of_nat (length assistantMessages)))
      && (assistantCount responseMessages <? maxTotalSteps)%Z)%bool
  then Swarm.setActiveAgent (Swarm.queen this) this
  else this.

(** Lines 164-257 (397-500): what a turn does once the engine answered
    with a finish reason that does not end the generation. *)
Definition processTurn (mode : Mode) (initialAgent : AgentRef)
    (lastResult : EngineResult.t) (maxTotalSteps : Z) (acc : Accumulated)
    (this : Swarm.t) : Completion Accumulated * Swarm.t :=
  match findHandoverCalls (Agent.tools (agents (Swarm._activeAgent this))) lastResult with
  | Throw e => (Throw e, this)
  | Normal handoverCalls =>
      match executeHandover mode handoverCalls this with
      | (Throw e, this) => (Throw e, this)
      | (Normal handoverToolResult, this) =>
          let stream :=
            match mode, handoverToolResult with
            | Streaming, Some part => stream acc ++ [Enqueued part]
            | _, _ => stream acc
            end in
          match recordHandover handoverToolResult handoverCalls (responseMessages acc) with
          | Throw e => (Throw e, this)
          | Normal responseMessages =>
              (Normal {| responseMessages := responseMessages; stream := stream |},
               forcedReturn initialAgent lastResult maxTotalSteps responseMessages this)
          end
      end
  end.

(** The swarm once the engine has run: the executors that it called have
    replaced the context. *)
Definition engineRan (request : EngineRequest.t) (run : EngineRun.t)
    (this : Swarm.t) : Swarm.t :=
  Swarm.setContext
    (live (runTools (EngineRequest.tools request) (EngineRun.toolRuns run)
                    (Swarm.context this)))
    this.

(** Lines 153-156 (387-390): the messages of the engine are added under the
    name of the active agent; [streamText] has added the stream of the
    engine to its channel before. *)
Definition pushResponse (mode : Mode) (call : nat) (lastResult : EngineResult.t)
    (acc : Accumulated) (this : Swarm.t) : Accumulated :=
  {| responseMessages :=
       responseMessages acc ++
       (Message.setSender (Agent.name (agents (Swarm._activeAgent this)))
          <$> EngineResult.messages lastResult);
     stream :=
       match mode with
       | Streaming => stream acc ++ [AddedStream call]
       | Blocking => stream acc
       end |}.

(** One pass through the body of the [do ... while]: the completion says
    whether the body left the loop by [break], and carries the last
    result of the engine and the extended locals. *)
Definition iteration (mode : Mode) (options : SwarmInvocationOptions.t)
    (initialMessages : list SwarmMessage) (maxTotalSteps : Z)
    (call : nat) (acc : Accumulated) (this : Swarm.t)
    : Completion (bool * EngineResult.t * Accumulated) * Swarm.t :=
  let initialAgent := Swarm._activeAgent this in
  let request :=
    engineRequest mode options initialMessages maxTotalSteps (responseMessages acc) this in
  let run := engine call request in
  let this := engineRan request run this in
  match EngineRun.outcome run with
  | inl e => (Throw e, this)
  | inr lastResult =>
      let acc := pushResponse mode call lastResult acc this in
      if endsGeneration (EngineResult.finishReason lastResult)
      then (Normal (true, lastResult, acc), this)
      else
        match processTurn mode initialAgent lastResult maxTotalSteps acc this with
        | (Throw e, this) => (Throw e, this)
        | (Normal acc, this) => (Normal (false, lastResult, acc), this)
        end
  end.

(** The [do ... while] loop.  The engine may keep answering without any
    assistant message, so the loop need not end: [fuel] bounds the number
    of turns and [None] says that it ran out. *)
Fixpoint turnLoop (fuel : nat) (mode : Mode) (options : SwarmInvocationOptions.t)
    (initialMessages : list SwarmMessage) (maxTotalSteps : Z)
    (call : nat) (acc : Accumulated) (this : Swarm.t)
    : option (Completion (EngineResult.t * Accumulated) * Swarm.t) :=
  match fuel with
  | O => None
  | S fuel =>
      match iteration mode options initialMessages maxTotalSteps call acc this with
      | (Throw e, this) => Some (Throw e, this)
      | (Normal (broke, lastResult, acc), this) =>
          if broke then Some (Normal (lastResult, acc), this)
          else if (assistantCount (responseMessages acc) <? maxTotalSteps)%Z
          then turnLoop fuel mode options initialMessages maxTotalSteps (S call) acc this
          else Some (Normal (lastResult, acc), this)
      end
  end.

(** The messages the first engine call is given before the responses. *)
Definition initialMessagesOf (options : SwarmInvocationOptions.t)
    (this : Swarm.t) : list SwarmMessage :=
  match SwarmInvocationOptions.input options with
  | WithMessages _ => Swarm.messages this
  | WithContent content =>
      Swarm.messages this ++
      [{| Message.role := RoleUser; Message.content := content; Message.sender := None |}]
  end.

(** What follows the loop in both methods: update the history, return to
    the queen if the swarm was built so, report. *)
Definition complete (lastResult : EngineResult.t) (acc : Accumulated)
    (this : Swarm.t) : Output.t * Swarm.t :=
  let this := Swarm.setMessages (Swarm.messages this ++ responseMessages acc) this in
  let this :=
    if Swarm.returnToQueen this
    then Swarm.setActiveAgent (Swarm.queen this) this
    else this in
  ({| Output.finishReason := EngineResult.finishReason lastResult;
      Output.activeAgent := Swarm._activeAgent this;
      Output.text := EngineResult.text lastResult;
      Output.messages := responseMessages acc;
      Output.context := Swarm.context this;
      Output.fullStream := stream acc |},
   this).

(** The body of both methods, from the overrides to the report: the call
    of [generateText] itself, and the background task of [streamText]. *)
Definition invoke (mode : Mode) (fuel : nat) (options : SwarmInvocationOptions.t)
    (this : Swarm.t) : option (Completion Output.t * Swarm.t) :=
  let this := handleUpdatesAndOverrides options this in
  let initialMessages := initialMessagesOf options this in
  let maxTotalSteps :=
    default (Swarm.maxTurns this) (SwarmInvocationOptions.maxTurns options) in
  match turnLoop fuel mode options initialMessages maxTotalSteps 0
                 {| responseMessages := []; stream := [] |} this with
  | None => None
  | Some (Throw e, this) => Some (Throw e, this)
  | Some (Normal (lastResult, acc), this) =>
      let '(output, this) := complete lastResult acc this in
      Some (Normal output, this)
  end.

(** [Swarm.generateText] *)
Definition generateText := invoke Blocking.

(** [Swarm.streamText] returns its promises and streams at once and runs
    the loop in a background task that nothing awaits and nothing catches.
    Here the task is run to its end: either the promises resolve, after the
    stream has been closed, or an exception has ended the task, and then
    the caller is thrown nothing, the promises stay pending and the stream
    stays open. *)
Definition streamText (fuel : nat) (options : SwarmInvocationOptions.t)
    (this : Swarm.t) : option (Background Output.t * Swarm.t) :=
  match invoke Streaming fuel options this with
  | None => None
  | Some (Normal output, this) => Some (Resolves output, this)
  | Some (Throw e, this) => Some (NeverSettles e, this)
  end.

End TurnLoop.

(** ** Notions used in the statements *)

(** The turn loop writes [context] and [_activeAgent] only. *)
Definition keepsSettings (before after : Swarm.t) : Prop :=
  Swarm.defaultModel after = Swarm.defaultModel before
  ∧ Swarm.name after = Swarm.name before
  ∧ Swarm.queen after = Swarm.queen before
  ∧ Swarm.messages after = Swarm.messages before
  ∧ Swarm.maxTurns after = Swarm.maxTurns before
  ∧ Swarm.returnToQueen after = Swarm.returnToQueen before.

(** The parts of a content; a string content has none. *)
Definition partsOf (content : MessageContent) : list ContentPart :=
  match content with
  | StringContent _ => []
  | ArrayContent parts => parts
  end.

(** The ids of the tool calls that a message holds. *)
Definition toolCallIdsOf (message : SwarmMessage) : list string :=
  omap (λ part, match part with
                | ToolCallPart call => Some (ToolCall.toolCallId call)
                | _ => None
                end)
       (partsOf (Message.content message)).

(** The ids of the tool results that a message holds. *)
Definition toolResultIdsOf (message : SwarmMessage) : list string :=
  omap (λ part, match part with
                | ToolResult result => Some (ToolResultPart.toolCallId result)
                | _ => None
                end)
       (partsOf (Message.content message)).





(** The first exception among what the promises settled with. *)
Fixpoint firstThrown (completions : list (Completion ExecuteReturn)) : option Exception :=
  match completions with
  | [] => None
  | Throw e :: _ => Some e
  | Normal _ :: completions => firstThrown completions
  end.

(** The engine hands on what an executor throws, as [generateText] of [ai]
    does: a call of the engine in which the promise of an executor settles
    by an exception ends by the first such exception, [passedOn] as it is
    or wrapped into an exception of the engine. *)
Definition rethrows (passedOn : Exception → Exception) (request : EngineRequest.t)
    (context : Context) (run : EngineRun.t) : Prop :=
  ∀ e : Exception,
    firstThrown
      (settled (runTools (EngineRequest.tools request) (EngineRun.toolRuns run) context))
    = Some e →
    EngineRun.outcome run = inl (passedOn e).

(** The loop before a turn: the number of the engine call to come, the
    locals, the swarm. *)
Record LoopState : Type := {
  turnNumber : nat;
  accumulated : Accumulated;
  swarm : Swarm.t
}.

(** The loop goes from one turn to the next when the turn ended normally,
    did not [break], and left the assistant messages below the ceiling. *)
Inductive nextTurn (agents : AgentRef → Agent.t)
    (engine : nat → EngineRequest.t → EngineRun.t) (mode : Mode)
    (options : SwarmInvocationOptions.t) (initialMessages : list SwarmMessage)
    (maxTotalSteps : Z) : LoopState → LoopState → Prop :=
| nextTurn_intro (call : nat) (acc : Accumulated) (this : Swarm.t)
    (lastResult : EngineResult.t) (acc' : Accumulated) (this' : Swarm.t) :
    iteration agents engine mode options initialMessages maxTotalSteps call acc this
      = (Normal (false, lastResult, acc'), this') →
    (assistantCount (responseMessages acc') < maxTotalSteps)%Z →
    nextTurn agents engine mode options initialMessages maxTotalSteps
      {| turnNumber := call; accumulated := acc; swarm := this |}
      {| turnNumber := S call; accumulated := acc'; swarm := this' |}.

(** An engine whose every answer holds at least one assistant message, as
    one step of generation produces one. *)
Definition answersWithAssistant (engine : nat → EngineRequest.t → EngineRun.t) : Prop :=
  ∀ (call : nat) (request : EngineRequest.t) (lastResult : EngineResult.t),
    EngineRun.outcome (engine call request) = inr lastResult →
    (1 ≤ assistantCount (EngineResult.messages lastResult))%Z.

(** * A small swarm for the worked runs

    Three agents: the queen, which can hand over to the billing agent and
    to the refunds agent and can look an order up; the billing agent, which
    can look an order up and has a turn cap of one; the refunds agent, whose only handover fails. *)

Definition queenRef : AgentRef := 0.
Definition billingRef : AgentRef := 1.
Definition refundsRef : AgentRef := 2.

Definition transferToBilling : AgentTool :=
  AgentHandoverTool (Some "Hand the conversation to the billing agent")
    {[ "reason" := ZodString; SWARM_CONTEXT_PROPERTY_NAME := ZodAny ]}
    (λ _, inr {| ho_agent := billingRef; ho_context := None |}).

Definition transferToRefunds : AgentTool :=
  AgentHandoverTool (Some "Hand the conversation to the refunds agent")
    {[ "reason" := ZodString ]}
    (λ _, inr {| ho_agent := refundsRef;
                 ho_context := Some {[ "topic" := JString "refund" ]} |}).

Definition brokenTransfer : AgentTool :=
  AgentHandoverTool (Some "A handover whose executor fails")
    {[ "reason" := ZodString ]}
    (λ _, inl (Thrown "handover failed")).

Definition lookupOrder : AgentTool :=
  AgentFunctionTool (Some "Look an order up")
    {[ "order" := ZodString ]}
    (λ args, inr {| fn_result := JString "shipped";
                    fn_context := Some {[ "lastOrder" := default JNull (args !! "order") ]} |}).

Definition queenTools : gmap string AgentTool :=
  {[ "transferToBilling" := transferToBilling;
     "transferToRefunds" := transferToRefunds;
     "brokenTransfer" := brokenTransfer;
     "lookupOrder" := lookupOrder ]}.

Definition noConfig : Agent.Config :=
  {| Agent.model := None; Agent.maxTurns := None; Agent.toolChoice := None |}.

Definition queenAgent : Agent.t :=
  {| Agent.name := "queen"; Agent.uuid := "agent-0";
     Agent.getInstructions := λ _, "Route the user to the right agent.";
     Agent.tools := Some queenTools;
     Agent.config := noConfig |}.

Definition billingAgent : Agent.t :=
  {| Agent.name := "billing"; Agent.uuid := "agent-1";
     Agent.getInstructions := λ _, "Answer billing questions.";
     Agent.tools := Some {[ "lookupOrder" := lookupOrder ]};
     Agent.config :=
       {| Agent.model := None; Agent.maxTurns := Some 1%Z; Agent.toolChoice := None |} |}.

Definition refundsAgent : Agent.t :=
  {| Agent.name := "refunds"; Agent.uuid := "agent-2";
     Agent.getInstructions := λ _, "Handle refunds.";
     Agent.tools := Some {[ "brokenTransfer" := brokenTransfer ]};
     Agent.config := noConfig |}.

Definition exampleAgents (ref : AgentRef) : Agent.t :=
  match ref with
  | 0 => queenAgent
  | 1 => billingAgent
  | _ => refundsAgent
  end.

Definition exampleSwarm : Swarm.t :=
  constructor
    {| SwarmOptions.defaultModel := None;
       SwarmOptions.queen := queenRef;
       SwarmOptions.initialContext :=
         {[ "user" := JString "ada"; "reason" := JString "set by the swarm" ]};
       SwarmOptions.messages := None;
       SwarmOptions.name := Some "support";
       SwarmOptions.maxTurns := None;
       SwarmOptions.returnToQueen := None |}.

Definition billingCall : ToolCall.t :=
  {| ToolCall.toolCallId := "call-1";
     ToolCall.toolName := "transferToBilling";
     ToolCall.args := {[ "reason" := JString "invoice"; "urgent" := JBool true ]} |}.

Definition refundsCall : ToolCall.t :=
  {| ToolCall.toolCallId := "call-2";
     ToolCall.toolName := "transferToRefunds";
     ToolCall.args := {[ "reason" := JString "refund" ]} |}.

Definition brokenCall : ToolCall.t :=
  {| ToolCall.toolCallId := "call-3";
     ToolCall.toolName := "brokenTransfer";
     ToolCall.args := ∅ |}.

(** Answers of the engine. *)

Definition assistantSays (text : string) : SwarmMessage :=
  {| Message.role := RoleAssistant;
     Message.content := ArrayContent [TextPart text];
     Message.sender := None |}.

Definition assistantCalls (calls : list ToolCall.t) : SwarmMessage :=
  {| Message.role := RoleAssistant;
     Message.content := ArrayContent (ToolCallPart <$> calls);
     Message.sender := None |}.

(** The engine generated text and stopped. *)
Definition answers (text : string) : EngineRun.t :=
  {| EngineRun.toolRuns := [];
     EngineRun.outcome :=
       inr {| EngineResult.finishReason := FinishStop;
              EngineResult.text := text;
              EngineResult.messages := [assistantSays text];
              EngineResult.toolCalls := [];
              EngineResult.toolResults := [] |} |}.

(** The engine stopped on calls of tools without executor. *)
Definition callsResult (reason : FinishReason) (toolCalls : list ToolCall.t)
    : EngineResult.t :=
  {| EngineResult.finishReason := reason;
     EngineResult.text := EmptyString;
     EngineResult.messages := [assistantCalls toolCalls];
     EngineResult.toolCalls := toolCalls;
     EngineResult.toolResults := [] |}.

Definition calls (reason : FinishReason) (toolCalls : list ToolCall.t) : EngineRun.t :=
  {| EngineRun.toolRuns := [];
     EngineRun.outcome := inr (callsResult reason toolCalls) |}.

(** The model answers at once. *)
Definition engineAnswers : nat → EngineRequest.t → EngineRun.t :=
  λ _ _, answers "Your invoice is attached.".

(** The model asks for the billing agent, which then answers. *)
Definition engineHandsOver : nat → EngineRequest.t → EngineRun.t :=
  λ call _,
    match call with
    | 0 => calls FinishToolCalls [billingCall]
    | _ => answers "Your invoice is attached."
    end.

(** The model asks for two handovers in one turn. *)
Definition engineHandsOverTwice : nat → EngineRequest.t → EngineRun.t :=
  λ call _,
    match call with
    | 0 => calls FinishToolCalls [billingCall; refundsCall]
    | _ => answers "Your invoice is attached."
    end.


(** The model asks for the refunds agent, then for a handover that fails. *)
Definition engineBreaksLater : nat → EngineRequest.t → EngineRun.t :=
  λ call _,
    match call with
    | 0 => calls FinishToolCalls [refundsCall]
    | _ => calls FinishToolCalls [brokenCall]
    end.

Definition askBilling : SwarmInvocationOptions.t :=
  {| SwarmInvocationOptions.contextUpdate := None;
     SwarmInvocationOptions.setAgent := None;
     SwarmInvocationOptions.maxTurns := None;
     SwarmInvocationOptions.returnToQueen := None;
     SwarmInvocationOptions.input := WithContent (StringContent "help with billing");
     SwarmInvocationOptions.experimental_toolCallStreaming := None |}.

Definition lookupCall : ToolCall.t :=
  {| ToolCall.toolCallId := "call-4";
     ToolCall.toolName := "lookupOrder";
     ToolCall.args := {[ "order" := JString "A-17" ]} |}.

Definition lookupResult : ToolResultPart.t :=
  {| ToolResultPart.toolCallId := "call-4";
     ToolResultPart.toolName := "lookupOrder";
     ToolResultPart.result := JString "shipped";
     ToolResultPart.args := Some {[ "order" := JString "A-17" ]};
     ToolResultPart.handedOverTo := None;
     ToolResultPart.agent := None |}.

(** The engine ran the order lookup and then was out of steps. *)
Definition looksUp : EngineResult.t :=
  {| EngineResult.finishReason := FinishToolCalls;
     EngineResult.text := EmptyString;
     EngineResult.messages :=
       [assistantCalls [lookupCall];
        {| Message.role := RoleTool;
           Message.content := ArrayContent [ToolResult lookupResult];
           Message.sender := None |}];
     EngineResult.toolCalls := [lookupCall];
     EngineResult.toolResults := [lookupResult] |}.

Definition engineLooksUp : nat → EngineRequest.t → EngineRun.t :=
  λ _ _,
    {| EngineRun.toolRuns := [Called "lookupOrder" {[ "order" := JString "A-17" ]}; Settled 0];
       EngineRun.outcome := inr looksUp |}.

Definition noMessages : Accumulated :=
  {| responseMessages := []; stream := [] |}.

(** The locals that a turn leaves. *)
Definition accumulatedBy
    (turn : Completion (bool * EngineResult.t * Accumulated) * Swarm.t) : Accumulated :=
  match turn.1 with
  | Normal (_, _, acc) => acc
  | Throw _ => noMessages
  end.

(** The swarm with the billing agent active. *)
Definition billingSwarm : Swarm.t := Swarm.setActiveAgent billingRef exampleSwarm.

Definition lookupAnswer : SwarmMessage :=
  {| Message.role := RoleTool;
     Message.content := ArrayContent [ToolResult lookupResult];
     Message.sender := None |}.



(** A swarm that returns to the queen after every invocation. *)
Definition returningSwarm : Swarm.t :=
  constructor
    {| SwarmOptions.defaultModel := None;
       SwarmOptions.queen := queenRef;
       SwarmOptions.initialContext := {[ "user" := JString "ada" ]};
       SwarmOptions.messages := None;
       SwarmOptions.name := Some "support";
       SwarmOptions.maxTurns := None;
       SwarmOptions.returnToQueen := Some true |}.

(** A swarm with a conversation behind it. *)
Definition earlierMessages : list SwarmMessage :=
  [{| Message.role := RoleUser;
      Message.content := StringContent "hello";
      Message.sender := None |};
   {| Message.role := RoleAssistant;
      Message.content := ArrayContent [TextPart "How can I help?"];
      Message.sender := Some "queen" |}].

Definition talkingSwarm : Swarm.t := Swarm.setMessages earlierMessages exampleSwarm.

(** The invocation asks for the return to the queen. *)
Definition askBillingThenReturn : SwarmInvocationOptions.t :=
  {| SwarmInvocationOptions.contextUpdate := None;
     SwarmInvocationOptions.setAgent := None;
     SwarmInvocationOptions.maxTurns := None;
     SwarmInvocationOptions.returnToQueen := Some true;
     SwarmInvocationOptions.input := WithContent (StringContent "help with billing");
     SwarmInvocationOptions.experimental_toolCallStreaming := None |}.

(** The user message that an invocation with that content makes up. *)
Definition billingQuestion : SwarmMessage :=
  {| Message.role := RoleUser;
     Message.content := StringContent "help with billing";
     Message.sender := None |}.

(** A function tool whose executor fails, and an agent that has it. *)
Definition checkStock : AgentTool :=
  AgentFunctionTool (Some "Check the stock of an item")
    {[ "item" := ZodString ]}
    (λ _, inl (Thrown "warehouse offline")).

Definition stockAgent : Agent.t :=
  {| Agent.name := "stock"; Agent.uuid := "agent-3";
     Agent.getInstructions := λ _, "Answer stock questions.";
     Agent.tools := Some {[ "checkStock" := checkStock ]};
     Agent.config := noConfig |}.

Definition stockAgents (ref : AgentRef) : Agent.t := stockAgent.

(** The engine calls the stock check, awaits it, and ends by its exception. *)
Definition engineChecksStock : nat → EngineRequest.t → EngineRun.t :=
  λ _ _,
    {| EngineRun.toolRuns := [Called "checkStock" {[ "item" := JString "A-17" ]}; Settled 0];
       EngineRun.outcome := inl (Thrown "warehouse offline") |}.

(** * Further notions and worked inputs *)

(** A function tool that declares the context field: it answers with the
    user that the context it is passed names. *)
Definition whoAmI : AgentTool :=
  AgentFunctionTool (Some "Name the user")
    {[ SWARM_CONTEXT_PROPERTY_NAME := ZodAny ]}
    (λ args,
       match args !! SWARM_CONTEXT_PROPERTY_NAME with
       | Some (JObject context) =>
           inr {| fn_result := default JNull (context !! "user");
                  fn_context := Some {[ "asked" := JBool true ]} |}
       | _ => inl (Thrown "no context")
       end).

Definition deskTools : gmap string AgentTool :=
  {[ "whoAmI" := whoAmI; "lookupOrder" := lookupOrder;
     "transferToBilling" := transferToBilling ]}.

(** No key of the context is lost between two states of the swarm. *)
Definition keepsKeys (before after : Swarm.t) : Prop :=
  dom (Swarm.context before) ⊆ dom (Swarm.context after).

(** In one step the model asks for the order lookup, which the engine runs,
    and for the refunds agent, which then answers. *)
Definition looksUpAndAsksRefunds : EngineResult.t :=
  {| EngineResult.finishReason := FinishToolCalls;
     EngineResult.text := EmptyString;
     EngineResult.messages := [assistantCalls [lookupCall; refundsCall]; lookupAnswer];
     EngineResult.toolCalls := [lookupCall; refundsCall];
     EngineResult.toolResults := [lookupResult] |}.

Definition engineLooksUpAndAsksRefunds : nat → EngineRequest.t → EngineRun.t :=
  λ call _,
    match call with
    | 0 => {| EngineRun.toolRuns :=
                [Called "lookupOrder" {[ "order" := JString "A-17" ]}; Settled 0];
              EngineRun.outcome := inr looksUpAndAsksRefunds |}
    | _ => answers "The refund is on its way."
    end.

(** An invocation that updates the context. *)
Definition askWithPlan : SwarmInvocationOptions.t :=
  {| SwarmInvocationOptions.contextUpdate := Some {[ "plan" := JString "pro" ]};
     SwarmInvocationOptions.setAgent := None;
     SwarmInvocationOptions.maxTurns := None;
     SwarmInvocationOptions.returnToQueen := None;
     SwarmInvocationOptions.input := WithContent (StringContent "where is my refund");
     SwarmInvocationOptions.experimental_toolCallStreaming := None |}.

(** An invocation with a ceiling of zero. *)
Definition askOnce : SwarmInvocationOptions.t :=
  {| SwarmInvocationOptions.contextUpdate := None;
     SwarmInvocationOptions.setAgent := None;
     SwarmInvocationOptions.maxTurns := Some 0%Z;
     SwarmInvocationOptions.returnToQueen := None;
     SwarmInvocationOptions.input := WithContent (StringContent "help with billing");
     SwarmInvocationOptions.experimental_toolCallStreaming := None |}.

(** An invocation that replaces the history. *)
Definition replay : SwarmInvocationOptions.t :=
  {| SwarmInvocationOptions.contextUpdate := None;
     SwarmInvocationOptions.setAgent := Some billingRef;
     SwarmInvocationOptions.maxTurns := None;
     SwarmInvocationOptions.returnToQueen := None;
     SwarmInvocationOptions.input := WithMessages [billingQuestion];
     SwarmInvocationOptions.experimental_toolCallStreaming := None |}.

(** The settings that [handleUpdatesAndOverrides] leaves alone. *)
Definition keepsSettings' (before after : Swarm.t) : Prop :=
  Swarm.queen after = Swarm.queen before
  ∧ Swarm.maxTurns after = Swarm.maxTurns before
  ∧ Swarm.returnToQueen after = Swarm.returnToQueen before
  ∧ Swarm.defaultModel after = Swarm.defaultModel before
  ∧ Swarm.name after = Swarm.name before.

(** The engine fails at once. *)
Definition engineFails : nat → EngineRequest.t → EngineRun.t :=
  λ _ _, {| EngineRun.toolRuns := [];
            EngineRun.outcome := inl (Thrown "no network") |}.

(** A tool message made up for a handover: it has no sender and holds
    nothing but results made up for handovers, one at least. *)
Definition madeUp (agents : AgentRef → Agent.t) (mode : Mode)
    (message : SwarmMessage) : Prop :=
  Message.role message = RoleTool
  ∧ Message.sender message = None
  ∧ ∃ parts : list ContentPart,
      Message.content message = ArrayContent parts
      ∧ parts ≠ []
      ∧ Forall
          (λ part,
             ∃ (call : ToolCall.t) (previous next : AgentRef),
               part = ToolResult (makeHandoverToolResult mode call
                                    (agents previous) (agents next)))
          parts.

(** A message is under the name of an agent, or it is a tool message made
    up for a handover. *)
Definition named (agents : AgentRef → Agent.t) (mode : Mode)
    (message : SwarmMessage) : Prop :=
  (∃ ref : AgentRef, Message.sender message = Some (Agent.name (agents ref)))
  ∨ madeUp agents mode message.

(** A call of a tool that no agent has. *)
Definition strangeCall : ToolCall.t :=
  {| ToolCall.toolCallId := "call-9";
     ToolCall.toolName := "resetPassword";
     ToolCall.args := ∅ |}.

Definition engineCallsStrangeTool : nat → EngineRequest.t → EngineRun.t :=
  λ _ _, calls FinishToolCalls [strangeCall].

(** A call under a name that every plain object inherits. *)
Definition inheritedCall : ToolCall.t :=
  {| ToolCall.toolCallId := "call-8";
     ToolCall.toolName := "toString";
     ToolCall.args := ∅ |}.

(** The model calls [toString] and asks for the billing agent. *)
Definition engineCallsInheritedName : nat → EngineRequest.t → EngineRun.t :=
  λ _ _, calls FinishToolCalls [inheritedCall; billingCall].

(** Whether a call names a handover tool of the table itself. *)
Definition namesHandoverTool (tools : gmap string AgentTool) (toolCall : ToolCall.t) : bool :=
  match tools !! ToolCall.toolName toolCall with
  | Some agentTool => bool_decide (AgentTool.type agentTool = handover)
  | None => false
  end.

(** An answer without messages that asks for the billing agent. *)
Definition silentHandover : EngineResult.t :=
  {| EngineResult.finishReason := FinishToolCalls;
     EngineResult.text := EmptyString;
     EngineResult.messages := [];
     EngineResult.toolCalls := [billingCall];
     EngineResult.toolResults := [] |}.

Definition engineSilentHandover : nat → EngineRequest.t → EngineRun.t :=
  λ _ _, {| EngineRun.toolRuns := []; EngineRun.outcome := inr silentHandover |}.

(** ** The channel of [streamText] *)

(** A tool result is a part of one of the messages. *)
Definition recorded (part : ToolResultPart.t) (messages : list SwarmMessage) : Prop :=
  ∃ message : SwarmMessage,
    message ∈ messages ∧ ToolResult part ∈ partsOf (Message.content message).



(** ** Executors started together *)

(** Two function tools that declare the context field: each copies one key
    of the context it is passed to the other key. *)
Definition copyKey (from to : string) : Args → Exception + FunctionExecuteResult :=
  λ args,
    match args !! SWARM_CONTEXT_PROPERTY_NAME with
    | Some (JObject context) =>
        inr {| fn_result := JNull;
               fn_context := Some {[ to := default JNull (context !! from) ]} |}
    | _ => inl (Thrown "no context")
    end.

Definition swapX : AgentTool :=
  AgentFunctionTool (Some "Set x to y")
    {[ SWARM_CONTEXT_PROPERTY_NAME := ZodAny ]} (copyKey "y" "x").

Definition swapY : AgentTool :=
  AgentFunctionTool (Some "Set y to x")
    {[ SWARM_CONTEXT_PROPERTY_NAME := ZodAny ]} (copyKey "x" "y").

Definition swapAgent : Agent.t :=
  {| Agent.name := "swapper"; Agent.uuid := "agent-4";
     Agent.getInstructions := λ _, "Swap x and y.";
     Agent.tools := Some {[ "swapX" := swapX; "swapY" := swapY ]};
     Agent.config := noConfig |}.

Definition swapAgents (ref : AgentRef) : Agent.t := swapAgent.

Definition swapSwarm : Swarm.t :=
  constructor
    {| SwarmOptions.defaultModel := None;
       SwarmOptions.queen := queenRef;
       SwarmOptions.initialContext := {[ "x" := JNumber 1; "y" := JNumber 2 ]};
       SwarmOptions.messages := None;
       SwarmOptions.name := None;
       SwarmOptions.maxTurns := None;
       SwarmOptions.returnToQueen := None |}.

Definition swapped : EngineResult.t :=
  {| EngineResult.finishReason := FinishStop;
     EngineResult.text := "Swapped.";
     EngineResult.messages := [assistantSays "Swapped."];
     EngineResult.toolCalls := [];
     EngineResult.toolResults := [] |}.

(** The engine starts both executors of a step and then awaits them. *)
Definition engineSwaps : nat → EngineRequest.t → EngineRun.t :=
  λ _ _,
    {| EngineRun.toolRuns := [Called "swapX" ∅; Called "swapY" ∅; Settled 0; Settled 1];
       EngineRun.outcome := inr swapped |}.

(** * Properties of the context store and of the tool adapter *)

Lemma lookup_spread (base patch : gmap string JSONValue) (k : string) :
  spread base patch !! k =
  match patch !! k with
  | Some v => Some v
  | None => base !! k
  end.
Proof.
  unfold spread. rewrite lookup_union.
  destruct (patch !! k) as [v|] eqn:Hp; destruct (base !! k) as [w|] eqn:Hb;
    reflexivity.
Qed.

Lemma spreadOpt_None (base : Context) : spreadOpt base None = base.
Proof. reflexivity. Qed.

Lemma updateContext_stores_what_it_returns (update : Context) (this : Swarm.t) :
  Swarm.context (updateContext update this).2 = (updateContext update this).1.
Proof. reflexivity. Qed.

(** C8: after [updateContext p1] and then [updateContext p2], a key of [p2]
    has the value of [p2], a key of [p1] that [p2] lacks has the value of
    [p1], and every other key reads as before; merging [{a: 1}] and then
    [{a: 2, b: 3}] leaves [a = 2] and [b = 3]. *)
Theorem updateContext_later_patch_wins (this : Swarm.t) (p1 p2 : Context) :
  let after := (updateContext p2 (updateContext p1 this).2).2 in
  (∀ k : string,
     Swarm.context after !! k =
     match p2 !! k with
     | Some v => Some v
     | None =>
         match p1 !! k with
         | Some v => Some v
         | None => Swarm.context this !! k
         end
     end)
  ∧ (let merged :=
       (updateContext {[ "a" := JNumber 2; "b" := JNumber 3 ]}
          (updateContext {[ "a" := JNumber 1 ]} this).2).2 in
     Swarm.context merged !! "a" = Some (JNumber 2)
     ∧ Swarm.context merged !! "b" = Some (JNumber 3)
     ∧ ∀ k : string, k ≠ "a" → k ≠ "b" →
         Swarm.context merged !! k = Swarm.context this !! k).
Proof.
  split.
  - intros k. cbn. rewrite !lookup_spread. reflexivity.
  - cbn. repeat split.
    + rewrite lookup_spread. reflexivity.
    + rewrite lookup_spread. reflexivity.
    + intros k Ha Hb. rewrite !lookup_spread.
      rewrite lookup_insert_ne by congruence.
      rewrite lookup_singleton_ne by congruence.
      rewrite lookup_singleton_ne by congruence.
      reflexivity.
Qed.

Lemma wrapTool_handover (description : option string) (parameters : ZodObject)
    (execute : Args → Exception + HandoverExecuteResult) :
  wrapTool (AgentHandoverTool description parameters execute) =
  {| CoreTool.description := description;
     CoreTool.parameters := omit SWARM_CONTEXT_PROPERTY_NAME parameters;
     CoreTool.execute := None |}.
Proof.
  unfold wrapTool, tool, inShape, omit. cbn.
  case_bool_decide as Hshape; cbn; [reflexivity|].
  f_equal. symmetry. apply delete_id.
  apply eq_None_not_Some. exact Hshape.
Qed.

Lemma wrapTool_function_has_executor (description : option string)
    (parameters : ZodObject) (execute : Args → Exception + FunctionExecuteResult) :
  is_Some (CoreTool.execute (wrapTool (AgentFunctionTool description parameters execute))).
Proof.
  unfold wrapTool, tool. cbn.
  destruct (inShape _ _); cbn; eauto.
Qed.

(** The wrapper of a function tool passes the exception of the executor
    on and merges nothing. *)
Lemma functionWrapper_throws (execute : Args → Exception + FunctionExecuteResult)
    (args : Args) (context : Context) (e : Exception) :
  execute args = inl e →
  functionWrapper execute args context = {| handedBack := Throw e; merged := None |}.
Proof. intros H. unfold functionWrapper. rewrite H. reflexivity. Qed.

(** The engine calls an executor and awaits it before anything else. *)
Lemma runTools_alone (tools : option (gmap string CoreTool.t)) (toolName : string)
    (args : Args) (context : Context) :
  runTools tools [Called toolName args; Settled 0] context
  = match executorOf tools toolName with
    | Some execute =>
        {| live := spreadOpt context (merged (execute args context));
           promises := [None];
           settled := [handedBack (execute args context)] |}
    | None => {| live := context; promises := [None]; settled := [] |}
    end.
Proof.
  unfold runTools. cbn. destruct (executorOf tools toolName); reflexivity.
Qed.

(** C7: for a handover tool of the tool set, [wrapTools] yields a tool with
    the same description, with the parameter schema less the context field
    (the schema itself when it does not declare the field), and without
    executor; the engine has nothing to run for it, so a call of it starts
    no promise and leaves the context as it is. *)
Theorem wrapTools_handover_has_no_executor (tools : gmap string AgentTool)
    (toolName : string) (description : option string) (parameters : ZodObject)
    (execute : Args → Exception + HandoverExecuteResult) :
  tools !! toolName = Some (AgentHandoverTool description parameters execute) →
  ∃ (wrapped : gmap string CoreTool.t) (wrappedTool : CoreTool.t),
    wrapTools (Some tools) = Some wrapped
    ∧ wrapped !! toolName = Some wrappedTool
    ∧ CoreTool.description wrappedTool = description
    ∧ (∀ field : string,
         CoreTool.parameters wrappedTool !! field =
         if decide (field = SWARM_CONTEXT_PROPERTY_NAME) then None
         else parameters !! field)
    ∧ (inShape SWARM_CONTEXT_PROPERTY_NAME parameters = false →
       CoreTool.parameters wrappedTool = parameters)
    ∧ CoreTool.execute wrappedTool = None
    ∧ ∀ (args : Args) (context : Context),
        runTools (wrapTools (Some tools)) [Called toolName args; Settled 0] context
        = {| live := context; promises := [None]; settled := [] |}.
Proof.
  intros Htool.
  exists (wrapTool <$> tools), (wrapTool (AgentHandoverTool description parameters execute)).
  assert (Hlookup : (wrapTool <$> tools) !! toolName =
                    Some (wrapTool (AgentHandoverTool description parameters execute))).
  { rewrite lookup_fmap, Htool. reflexivity. }
  assert (Hrun : ∀ (args : Args) (context : Context),
            runTools (wrapTools (Some tools)) [Called toolName args; Settled 0] context
            = {| live := context; promises := [None]; settled := [] |}).
  { intros args context. rewrite runTools_alone. unfold executorOf. cbn [wrapTools].
    rewrite Hlookup, wrapTool_handover. reflexivity. }
  split; [reflexivity|]. split; [exact Hlookup|].
  rewrite wrapTool_handover in *. cbn.
  split; [reflexivity|]. split.
  { intros field. unfold omit. case_decide as Hf.
    - subst field. apply lookup_delete_eq.
    - apply lookup_delete_ne. intros Heq. apply Hf. symmetry. exact Heq. }
  split.
  { unfold inShape, omit. intros Hshape. apply delete_id.
    apply bool_decide_eq_false in Hshape.
    apply eq_None_not_Some. exact Hshape. }
  split; [reflexivity|]. exact Hrun.
Qed.

(** The handover to the billing agent, whose schema declares the context
    field, as the engine is given it. *)
Lemma wrapTools_handover_has_no_executor_witness :
  ∃ (wrapped : gmap string CoreTool.t) (wrappedTool : CoreTool.t),
    wrapTools (Some queenTools) = Some wrapped
    ∧ wrapped !! "transferToBilling" = Some wrappedTool
    ∧ CoreTool.description wrappedTool = Some "Hand the conversation to the billing agent"
    ∧ (∀ field : string,
         CoreTool.parameters wrappedTool !! field =
         if decide (field = SWARM_CONTEXT_PROPERTY_NAME) then None
         else ({[ "reason" := ZodString; SWARM_CONTEXT_PROPERTY_NAME := ZodAny ]}
                 : ZodObject) !! field)
    ∧ (inShape SWARM_CONTEXT_PROPERTY_NAME
         {[ "reason" := ZodString; SWARM_CONTEXT_PROPERTY_NAME := ZodAny ]} = false →
       CoreTool.parameters wrappedTool =
       {[ "reason" := ZodString; SWARM_CONTEXT_PROPERTY_NAME := ZodAny ]})
    ∧ CoreTool.execute wrappedTool = None
    ∧ ∀ (args : Args) (context : Context),
        runTools (wrapTools (Some queenTools))
          [Called "transferToBilling" args; Settled 0] context
        = {| live := context; promises := [None]; settled := [] |}.
Proof.
  apply (wrapTools_handover_has_no_executor queenTools "transferToBilling"
           (Some "Hand the conversation to the billing agent")
           {[ "reason" := ZodString; SWARM_CONTEXT_PROPERTY_NAME := ZodAny ]}
           (λ _, inr {| ho_agent := billingRef; ho_context := None |})).
  vm_compute. reflexivity.
Defined.

(** * Properties of the handover protocol *)

Section HandoverProperties.

Variable agents : AgentRef → Agent.t.

Lemma lookup_handoverArguments (call : ToolCall.t) (context : Context) (k : string) :
  handoverArguments call context !! k =
  match context !! k with
  | Some v => Some v
  | None => ToolCall.args call !! k
  end.
Proof. unfold handoverArguments. apply lookup_spread. Qed.

(** What running the first handover call amounts to. *)
Lemma executeHandover_first (mode : Mode) (call : ToolCall.t) (rest : list ToolCall.t)
    (this : Swarm.t) (tools : gmap string AgentTool) (description : option string)
    (parameters : ZodObject) (execute : Args → Exception + HandoverExecuteResult) :
  Agent.tools (agents (Swarm._activeAgent this)) = Some tools →
  tools !! ToolCall.toolName call = Some (AgentHandoverTool description parameters execute) →
  executeHandover agents mode (call :: rest) this =
  match execute (handoverArguments call (Swarm.context this)) with
  | inl e => (Throw e, this)
  | inr result =>
      (Normal (Some (makeHandoverToolResult mode call
                       (agents (Swarm._activeAgent this)) (agents (ho_agent result)))),
       Swarm.setContext (spreadOpt (Swarm.context this) (ho_context result))
         (Swarm.setActiveAgent (ho_agent result) this))
  end.
Proof.
  intros Htools Htool. unfold executeHandover. rewrite Htools, Htool.
  destruct (execute _); reflexivity.
Qed.

(** C10: in both methods the executor of the handover tool is applied to
    the arguments of the call merged with the whole context, and where a
    key is in both it is given the value of the context. *)
Theorem handover_executor_gets_context_over_arguments (mode : Mode)
    (call : ToolCall.t) (rest : list ToolCall.t) (this : Swarm.t)
    (tools : gmap string AgentTool) (description : option string)
    (parameters : ZodObject) (execute : Args → Exception + HandoverExecuteResult) :
  Agent.tools (agents (Swarm._activeAgent this)) = Some tools →
  tools !! ToolCall.toolName call = Some (AgentHandoverTool description parameters execute) →
  let received := handoverArguments call (Swarm.context this) in
  (∀ (k : string) (v : JSONValue),
     Swarm.context this !! k = Some v → received !! k = Some v)
  ∧ (∀ k : string,
       Swarm.context this !! k = None → received !! k = ToolCall.args call !! k)
  ∧ executeHandover agents mode (call :: rest) this =
    match execute received with
    | inl e => (Throw e, this)
    | inr result =>
        (Normal (Some (makeHandoverToolResult mode call
                         (agents (Swarm._activeAgent this)) (agents (ho_agent result)))),
         Swarm.setContext (spreadOpt (Swarm.context this) (ho_context result))
           (Swarm.setActiveAgent (ho_agent result) this))
    end.
Proof.
  intros Htools Htool received. repeat split.
  - intros k v Hk. unfold received. rewrite lookup_handoverArguments, Hk. reflexivity.
  - intros k Hk. unfold received. rewrite lookup_handoverArguments, Hk. reflexivity.
  - eapply executeHandover_first; eassumption.
Qed.

(** C6: running a handover call makes the agent of its result the active
    agent, whatever else holds; a result without context leaves the context
    as it was, and one with a context merges it. *)
Theorem handover_sets_agent_and_keeps_context (mode : Mode)
    (call : ToolCall.t) (rest : list ToolCall.t) (this : Swarm.t)
    (tools : gmap string AgentTool) (description : option string)
    (parameters : ZodObject) (execute : Args → Exception + HandoverExecuteResult)
    (result : HandoverExecuteResult) :
  Agent.tools (agents (Swarm._activeAgent this)) = Some tools →
  tools !! ToolCall.toolName call = Some (AgentHandoverTool description parameters execute) →
  execute (handoverArguments call (Swarm.context this)) = inr result →
  let after := (executeHandover agents mode (call :: rest) this).2 in
  Swarm._activeAgent after = ho_agent result
  ∧ (ho_context result = None → Swarm.context after = Swarm.context this)
  ∧ (∀ patch : Context,
       ho_context result = Some patch →
       Swarm.context after = spread (Swarm.context this) patch).
Proof.
  intros Htools Htool Hrun after. unfold after.
  rewrite (executeHandover_first mode call rest this tools description parameters execute
             Htools Htool), Hrun.
  cbn. repeat split.
  - intros Hnone. rewrite Hnone. reflexivity.
  - intros patch Hpatch. rewrite Hpatch. reflexivity.
Qed.

End HandoverProperties.

(** The model passes a reason and an urgency, the context holds a user and a
    reason: the executor is given the reason of the context. *)
Lemma handover_executor_gets_context_over_arguments_witness :
  let received := handoverArguments billingCall (Swarm.context exampleSwarm) in
  received !! "reason" = Some (JString "set by the swarm")
  ∧ received !! "user" = Some (JString "ada")
  ∧ received !! "urgent" = Some (JBool true).
Proof.
  pose proof (handover_executor_gets_context_over_arguments exampleAgents Blocking
                billingCall [refundsCall] exampleSwarm queenTools
                (Some "Hand the conversation to the billing agent")
                {[ "reason" := ZodString; SWARM_CONTEXT_PROPERTY_NAME := ZodAny ]}
                (λ _, inr {| ho_agent := billingRef; ho_context := None |})
                eq_refl eq_refl) as [Hcontext [Hargs _]].
  cbv zeta in *. split; [|split].
  - apply Hcontext. reflexivity.
  - apply Hcontext. reflexivity.
  - rewrite Hargs; reflexivity.
Defined.

(** The handover to the billing agent brings no context: the billing agent
    is active and the context is the one before. *)
Lemma handover_sets_agent_and_keeps_context_witness :
  let after := (executeHandover exampleAgents Streaming [billingCall; refundsCall]
                  exampleSwarm).2 in
  Swarm._activeAgent after = billingRef
  ∧ Swarm.context after = Swarm.context exampleSwarm.
Proof.
  pose proof (handover_sets_agent_and_keeps_context exampleAgents Streaming
                billingCall [refundsCall] exampleSwarm queenTools
                (Some "Hand the conversation to the billing agent")
                {[ "reason" := ZodString; SWARM_CONTEXT_PROPERTY_NAME := ZodAny ]}
                (λ _, inr {| ho_agent := billingRef; ho_context := None |})
                {| ho_agent := billingRef; ho_context := None |}
                eq_refl eq_refl eq_refl) as [Hagent [Hcontext _]].
  cbv zeta in *. split.
  - exact Hagent.
  - apply Hcontext. reflexivity.
Defined.

(** * Properties of the array helpers and of the record of a handover *)

Lemma atIndex_last (n : nat) : atIndex (S n) (-1) = Some n.
Proof.
  unfold atIndex. change (-1 <? 0)%Z with true. cbv iota.
  replace (Z.of_nat (S n) + -1)%Z with (Z.of_nat n) by lia.
  rewrite (proj2 (Z.leb_le 0 (Z.of_nat n))) by lia.
  rewrite (proj2 (Z.ltb_lt (Z.of_nat n) (Z.of_nat (S n)))) by lia.
  cbn. rewrite Nat2Z.id. reflexivity.
Qed.




Lemma insert_middle {A : Type} (front : list A) (x y : A) (rest : list A) :
  <[length front := y]> (front ++ x :: rest) = front ++ y :: rest.
Proof.
  replace (length front) with (length front + 0) by lia.
  rewrite insert_app_r. reflexivity.
Qed.








Lemma role_cleanAssistantMessage (unused : list string) (a : SwarmMessage) :
  Message.role (cleanAssistantMessage unused a) = Message.role a.
Proof. unfold cleanAssistantMessage. destruct (Message.content a); reflexivity. Qed.


(** * Counting assistant messages *)

Lemma assistantCount_nil : assistantCount [] = 0%Z.
Proof. reflexivity. Qed.

Lemma assistantCount_cons (m : SwarmMessage) (l : list SwarmMessage) :
  assistantCount (m :: l)
  = ((if decide (Message.role m = RoleAssistant) then 1 else 0) + assistantCount l)%Z.
Proof.
  unfold assistantCount. rewrite filter_cons.
  destruct (decide (Message.role m = RoleAssistant)); cbn [length]; lia.
Qed.

Lemma assistantCount_app (l1 l2 : list SwarmMessage) :
  assistantCount (l1 ++ l2) = (assistantCount l1 + assistantCount l2)%Z.
Proof.
  induction l1 as [|m l1 IH]; cbn [app].
  - rewrite assistantCount_nil. lia.
  - rewrite !assistantCount_cons, IH. lia.
Qed.

Lemma assistantCount_nonneg (l : list SwarmMessage) : (0 ≤ assistantCount l)%Z.
Proof. unfold assistantCount. lia. Qed.

Lemma assistantCount_fmap (f : SwarmMessage → SwarmMessage) (l : list SwarmMessage) :
  (∀ m, Message.role (f m) = Message.role m) →
  assistantCount (f <$> l) = assistantCount l.
Proof.
  intros Hf. induction l as [|m l IH]; [reflexivity|].
  rewrite fmap_cons, !assistantCount_cons, IH, Hf. reflexivity.
Qed.

Lemma assistantCount_alter (f : SwarmMessage → SwarmMessage) (i : nat)
    (l : list SwarmMessage) :
  (∀ m, Message.role (f m) = Message.role m) →
  assistantCount (alter f i l) = assistantCount l.
Proof.
  intros Hf. revert i. induction l as [|m l IH]; intros [|i]; cbn; try reflexivity.
  - rewrite !assistantCount_cons, Hf. reflexivity.
  - rewrite !assistantCount_cons. f_equal. apply IH.
Qed.

Lemma assistantCount_insert (i : nat) (x m : SwarmMessage) (l : list SwarmMessage) :
  l !! i = Some m →
  Message.role x = Message.role m →
  assistantCount (<[i:=x]> l) = assistantCount l.
Proof.
  intros Hlookup Hrole. revert i Hlookup.
  induction l as [|y l IH]; intros [|i] Hlookup; cbn in *; try discriminate.
  - injection Hlookup as ->. rewrite !assistantCount_cons, Hrole. reflexivity.
  - rewrite !assistantCount_cons. f_equal. apply IH. exact Hlookup.
Qed.

Lemma at_last_lookup {A : Type} (l : list A) (x : A) :
  at_ l (-1) = Some x → l !! (length l - 1) = Some x.
Proof.
  unfold at_. destruct l as [|y l]; [discriminate|].
  cbn [length]. rewrite atIndex_last.
  replace (S (length l) - 1) with (length l) by lia. auto.
Qed.

Lemma assistantCount_toolMessageOf (r : ToolResultPart.t) :
  assistantCount [toolMessageOf r] = 0%Z.
Proof. reflexivity. Qed.

(** The record of a handover adds no assistant message and removes none. *)
Lemma recordHandover_assistantCount (handoverToolResult : option ToolResultPart.t)
    (handoverCalls : list ToolCall.t) (messages recorded : list SwarmMessage) :
  recordHandover handoverToolResult handoverCalls messages = Normal recorded →
  assistantCount recorded = assistantCount messages.
Proof.
  unfold recordHandover. intros H.
  destruct (at_ messages (-1)) as [m|] eqn:Hlast.
  - destruct (decide (Message.role m = RoleTool)) as [Htool|Hnot].
    + destruct (atIndex _ _) as [i|]; [|destruct handoverToolResult as [r|];
        [destruct (Message.content m)|]; discriminate].
      destruct handoverToolResult as [r|].
      * destruct (Message.content m) as [text|parts]; [discriminate|].
        injection H as <-.
        rewrite assistantCount_alter by apply role_cleanAssistantMessage.
        apply (assistantCount_insert _ _ m); [|reflexivity].
        apply at_last_lookup. exact Hlast.
      * injection H as <-.
        apply assistantCount_alter, role_cleanAssistantMessage.
    + destruct (atIndex _ _) as [i|]; [|destruct handoverToolResult; discriminate].
      destruct handoverToolResult as [r|]; injection H as <-;
        rewrite assistantCount_alter by apply role_cleanAssistantMessage.
      * rewrite assistantCount_app, assistantCount_toolMessageOf. lia.
      * reflexivity.
  - destruct (atIndex _ _) as [i|]; [|destruct handoverToolResult; discriminate].
    destruct handoverToolResult as [r|]; injection H as <-;
      rewrite assistantCount_alter by apply role_cleanAssistantMessage.
    + rewrite assistantCount_app, assistantCount_toolMessageOf. lia.
    + reflexivity.
Qed.

(** * Properties of a turn *)

Lemma keepsSettings_refl (this : Swarm.t) : keepsSettings this this.
Proof. unfold keepsSettings. tauto. Qed.

Lemma keepsSettings_trans (a b c : Swarm.t) :
  keepsSettings a b → keepsSettings b c → keepsSettings a c.
Proof. unfold keepsSettings. intros H1 H2. intuition congruence. Qed.

Lemma keepsSettings_setContext (context : Context) (this : Swarm.t) :
  keepsSettings this (Swarm.setContext context this).
Proof. unfold keepsSettings. cbn. tauto. Qed.

Lemma keepsSettings_setActiveAgent (a : AgentRef) (this : Swarm.t) :
  keepsSettings this (Swarm.setActiveAgent a this).
Proof. unfold keepsSettings. cbn. tauto. Qed.

Create HintDb settings.

#[local] Hint Resolve keepsSettings_refl keepsSettings_setContext
  keepsSettings_setActiveAgent : settings.

Section TurnProperties.

Variable agents : AgentRef → Agent.t.
Variable engine : nat → EngineRequest.t → EngineRun.t.

Lemma executeHandover_keepsSettings (mode : Mode) (handoverCalls : list ToolCall.t)
    (this : Swarm.t) :
  keepsSettings this (executeHandover agents mode handoverCalls this).2.
Proof.
  unfold executeHandover.
  destruct handoverCalls as [|call rest]; cbn; auto with settings.
  destruct (Agent.tools _) as [tools|]; cbn; auto with settings.
  destruct (tools !! _) as [[? ? ?|? ? execute]|]; cbn; auto with settings.
  destruct (execute _); cbn; auto with settings.
  eapply keepsSettings_trans; auto with settings.
Qed.

Lemma forcedReturn_keepsSettings (initialAgent : AgentRef) (lastResult : EngineResult.t)
    (maxTotalSteps : Z) (responseMessages : list SwarmMessage) (this : Swarm.t) :
  keepsSettings this
    (forcedReturn agents initialAgent lastResult maxTotalSteps responseMessages this).
Proof. unfold forcedReturn. destruct (_ && _)%bool; auto with settings. Qed.

Lemma processTurn_keepsSettings (mode : Mode) (initialAgent : AgentRef)
    (lastResult : EngineResult.t) (maxTotalSteps : Z) (acc : Accumulated)
    (this : Swarm.t) :
  keepsSettings this
    (processTurn agents mode initialAgent lastResult maxTotalSteps acc this).2.
Proof.
  unfold processTurn.
  destruct (findHandoverCalls _ _) as [handoverCalls|e]; cbn; auto with settings.
  pose proof (executeHandover_keepsSettings mode handoverCalls this) as Hexec.
  destruct (executeHandover agents mode handoverCalls this) as [[result|e] this1];
    cbn in *; auto.
  destruct (recordHandover _ _ _); cbn; auto.
  eapply keepsSettings_trans; [exact Hexec|apply forcedReturn_keepsSettings].
Qed.

Lemma iteration_keepsSettings (mode : Mode) (options : SwarmInvocationOptions.t)
    (initialMessages : list SwarmMessage) (maxTotalSteps : Z) (call : nat)
    (acc : Accumulated) (this : Swarm.t) :
  keepsSettings this
    (iteration agents engine mode options initialMessages maxTotalSteps call acc this).2.
Proof.
  unfold iteration.
  set (request := engineRequest _ _ _ _ _ _ _).
  set (this1 := engineRan _ _ this).
  assert (H1 : keepsSettings this this1) by (subst this1; apply keepsSettings_setContext).
  destruct (EngineRun.outcome _) as [e|lastResult]; cbn; auto.
  destruct (endsGeneration _); cbn; auto.
  match goal with
  | |- context [processTurn agents mode ?i lastResult maxTotalSteps ?a this1] =>
      pose proof (processTurn_keepsSettings mode i lastResult maxTotalSteps a this1) as H2;
      destruct (processTurn agents mode i lastResult maxTotalSteps a this1)
        as [[acc'|e] this2]
  end; cbn in H2 |- *; exact (keepsSettings_trans _ _ _ H1 H2).
Qed.

Lemma turnLoop_keepsSettings (fuel : nat) (mode : Mode)
    (options : SwarmInvocationOptions.t) (initialMessages : list SwarmMessage)
    (maxTotalSteps : Z) (call : nat) (acc : Accumulated) (this : Swarm.t)
    (completion : Completion (EngineResult.t * Accumulated)) (this' : Swarm.t) :
  turnLoop agents engine fuel mode options initialMessages maxTotalSteps call acc this
    = Some (completion, this') →
  keepsSettings this this'.
Proof.
  revert call acc this.
  induction fuel as [|fuel IH]; intros call acc this; cbn; [discriminate|].
  pose proof (iteration_keepsSettings mode options initialMessages maxTotalSteps
                call acc this) as Hstep.
  destruct (iteration agents engine mode options initialMessages maxTotalSteps call acc this)
    as [[[[broke lastResult] acc1]|e] this1]; cbn in Hstep.
  - destruct broke.
    + intros [= <- <-]. exact Hstep.
    + destruct (_ <? _)%Z.
      * intros Hloop. eapply keepsSettings_trans; [exact Hstep|]. eapply IH. exact Hloop.
      * intros [= <- <-]. exact Hstep.
  - intros [= <- <-]. exact Hstep.
Qed.

(** What a turn that ends normally went through. *)
Lemma processTurn_Normal (mode : Mode) (initialAgent : AgentRef)
    (lastResult : EngineResult.t) (maxTotalSteps : Z) (acc acc' : Accumulated)
    (this this' : Swarm.t) :
  processTurn agents mode initialAgent lastResult maxTotalSteps acc this
    = (Normal acc', this') →
  ∃ (handoverCalls : list ToolCall.t) (handoverToolResult : option ToolResultPart.t)
    (handedOver : Swarm.t),
    findHandoverCalls (Agent.tools (agents (Swarm._activeAgent this))) lastResult
      = Normal handoverCalls
    ∧ executeHandover agents mode handoverCalls this
      = (Normal handoverToolResult, handedOver)
    ∧ recordHandover handoverToolResult handoverCalls (responseMessages acc)
      = Normal (responseMessages acc')
    ∧ this' = forcedReturn agents initialAgent lastResult maxTotalSteps
                (responseMessages acc') handedOver.
Proof.
  unfold processTurn. intros H.
  destruct (findHandoverCalls _ _) as [handoverCalls|e] eqn:Hfind; [|discriminate].
  destruct (executeHandover agents mode handoverCalls this)
    as [[handoverToolResult|e] handedOver] eqn:Hexec; [|discriminate].
  destruct (recordHandover _ _ _) as [recorded|e] eqn:Hrecord; [|discriminate].
  injection H as <- <-. cbn.
  exists handoverCalls, handoverToolResult, handedOver.
  split; [reflexivity|]. split; [exact Hexec|]. split; [exact Hrecord|reflexivity].
Qed.

(** What an iteration that ends normally went through. *)
Lemma iteration_Normal (mode : Mode) (options : SwarmInvocationOptions.t)
    (initialMessages : list SwarmMessage) (maxTotalSteps : Z) (call : nat)
    (acc : Accumulated) (this : Swarm.t) (broke : bool)
    (lastResult : EngineResult.t) (acc' : Accumulated) (this' : Swarm.t) :
  iteration agents engine mode options initialMessages maxTotalSteps call acc this
    = (Normal (broke, lastResult, acc'), this') →
  let request :=
    engineRequest agents mode options initialMessages maxTotalSteps
      (responseMessages acc) this in
  let run := engine call request in
  EngineRun.outcome run = inr lastResult
  ∧ broke = endsGeneration (EngineResult.finishReason lastResult)
  ∧ if broke
    then acc' = pushResponse agents mode call lastResult acc (engineRan request run this)
         ∧ this' = engineRan request run this
    else processTurn agents mode (Swarm._activeAgent this) lastResult maxTotalSteps
           (pushResponse agents mode call lastResult acc (engineRan request run this))
           (engineRan request run this)
         = (Normal acc', this').
Proof.
  intros H. cbv zeta. unfold iteration in H. cbv zeta in H.
  destruct (EngineRun.outcome _) as [e|result]; [discriminate|].
  destruct (endsGeneration (EngineResult.finishReason result)) eqn:Hends.
  - injection H as <- <- <- <-. rewrite Hends. auto.
  - destruct (processTurn _ _ _ _ _ _ _) as [[acc1|e] this1] eqn:Hturn; [|discriminate].
    injection H as <- <- <- <-. rewrite Hends. auto.
Qed.

Lemma forcedReturn_fires (initialAgent : AgentRef) (lastResult : EngineResult.t)
    (maxTotalSteps : Z) (responseMessages : list SwarmMessage) (this : Swarm.t)
    (cap : Z) :
  Agent.maxTurns (Agent.config (agents initialAgent)) = Some cap →
  cap ≠ 0%Z →
  assistantCount (EngineResult.messages lastResult) = cap →
  (assistantCount responseMessages < maxTotalSteps)%Z →
  forcedReturn agents initialAgent lastResult maxTotalSteps responseMessages this
  = Swarm.setActiveAgent (Swarm.queen this) this.
Proof.
  intros Hcap Hnonzero Hcount Hbelow. unfold forcedReturn.
  rewrite Hcap. cbn.
  assert (H0 : (cap =? 0)%Z = false) by (apply Z.eqb_neq; exact Hnonzero).
  rewrite H0. cbn.
  rewrite bool_decide_eq_true_2.
  - assert (Hlt : (assistantCount responseMessages <? maxTotalSteps)%Z = true)
      by (apply Z.ltb_lt; exact Hbelow).
    rewrite Hlt. reflexivity.
  - unfold assistantCount in Hcount. rewrite Hcount. reflexivity.
Qed.

(** C2, as the code has it: when the turn goes on after the engine (the
    finish reason is none of stop, length, content-filter and error, and
    nothing throws), the agent of the turn has a turn cap other than zero,
    the engine produced exactly that many assistant messages, and the
    assistant messages of the invocation are fewer than the ceiling, then
    the queen is the active agent at the end of the turn, in both methods
    and whatever a handover of the turn chose. *)
Theorem forced_return_to_queen (mode : Mode) (options : SwarmInvocationOptions.t)
    (initialMessages : list SwarmMessage) (maxTotalSteps : Z) (call : nat)
    (acc : Accumulated) (this : Swarm.t) (broke : bool)
    (lastResult : EngineResult.t) (acc' : Accumulated) (this' : Swarm.t) (cap : Z) :
  iteration agents engine mode options initialMessages maxTotalSteps call acc this
    = (Normal (broke, lastResult, acc'), this') →
  endsGeneration (EngineResult.finishReason lastResult) = false →
  Agent.maxTurns (Agent.config (agents (Swarm._activeAgent this))) = Some cap →
  cap ≠ 0%Z →
  assistantCount (EngineResult.messages lastResult) = cap →
  (assistantCount (responseMessages acc') < maxTotalSteps)%Z →
  Swarm._activeAgent this' = Swarm.queen this
  ∧ Swarm.queen this' = Swarm.queen this.
Proof.
  intros Hiter Hgoes Hcap Hnonzero Hcount Hbelow.
  pose proof (iteration_keepsSettings mode options initialMessages maxTotalSteps
                call acc this) as Hkeeps.
  rewrite Hiter in Hkeeps. cbn in Hkeeps.
  destruct Hkeeps as (_ & _ & Hqueen & _).
  split; [|exact Hqueen].
  apply iteration_Normal in Hiter. cbv zeta in Hiter.
  destruct Hiter as (_ & Hbroke & Hturn).
  rewrite Hgoes in Hbroke. subst broke.
  apply processTurn_Normal in Hturn.
  destruct Hturn as (handoverCalls & handoverToolResult & handedOver
                     & _ & Hexec & _ & ->).
  rewrite (forcedReturn_fires _ _ _ _ _ cap Hcap Hnonzero Hcount Hbelow). cbn.
  pose proof (executeHandover_keepsSettings mode handoverCalls
                (engineRan
                   (engineRequest agents mode options initialMessages maxTotalSteps
                      (responseMessages acc) this)
                   (engine call
                      (engineRequest agents mode options initialMessages maxTotalSteps
                         (responseMessages acc) this))
                   this)) as Hk.
  rewrite Hexec in Hk. cbn in Hk.
  destruct Hk as (_ & _ & Hq & _). exact Hq.
Qed.


(** An exception of the engine ends the turn. *)
Lemma iteration_engine_throws (mode : Mode) (options : SwarmInvocationOptions.t)
    (initialMessages : list SwarmMessage) (maxTotalSteps : Z) (call : nat)
    (acc : Accumulated) (this : Swarm.t) (e : Exception) :
  EngineRun.outcome
    (engine call
       (engineRequest agents mode options initialMessages maxTotalSteps
          (responseMessages acc) this)) = inl e →
  (iteration agents engine mode options initialMessages maxTotalSteps call acc this).1
  = Throw e.
Proof. intros H. unfold iteration. cbv zeta. rewrite H. reflexivity. Qed.

(** An exception of the executor of the first handover call ends the turn. *)
Lemma iteration_handover_throws (mode : Mode) (options : SwarmInvocationOptions.t)
    (initialMessages : list SwarmMessage) (maxTotalSteps : Z) (call : nat)
    (acc : Accumulated) (this : Swarm.t) (lastResult : EngineResult.t)
    (first : ToolCall.t) (others : list ToolCall.t) (tools : gmap string AgentTool)
    (description : option string) (parameters : ZodObject)
    (execute : Args → Exception + HandoverExecuteResult) (e : Exception) :
  let request :=
    engineRequest agents mode options initialMessages maxTotalSteps
      (responseMessages acc) this in
  let ran := engineRan request (engine call request) this in
  EngineRun.outcome (engine call request) = inr lastResult →
  endsGeneration (EngineResult.finishReason lastResult) = false →
  findHandoverCalls (Agent.tools (agents (Swarm._activeAgent this))) lastResult
    = Normal (first :: others) →
  Agent.tools (agents (Swarm._activeAgent this)) = Some tools →
  tools !! ToolCall.toolName first
    = Some (AgentHandoverTool description parameters execute) →
  execute (handoverArguments first (Swarm.context ran)) = inl e →
  (iteration agents engine mode options initialMessages maxTotalSteps call acc this).1
  = Throw e.
Proof.
  intros request ran Hout Hgoes Hfind Htools Htool Hrun.
  unfold iteration. cbv zeta. fold request. rewrite Hout, Hgoes.
  fold ran. unfold processTurn.
  change (Agent.tools (agents (Swarm._activeAgent ran)))
    with (Agent.tools (agents (Swarm._activeAgent this))).
  rewrite Hfind.
  rewrite (executeHandover_first agents mode first others ran tools description
             parameters execute Htools Htool).
  rewrite Hrun. reflexivity.
Qed.

(** A turn that throws ends the loop by its exception, however many turns
    went before. *)
Lemma turnLoop_throws_when_reached (mode : Mode) (options : SwarmInvocationOptions.t)
    (initialMessages : list SwarmMessage) (maxTotalSteps : Z)
    (from to : LoopState) (e : Exception) (this' : Swarm.t) :
  rtc (nextTurn agents engine mode options initialMessages maxTotalSteps) from to →
  iteration agents engine mode options initialMessages maxTotalSteps
    (turnNumber to) (accumulated to) (swarm to) = (Throw e, this') →
  ∃ fuel,
    turnLoop agents engine fuel mode options initialMessages maxTotalSteps
      (turnNumber from) (accumulated from) (swarm from)
    = Some (Throw e, this').
Proof.
  intros Hreach. induction Hreach as [state|from middle to Hstep _ IH]; intros Hthrow.
  - exists 1. cbn. rewrite Hthrow. reflexivity.
  - destruct (IH Hthrow) as [fuel Hfuel]. exists (S fuel).
    destruct Hstep as [call acc this lastResult acc' this1 Hturn Hbelow].
    cbn in *. rewrite Hturn.
    apply Z.ltb_lt in Hbelow. rewrite Hbelow. exact Hfuel.
Qed.

(** A turn adds the assistant messages of the engine, no more and no less. *)
Lemma iteration_assistantCount (mode : Mode) (options : SwarmInvocationOptions.t)
    (initialMessages : list SwarmMessage) (maxTotalSteps : Z) (call : nat)
    (acc : Accumulated) (this : Swarm.t) (broke : bool)
    (lastResult : EngineResult.t) (acc' : Accumulated) (this' : Swarm.t) :
  iteration agents engine mode options initialMessages maxTotalSteps call acc this
    = (Normal (broke, lastResult, acc'), this') →
  assistantCount (responseMessages acc')
  = (assistantCount (responseMessages acc)
     + assistantCount (EngineResult.messages lastResult))%Z.
Proof.
  intros H. apply iteration_Normal in H. cbv zeta in H.
  destruct H as (_ & _ & H).
  assert (Hpushed : ∀ ran,
            assistantCount (responseMessages (pushResponse agents mode call lastResult acc ran))
            = (assistantCount (responseMessages acc)
               + assistantCount (EngineResult.messages lastResult))%Z).
  { intros ran. cbn [pushResponse responseMessages].
    rewrite assistantCount_app, assistantCount_fmap; reflexivity. }
  destruct broke.
  - destruct H as [-> _]. apply Hpushed.
  - apply processTurn_Normal in H.
    destruct H as (handoverCalls & handoverToolResult & handedOver & _ & _ & Hrecord & _).
    apply recordHandover_assistantCount in Hrecord. rewrite Hrecord. apply Hpushed.
Qed.

(** More fuel does not change the outcome of a loop that ended. *)
Lemma turnLoop_more_fuel (fuel fuel' : nat) (mode : Mode)
    (options : SwarmInvocationOptions.t) (initialMessages : list SwarmMessage)
    (maxTotalSteps : Z) (call : nat) (acc : Accumulated) (this : Swarm.t)
    (outcome : Completion (EngineResult.t * Accumulated) * Swarm.t) :
  turnLoop agents engine fuel mode options initialMessages maxTotalSteps call acc this
    = Some outcome →
  fuel ≤ fuel' →
  turnLoop agents engine fuel' mode options initialMessages maxTotalSteps call acc this
    = Some outcome.
Proof.
  revert fuel' call acc this.
  induction fuel as [|fuel IH]; intros fuel' call acc this; [discriminate|].
  intros H Hle. destruct fuel' as [|fuel']; [lia|].
  cbn in *.
  destruct (iteration agents engine mode options initialMessages maxTotalSteps call acc this)
    as [[[[broke lastResult] acc1]|e] this1]; [|exact H].
  destruct broke; [exact H|].
  destruct (_ <? _)%Z; [|exact H].
  apply IH; [exact H|lia].
Qed.

(** With an engine that answers with assistant messages the loop ends: one
    turn of fuel per assistant message still allowed is enough. *)
Lemma turnLoop_enough_fuel (mode : Mode) (options : SwarmInvocationOptions.t)
    (initialMessages : list SwarmMessage) (maxTotalSteps : Z) :
  answersWithAssistant engine →
  ∀ (fuel call : nat) (acc : Accumulated) (this : Swarm.t),
    0 < fuel →
    (maxTotalSteps - assistantCount (responseMessages acc) < Z.of_nat fuel)%Z →
    is_Some (turnLoop agents engine fuel mode options initialMessages maxTotalSteps
               call acc this).
Proof.
  intros Hengine fuel. induction fuel as [|fuel IH]; intros call acc this Hpos Hfuel;
    [lia|].
  cbn.
  destruct (iteration agents engine mode options initialMessages maxTotalSteps call acc this)
    as [[[[broke lastResult] acc1]|e] this1] eqn:Hturn; [|eauto].
  destruct broke; [eauto|].
  destruct (_ <? _)%Z eqn:Hbelow; [|eauto].
  apply Z.ltb_lt in Hbelow.
  pose proof (iteration_assistantCount _ _ _ _ _ _ _ _ _ _ _ Hturn) as Hcount.
  pose proof (iteration_Normal _ _ _ _ _ _ _ _ _ _ _ Hturn) as Hnormal.
  cbv zeta in Hnormal. destruct Hnormal as (Hout & _ & _).
  pose proof (Hengine _ _ _ Hout) as Hone.
  apply IH; lia.
Qed.

End TurnProperties.

(** * Worked turns *)

(** The billing agent, with a turn cap of one, runs the order lookup and is
    out of steps: the queen is active after the turn. *)
Lemma forced_return_to_queen_witness :
  let turn :=
    iteration exampleAgents engineLooksUp Streaming askBilling [] 100 0
      noMessages billingSwarm in
  Swarm._activeAgent turn.2 = queenRef
  ∧ Swarm.queen turn.2 = queenRef.
Proof.
  cbv zeta.
  apply (forced_return_to_queen exampleAgents engineLooksUp Streaming askBilling [] 100 0
           noMessages billingSwarm false looksUp
           (accumulatedBy
              (iteration exampleAgents engineLooksUp Streaming askBilling [] 100 0
                 noMessages billingSwarm))
           (iteration exampleAgents engineLooksUp Streaming askBilling [] 100 0
              noMessages billingSwarm).2
           1%Z).
  - vm_compute. reflexivity.
  - reflexivity.
  - reflexivity.
  - lia.
  - vm_compute. reflexivity.
  - vm_compute. reflexivity.
Defined.

(** C2 as stated fails: the billing agent has a turn cap of one, the engine
    answers with one assistant message and the finish reason stop, the
    invocation counts one assistant message against a ceiling of 100; the
    turn leaves the loop at once and the billing agent stays active. *)
Lemma forced_return_skipped_when_generation_ends :
  let turn :=
    iteration exampleAgents engineAnswers Blocking askBilling [] 100 0
      noMessages billingSwarm in
  ∃ (lastResult : EngineResult.t) (acc' : Accumulated),
    turn.1 = Normal (true, lastResult, acc')
    ∧ Agent.maxTurns (Agent.config (exampleAgents (Swarm._activeAgent billingSwarm)))
      = Some 1%Z
    ∧ assistantCount (EngineResult.messages lastResult) = 1%Z
    ∧ (assistantCount (responseMessages acc') < 100)%Z
    ∧ Swarm._activeAgent turn.2 = billingRef
    ∧ Swarm.queen turn.2 = queenRef
    ∧ billingRef ≠ queenRef.
Proof.
  cbv zeta. eexists. eexists.
  split; [vm_compute; reflexivity|].
  split; [reflexivity|].
  split; [vm_compute; reflexivity|].
  split; [vm_compute; reflexivity|].
  split; [vm_compute; reflexivity|].
  split; [reflexivity|].
  discriminate.
Qed.



(** * Properties of an invocation *)

Lemma handleUpdatesAndOverrides_settings (options : SwarmInvocationOptions.t)
    (this : Swarm.t) :
  let start := handleUpdatesAndOverrides options this in
  Swarm.queen start = Swarm.queen this
  ∧ Swarm.returnToQueen start = Swarm.returnToQueen this
  ∧ Swarm.maxTurns start = Swarm.maxTurns this
  ∧ Swarm.messages start
    = match SwarmInvocationOptions.input options with
      | WithMessages messages => messages
      | WithContent _ => Swarm.messages this
      end.
Proof.
  unfold handleUpdatesAndOverrides.
  destruct (SwarmInvocationOptions.setAgent options),
    (SwarmInvocationOptions.input options); cbn; auto.
Qed.

Section InvocationProperties.

Variable agents : AgentRef → Agent.t.
Variable engine : nat → EngineRequest.t → EngineRun.t.

(** What an invocation that returns went through. *)
Lemma invoke_Normal (mode : Mode) (fuel : nat) (options : SwarmInvocationOptions.t)
    (this : Swarm.t) (output : Output.t) (final : Swarm.t) :
  invoke agents engine mode fuel options this = Some (Normal output, final) →
  let start := handleUpdatesAndOverrides options this in
  ∃ (lastResult : EngineResult.t) (acc : Accumulated) (loopEnd : Swarm.t),
    turnLoop agents engine fuel mode options (initialMessagesOf options start)
      (default (Swarm.maxTurns start) (SwarmInvocationOptions.maxTurns options))
      0 {| responseMessages := []; stream := [] |} start
    = Some (Normal (lastResult, acc), loopEnd)
    ∧ keepsSettings start loopEnd
    ∧ (output, final) = complete lastResult acc loopEnd.
Proof.
  intros H. cbv zeta. unfold invoke in H. cbv zeta in H.
  destruct (turnLoop _ _ _ _ _ _ _ _ _ _) as [[[[lastResult acc]|e] loopEnd]|] eqn:Hloop;
    try discriminate.
  exists lastResult, acc, loopEnd.
  split; [reflexivity|]. split.
  - eapply turnLoop_keepsSettings. exact Hloop.
  - destruct (complete lastResult acc loopEnd) as [output' final'].
    injection H as <- <-. reflexivity.
Qed.

(** The history after an invocation that returns: the history that the
    overrides left, then the messages of the responses, once each. *)
Lemma invoke_history (mode : Mode) (fuel : nat) (options : SwarmInvocationOptions.t)
    (this : Swarm.t) (output : Output.t) (final : Swarm.t) :
  invoke agents engine mode fuel options this = Some (Normal output, final) →
  Swarm.messages final
  = Swarm.messages (handleUpdatesAndOverrides options this) ++ Output.messages output.
Proof.
  intros H. apply invoke_Normal in H. cbv zeta in H.
  destruct H as (lastResult & acc & loopEnd & _ & Hkeeps & Hcomplete).
  destruct Hkeeps as (_ & _ & _ & Hmessages & _).
  unfold complete in Hcomplete. injection Hcomplete as -> ->.
  rewrite <- Hmessages.
  destruct (Swarm.returnToQueen _); reflexivity.
Qed.

(** With an engine that answers with assistant messages, an invocation
    completes, by a value or by an exception, within as many turns as the
    ceiling allows assistant messages, and one at least. *)
Lemma invoke_completes (mode : Mode) (options : SwarmInvocationOptions.t)
    (this : Swarm.t) :
  answersWithAssistant engine →
  let ceiling :=
    default (Swarm.maxTurns (handleUpdatesAndOverrides options this))
            (SwarmInvocationOptions.maxTurns options) in
  is_Some (invoke agents engine mode (S (Z.to_nat ceiling)) options this).
Proof.
  intros Hengine ceiling. unfold invoke. cbv zeta. fold ceiling.
  destruct (turnLoop_enough_fuel agents engine mode options
              (initialMessagesOf options (handleUpdatesAndOverrides options this))
              ceiling Hengine (S (Z.to_nat ceiling)) 0
              {| responseMessages := []; stream := [] |}
              (handleUpdatesAndOverrides options this)) as [outcome Houtcome].
  - lia.
  - cbn [responseMessages]. rewrite assistantCount_nil. lia.
  - rewrite Houtcome. destruct outcome as [[[lastResult acc]|e] loopEnd]; [|eauto].
    destruct (complete lastResult acc loopEnd). eauto.
Qed.

(** More fuel does not change what an invocation completed with. *)
Lemma invoke_more_fuel (mode : Mode) (fuel fuel' : nat)
    (options : SwarmInvocationOptions.t) (this : Swarm.t)
    (outcome : Completion Output.t * Swarm.t) :
  invoke agents engine mode fuel options this = Some outcome →
  fuel ≤ fuel' →
  invoke agents engine mode fuel' options this = Some outcome.
Proof.
  unfold invoke. cbv zeta. intros H Hle.
  destruct (turnLoop agents engine fuel _ _ _ _ _ _ _) as [loopOutcome|] eqn:Hloop;
    [|discriminate].
  rewrite (turnLoop_more_fuel agents engine fuel fuel' _ _ _ _ _ _ _ _ Hloop Hle).
  exact H.
Qed.

(** The promises of [streamText] resolve exactly when its loop ends
    normally, and with what the loop and the bookkeeping after it give. *)
Lemma streamText_Resolves (fuel : nat) (options : SwarmInvocationOptions.t)
    (this : Swarm.t) (output : Output.t) (final : Swarm.t) :
  streamText agents engine fuel options this = Some (Resolves output, final)
  ↔ invoke agents engine Streaming fuel options this = Some (Normal output, final).
Proof.
  unfold streamText.
  destruct (invoke agents engine Streaming fuel options this) as [[[o|e] s]|];
    split; intros H; try discriminate; injection H as <- <-; reflexivity.
Qed.

Lemma streamText_is_Some (fuel : nat) (options : SwarmInvocationOptions.t)
    (this : Swarm.t) :
  is_Some (invoke agents engine Streaming fuel options this) →
  is_Some (streamText agents engine fuel options this).
Proof.
  unfold streamText. intros [[[o|e] s] ->]; eauto.
Qed.

(** C3, as the code has it: the active agent that [generateText] returns
    and that [streamText] resolves is the active agent that the swarm holds
    after the call.  For a swarm built to return to the queen both are the
    queen; otherwise both are the agent that was active when the loop
    ended.  With an engine that answers with assistant messages the call
    does complete. *)
Theorem reported_agent_is_stored_agent (options : SwarmInvocationOptions.t)
    (this : Swarm.t) :
  let start := handleUpdatesAndOverrides options this in
  let ceiling :=
    default (Swarm.maxTurns start) (SwarmInvocationOptions.maxTurns options) in
  (answersWithAssistant engine →
   is_Some (generateText agents engine (S (Z.to_nat ceiling)) options this)
   ∧ is_Some (streamText agents engine (S (Z.to_nat ceiling)) options this))
  ∧ ∀ (fuel : nat) (output : Output.t) (final : Swarm.t),
      generateText agents engine fuel options this = Some (Normal output, final)
      ∨ streamText agents engine fuel options this = Some (Resolves output, final) →
      Output.activeAgent output = Swarm._activeAgent final
      ∧ (Swarm.returnToQueen this = true →
         Output.activeAgent output = Swarm.queen this
         ∧ Swarm._activeAgent final = Swarm.queen this)
      ∧ (Swarm.returnToQueen this = false →
         ∃ (mode : Mode) (lastResult : EngineResult.t) (acc : Accumulated)
           (loopEnd : Swarm.t),
           turnLoop agents engine fuel mode options (initialMessagesOf options start)
             ceiling 0 {| responseMessages := []; stream := [] |} start
           = Some (Normal (lastResult, acc), loopEnd)
           ∧ Output.activeAgent output = Swarm._activeAgent loopEnd).
Proof.
  intros start ceiling. split.
  { intros Hengine. split; [|apply streamText_is_Some];
      apply invoke_completes; exact Hengine. }
  intros fuel output final H.
  assert (Hinvoke : ∃ mode, invoke agents engine mode fuel options this
                            = Some (Normal output, final)).
  { destruct H as [H|H]; [exists Blocking|exists Streaming];
      [exact H|apply streamText_Resolves; exact H]. }
  clear H. destruct Hinvoke as [mode H].
  apply invoke_Normal in H. cbv zeta in H.
  destruct H as (lastResult & acc & loopEnd & Hloop & Hkeeps & Hcomplete).
  destruct Hkeeps as (_ & _ & Hqueen & _ & _ & Hflag).
  destruct (handleUpdatesAndOverrides_settings options this) as (Hq & Hf & _).
  rewrite Hq in Hqueen. rewrite Hf in Hflag.
  unfold complete in Hcomplete. injection Hcomplete as -> ->.
  cbn [Output.activeAgent Swarm.returnToQueen Swarm.setMessages].
  split; [reflexivity|]. split.
  - intros Hset. rewrite Hflag, Hset. cbn. rewrite Hqueen. split; reflexivity.
  - intros Hunset. exists mode, lastResult, acc, loopEnd.
    split; [exact Hloop|]. rewrite Hflag, Hunset. reflexivity.
Qed.

(** A turn that completes by an exception, reached from the start of the
    loop, makes [generateText] complete by it, with the history with which
    the loop began. *)
Lemma generateText_throws_when_reached (options : SwarmInvocationOptions.t)
    (this : Swarm.t) (reached : LoopState) (e : Exception) :
  let start := handleUpdatesAndOverrides options this in
  let initialMessages := initialMessagesOf options start in
  let maxTotalSteps :=
    default (Swarm.maxTurns start) (SwarmInvocationOptions.maxTurns options) in
  rtc (nextTurn agents engine Blocking options initialMessages maxTotalSteps)
    {| turnNumber := 0;
       accumulated := {| responseMessages := []; stream := [] |};
       swarm := start |}
    reached →
  (iteration agents engine Blocking options initialMessages maxTotalSteps
     (turnNumber reached) (accumulated reached) (swarm reached)).1 = Throw e →
  ∃ (fuel : nat) (this' : Swarm.t),
    generateText agents engine fuel options this = Some (Throw e, this')
    ∧ Swarm.messages this' = Swarm.messages start.
Proof.
  intros start initialMessages maxTotalSteps Hreach Hthrow.
  destruct (iteration agents engine Blocking options initialMessages maxTotalSteps
              (turnNumber reached) (accumulated reached) (swarm reached))
    as [completion this'] eqn:Hturn.
  cbn in Hthrow. subst completion.
  destruct (turnLoop_throws_when_reached agents engine Blocking options
              initialMessages maxTotalSteps _ _ e this' Hreach Hturn)
    as [fuel Hfuel].
  exists fuel, this'. cbn in Hfuel. split.
  - unfold generateText, invoke. cbv zeta.
    fold start. fold initialMessages. fold maxTotalSteps.
    rewrite Hfuel. reflexivity.
  - apply turnLoop_keepsSettings in Hfuel.
    destruct Hfuel as (_ & _ & _ & Hmessages & _). exact Hmessages.
Qed.

(** C9: in [generateText] nothing catches.  An exception of the engine, or
    of the executor of the handover tool, is the completion of the turn.
    The wrapper of a function tool catches nothing either: the promise that
    the engine awaits settles by the exception of the executor, and nothing
    is merged; when the engine hands on what its executors throw, as
    [generateText] of [ai] does, the first exception by which the promise of
    an executor settles is, as the engine passes it on, the completion of
    the invocation.  A turn that
    completes by an exception makes the invocation complete by it; and then
    the history is the one with which the loop began: no message of the
    invocation is in it. *)
Theorem generateText_throw_propagates_history_intact
    (options : SwarmInvocationOptions.t) (this : Swarm.t) :
  let start := handleUpdatesAndOverrides options this in
  let initialMessages := initialMessagesOf options start in
  let maxTotalSteps :=
    default (Swarm.maxTurns start) (SwarmInvocationOptions.maxTurns options) in
  (∀ (call : nat) (acc : Accumulated) (current : Swarm.t) (e : Exception),
     EngineRun.outcome
       (engine call
          (engineRequest agents Blocking options initialMessages maxTotalSteps
             (responseMessages acc) current)) = inl e →
     (iteration agents engine Blocking options initialMessages maxTotalSteps
        call acc current).1 = Throw e)
  ∧ (∀ (description : option string) (parameters : ZodObject)
       (execute : Args → Exception + FunctionExecuteResult)
       (args : Args) (context : Context) (e : Exception),
       execute (if inShape SWARM_CONTEXT_PROPERTY_NAME parameters
                then <[SWARM_CONTEXT_PROPERTY_NAME := JObject context]> args
                else args) = inl e →
       ∃ wrapped : Executor,
         CoreTool.execute (wrapTool (AgentFunctionTool description parameters execute))
         = Some wrapped
         ∧ wrapped args context = {| handedBack := Throw e; merged := None |}
         ∧ ∀ (tools : gmap string AgentTool) (toolName : string),
             tools !! toolName = Some (AgentFunctionTool description parameters execute) →
             runTools (wrapTools (Some tools)) [Called toolName args; Settled 0] context
             = {| live := context; promises := [None]; settled := [Throw e] |})
  ∧ (∀ (reached : LoopState) (e : Exception) (passedOn : Exception → Exception),
       let request :=
         engineRequest agents Blocking options initialMessages maxTotalSteps
           (responseMessages (accumulated reached)) (swarm reached) in
       let run := engine (turnNumber reached) request in
       rtc (nextTurn agents engine Blocking options initialMessages maxTotalSteps)
         {| turnNumber := 0;
            accumulated := {| responseMessages := []; stream := [] |};
            swarm := start |}
         reached →
       firstThrown
         (settled (runTools (EngineRequest.tools request) (EngineRun.toolRuns run)
                     (Swarm.context (swarm reached))))
       = Some e →
       rethrows passedOn request (Swarm.context (swarm reached)) run →
       ∃ (fuel : nat) (this' : Swarm.t),
         generateText agents engine fuel options this = Some (Throw (passedOn e), this')
         ∧ Swarm.messages this' = Swarm.messages start)
  ∧ (∀ (call : nat) (acc : Accumulated) (current : Swarm.t)
       (lastResult : EngineResult.t) (first : ToolCall.t) (others : list ToolCall.t)
       (tools : gmap string AgentTool) (description : option string)
       (parameters : ZodObject) (execute : Args → Exception + HandoverExecuteResult)
       (e : Exception),
       let request :=
         engineRequest agents Blocking options initialMessages maxTotalSteps
           (responseMessages acc) current in
       EngineRun.outcome (engine call request) = inr lastResult →
       endsGeneration (EngineResult.finishReason lastResult) = false →
       findHandoverCalls (Agent.tools (agents (Swarm._activeAgent current))) lastResult
         = Normal (first :: others) →
       Agent.tools (agents (Swarm._activeAgent current)) = Some tools →
       tools !! ToolCall.toolName first
         = Some (AgentHandoverTool description parameters execute) →
       execute (handoverArguments first
                  (Swarm.context (engineRan request (engine call request) current)))
         = inl e →
       (iteration agents engine Blocking options initialMessages maxTotalSteps
          call acc current).1 = Throw e)
  ∧ (∀ (reached : LoopState) (e : Exception) (this' : Swarm.t),
       rtc (nextTurn agents engine Blocking options initialMessages maxTotalSteps)
         {| turnNumber := 0;
            accumulated := {| responseMessages := []; stream := [] |};
            swarm := start |}
         reached →
       iteration agents engine Blocking options initialMessages maxTotalSteps
         (turnNumber reached) (accumulated reached) (swarm reached)
       = (Throw e, this') →
       ∃ fuel, generateText agents engine fuel options this = Some (Throw e, this'))
  ∧ (∀ (fuel : nat) (e : Exception) (this' : Swarm.t),
       generateText agents engine fuel options this = Some (Throw e, this') →
       Swarm.messages this' = Swarm.messages start).
Proof.
  intros start initialMessages maxTotalSteps.
  split; [|split; [|split; [|split; [|split]]]].
  - intros call acc current e H. apply iteration_engine_throws. exact H.
  - intros description parameters execute args context e H.
    assert (Hwrapped : ∃ wrapped : Executor,
              CoreTool.execute (wrapTool (AgentFunctionTool description parameters execute))
              = Some wrapped
              ∧ wrapped args context = {| handedBack := Throw e; merged := None |}).
    { unfold wrapTool, tool. cbn.
      destruct (inShape SWARM_CONTEXT_PROPERTY_NAME parameters); cbn.
      + eexists. split; [reflexivity|].
        unfold injectContext. apply functionWrapper_throws. exact H.
      + eexists. split; [reflexivity|]. apply functionWrapper_throws. exact H. }
    destruct Hwrapped as (wrapped & Hexecute & Hsettles).
    exists wrapped. split; [exact Hexecute|]. split; [exact Hsettles|].
    intros tools toolName Htool. rewrite runTools_alone.
    unfold executorOf. cbn [wrapTools]. rewrite lookup_fmap, Htool. cbn [fmap option_fmap option_map].
    rewrite Hexecute, Hsettles. reflexivity.
  - intros reached e passedOn request run Hreach Hthrown Hengine.
    apply (generateText_throws_when_reached options this reached (passedOn e) Hreach).
    apply iteration_engine_throws. apply Hengine. exact Hthrown.
  - intros call acc current lastResult first others tools description parameters
      execute e request Hout Hgoes Hfind Htools Htool Hrun.
    eapply iteration_handover_throws; eassumption.
  - intros reached e this' Hreach Hthrow.
    destruct (turnLoop_throws_when_reached agents engine Blocking options
                initialMessages maxTotalSteps _ _ e this' Hreach Hthrow)
      as [fuel Hfuel].
    exists fuel. unfold generateText, invoke. cbv zeta.
    fold start. fold initialMessages. fold maxTotalSteps.
    cbn in Hfuel. rewrite Hfuel. reflexivity.
  - intros fuel e this' H. unfold generateText, invoke in H. cbv zeta in H.
    fold start in H. fold initialMessages in H. fold maxTotalSteps in H.
    destruct (turnLoop _ _ _ _ _ _ _ _ _ _)
      as [[[[lastResult acc]|e'] loopEnd]|] eqn:Hloop; try discriminate.
    injection H as <- <-.
    apply turnLoop_keepsSettings in Hloop.
    destruct Hloop as (_ & _ & _ & Hmessages & _). exact Hmessages.
Qed.

End InvocationProperties.

(** * Worked invocations *)

(** A swarm built to return to the queen, a handover to the billing agent:
    [streamText] resolves the queen, which the swarm holds. *)
Lemma reported_agent_is_stored_agent_witness :
  ∃ (output : Output.t) (final : Swarm.t),
    streamText exampleAgents engineHandsOver 5 askBilling returningSwarm
    = Some (Resolves output, final)
    ∧ Output.activeAgent output = queenRef
    ∧ Swarm._activeAgent final = queenRef.
Proof.
  destruct (streamText exampleAgents engineHandsOver 5 askBilling returningSwarm)
    as [[[output|e] final]|] eqn:Hrun.
  - exists output, final. split; [reflexivity|].
    destruct (reported_agent_is_stored_agent exampleAgents engineHandsOver
                askBilling returningSwarm) as [_ Hreported].
    destruct (Hreported 5 output final (or_intror Hrun)) as (_ & Hset & _).
    apply Hset. reflexivity.
  - vm_compute in Hrun. discriminate.
  - vm_compute in Hrun. discriminate.
Defined.

(** C3 as stated fails: the swarm is built to return to the queen; the
    model asks for the billing agent, which answers, so the billing agent is
    active when the loop ends; [generateText] reports the queen. *)
Lemma reported_agent_is_not_the_terminal_agent :
  let start := handleUpdatesAndOverrides askBilling returningSwarm in
  ∃ (lastResult : EngineResult.t) (acc : Accumulated) (loopEnd : Swarm.t)
    (output : Output.t) (final : Swarm.t),
    Swarm.returnToQueen returningSwarm = true
    ∧ turnLoop exampleAgents engineHandsOver 5 Blocking askBilling
        (initialMessagesOf askBilling start)
        (default (Swarm.maxTurns start) (SwarmInvocationOptions.maxTurns askBilling))
        0 noMessages start
      = Some (Normal (lastResult, acc), loopEnd)
    ∧ generateText exampleAgents engineHandsOver 5 askBilling returningSwarm
      = Some (Normal output, final)
    ∧ Swarm._activeAgent loopEnd = billingRef
    ∧ Output.activeAgent output = queenRef
    ∧ Swarm._activeAgent final = queenRef
    ∧ billingRef ≠ queenRef.
Proof.
  cbv zeta. do 5 eexists.
  split; [reflexivity|].
  split; [vm_compute; reflexivity|].
  split; [vm_compute; reflexivity|].
  split; [reflexivity|].
  split; [reflexivity|].
  split; [reflexivity|].
  discriminate.
Qed.

(** C4 on the code: the invocation asks for the return to the queen, the
    swarm was built without it; the model asks for the billing agent, which
    answers; after the call the swarm holds the billing agent, not the
    queen.  The option of the invocation is never read. *)
Theorem invocation_returnToQueen_is_not_honoured :
  ∃ (output : Output.t) (final : Swarm.t),
    SwarmInvocationOptions.returnToQueen askBillingThenReturn = Some true
    ∧ Swarm.returnToQueen exampleSwarm = false
    ∧ generateText exampleAgents engineHandsOver 5 askBillingThenReturn exampleSwarm
      = Some (Normal output, final)
    ∧ Swarm._activeAgent final = billingRef
    ∧ Swarm.queen final = queenRef
    ∧ billingRef ≠ queenRef.
Proof.
  do 2 eexists.
  split; [reflexivity|].
  split; [reflexivity|].
  split; [vm_compute; reflexivity|].
  split; [reflexivity|].
  split; [reflexivity|].
  discriminate.
Qed.

(** C5 on the code: the swarm has two messages behind it; the invocation
    brings the content of a new user message, which the engine is given
    after the history; the model answers with one message.  After the call
    the history has three messages, the two earlier ones and the answer:
    the user message of the invocation is not in it. *)
Theorem user_message_is_not_stored :
  ∃ (output : Output.t) (final : Swarm.t),
    generateText exampleAgents engineAnswers 5 askBilling talkingSwarm
    = Some (Normal output, final)
    ∧ initialMessagesOf askBilling (handleUpdatesAndOverrides askBilling talkingSwarm)
      = Swarm.messages talkingSwarm ++ [billingQuestion]
    ∧ length (Swarm.messages talkingSwarm) = 2
    ∧ length (Output.messages output) = 1
    ∧ length (Swarm.messages final) = 3
    ∧ Swarm.messages final = Swarm.messages talkingSwarm ++ Output.messages output
    ∧ billingQuestion ∉ Swarm.messages final.
Proof.
  do 2 eexists.
  split; [vm_compute; reflexivity|].
  split; [reflexivity|].
  split; [reflexivity|].
  split; [reflexivity|].
  split; [reflexivity|].
  split; [reflexivity|].
  intros Hin. cbn in Hin.
  repeat (apply elem_of_cons in Hin; destruct Hin as [Heq|Hin]; [discriminate Heq|]).
  inversion Hin.
Qed.

(** The stock agent is asked, the engine calls the stock check, whose
    executor fails, and ends by that exception: [generateText] completes by
    it and the history is the one before the call.  And the queen hands over
    to the refunds agent, whose handover fails in the next turn:
    [generateText] completes by that exception, with the history of before
    and the refunds agent active. *)
Lemma generateText_throw_propagates_history_intact_witness :
  (∃ (fuel : nat) (this' : Swarm.t),
     generateText stockAgents engineChecksStock fuel askBilling talkingSwarm
     = Some (Throw (Thrown "warehouse offline"), this')
     ∧ Swarm.messages this' = earlierMessages)
  ∧ ∃ this' : Swarm.t,
      generateText exampleAgents engineBreaksLater 5 askBilling talkingSwarm
      = Some (Throw (Thrown "handover failed"), this')
      ∧ Swarm.messages this' = earlierMessages
      ∧ Swarm._activeAgent this' = refundsRef.
Proof.
  split.
  - destruct (generateText_throw_propagates_history_intact stockAgents
                engineChecksStock askBilling talkingSwarm)
      as (_ & _ & Htool & _).
    apply (Htool {| turnNumber := 0;
                    accumulated := {| responseMessages := []; stream := [] |};
                    swarm := handleUpdatesAndOverrides askBilling talkingSwarm |}
                 (Thrown "warehouse offline") (λ e, e)).
    + apply rtc_refl.
    + vm_compute. reflexivity.
    + intros e Hthrown. vm_compute in Hthrown. injection Hthrown as <-. reflexivity.
  - destruct (generateText exampleAgents engineBreaksLater 5 askBilling talkingSwarm)
      as [[[output|e] this']|] eqn:Hrun.
    + vm_compute in Hrun. discriminate.
    + exists this'.
      assert (He : e = Thrown "handover failed").
      { vm_compute in Hrun. injection Hrun as <- _. reflexivity. }
      subst e. split; [reflexivity|]. split.
      * destruct (generateText_throw_propagates_history_intact exampleAgents
                    engineBreaksLater askBilling talkingSwarm)
          as (_ & _ & _ & _ & _ & Hhistory).
        rewrite (Hhistory 5 (Thrown "handover failed") this' Hrun). reflexivity.
      * vm_compute in Hrun. injection Hrun as <-. reflexivity.
    + vm_compute in Hrun. discriminate.
Defined.

(** * Further properties of the tool adapter *)

Lemma wrapTool_parameters (agentTool : AgentTool) :
  CoreTool.parameters (wrapTool agentTool)
  = omit SWARM_CONTEXT_PROPERTY_NAME (AgentTool.parameters agentTool).
Proof.
  unfold wrapTool, tool, inShape, omit.
  case_bool_decide as Hshape.
  - destruct agentTool; cbn; reflexivity.
  - assert (Hid : delete SWARM_CONTEXT_PROPERTY_NAME (AgentTool.parameters agentTool)
                  = AgentTool.parameters agentTool).
    { apply delete_id. apply eq_None_not_Some. exact Hshape. }
    rewrite Hid. destruct agentTool; cbn; reflexivity.
Qed.

Lemma wrapTool_description (agentTool : AgentTool) :
  CoreTool.description (wrapTool agentTool) = AgentTool.description agentTool.
Proof.
  unfold wrapTool, tool. destruct (inShape _ _); destruct agentTool; reflexivity.
Qed.

Lemma wrapTool_execute_function (agentTool : AgentTool) :
  is_Some (CoreTool.execute (wrapTool agentTool)) ↔ AgentTool.type agentTool = function.
Proof.
  destruct agentTool as [d p e|d p e].
  - split; [reflexivity|]. intros _. apply wrapTool_function_has_executor.
  - rewrite wrapTool_handover. cbn. split; [intros [x Hx]|]; discriminate.
Qed.

(** X1: the tool set that the engine is given has the names of the agent's
    tool set, no more and no fewer; each tool keeps its description, loses
    the context field of its schema and nothing else, and has an executor
    exactly when it is a function tool.  Without tools there is nothing to
    give. *)
Theorem wrapTools_names_schemas_executors (tools : gmap string AgentTool) :
  wrapTools None = None
  ∧ ∃ wrapped : gmap string CoreTool.t,
      wrapTools (Some tools) = Some wrapped
      ∧ dom wrapped = dom tools
      ∧ ∀ (toolName : string) (agentTool : AgentTool),
          tools !! toolName = Some agentTool →
          ∃ wrappedTool : CoreTool.t,
            wrapped !! toolName = Some wrappedTool
            ∧ CoreTool.description wrappedTool = AgentTool.description agentTool
            ∧ CoreTool.parameters wrappedTool !! SWARM_CONTEXT_PROPERTY_NAME = None
            ∧ (∀ field : string,
                 field ≠ SWARM_CONTEXT_PROPERTY_NAME →
                 CoreTool.parameters wrappedTool !! field
                 = AgentTool.parameters agentTool !! field)
            ∧ (is_Some (CoreTool.execute wrappedTool)
               ↔ AgentTool.type agentTool = function).
Proof.
  split; [reflexivity|].
  exists (wrapTool <$> tools). split; [reflexivity|]. split.
  - apply dom_fmap_L.
  - intros toolName agentTool Hlookup. exists (wrapTool agentTool).
    split; [rewrite lookup_fmap, Hlookup; reflexivity|].
    split; [apply wrapTool_description|].
    rewrite wrapTool_parameters. unfold omit.
    split; [apply lookup_delete_eq|].
    split; [|apply wrapTool_execute_function].
    intros field Hfield. apply lookup_delete_ne.
    intros Heq. apply Hfield. symmetry. exact Heq.
Qed.

Lemma wrapTool_function (description : option string) (parameters : ZodObject)
    (execute : Args → Exception + FunctionExecuteResult) :
  wrapTool (AgentFunctionTool description parameters execute)
  = {| CoreTool.description := description;
       CoreTool.parameters := omit SWARM_CONTEXT_PROPERTY_NAME parameters;
       CoreTool.execute :=
         Some (if inShape SWARM_CONTEXT_PROPERTY_NAME parameters
               then injectContext (functionWrapper execute)
               else functionWrapper execute) |}.
Proof.
  pose proof (wrapTool_parameters (AgentFunctionTool description parameters execute))
    as Hparameters.
  unfold wrapTool, tool in *. cbn in *.
  destruct (inShape SWARM_CONTEXT_PROPERTY_NAME parameters); cbn in *;
    rewrite <- Hparameters; reflexivity.
Qed.

(** The call of an executor. *)
Lemma toolEvent_Called (tools : option (gmap string CoreTool.t)) (running : Running)
    (toolName : string) (args : Args) (execute : Executor) :
  executorOf tools toolName = Some execute →
  toolEvent tools running (Called toolName args)
  = {| live := live running;
       promises := promises running ++ [Some (execute args (live running))];
       settled := settled running |}.
Proof. intros Hexecutor. cbn. rewrite Hexecutor. reflexivity. Qed.

(** The settlement of a promise that is pending. *)
Lemma toolEvent_Settled (tools : option (gmap string CoreTool.t)) (running : Running)
    (front back : list (option Settlement)) (settlement : Settlement) :
  promises running = front ++ Some settlement :: back →
  toolEvent tools running (Settled (length front))
  = {| live := spreadOpt (live running) (merged settlement);
       promises := front ++ None :: back;
       settled := settled running ++ [handedBack settlement] |}.
Proof.
  intros Hpromises. cbn. rewrite Hpromises.
  rewrite list_lookup_middle by reflexivity.
  rewrite insert_middle. reflexivity.
Qed.

(** X2: the executor that the engine is given for a function tool runs the
    executor of the tool, on the arguments of the call when the schema does
    not declare the context field, and on the arguments with the context of
    the time of the call put under that field, over whatever the model put
    there, when it does.  It hands back the result alone, or the exception
    of the executor; a context in the outcome is what it merges into the
    context of the swarm when its promise settles.  Called and awaited
    before anything else happens, it leaves the context with that patch
    merged in, and as it was when there is no patch or the executor
    throws.  Called later, after other executors have merged their patches,
    it reads the context as it is by then; and of two calls started
    together both read the context of before, and their patches are merged
    in the order in which the promises settle. *)
Theorem wrapTools_function_executor (tools : gmap string AgentTool)
    (toolName : string) (description : option string) (parameters : ZodObject)
    (execute : Args → Exception + FunctionExecuteResult) :
  tools !! toolName = Some (AgentFunctionTool description parameters execute) →
  ∃ (wrapped : gmap string CoreTool.t) (wrappedTool : CoreTool.t) (run : Executor),
    wrapTools (Some tools) = Some wrapped
    ∧ wrapped !! toolName = Some wrappedTool
    ∧ CoreTool.execute wrappedTool = Some run
    ∧ (∀ (args : Args) (context : Context),
        let passed :=
          if inShape SWARM_CONTEXT_PROPERTY_NAME parameters
          then <[SWARM_CONTEXT_PROPERTY_NAME := JObject context]> args
          else args in
        run args context
        = match execute passed with
          | inl e => {| handedBack := Throw e; merged := None |}
          | inr outcome =>
              {| handedBack := Normal (ReturnResult (fn_result outcome));
                 merged := fn_context outcome |}
          end
        ∧ runTools (wrapTools (Some tools)) [Called toolName args; Settled 0] context
          = {| live :=
                 match execute passed with
                 | inl _ => context
                 | inr outcome => spreadOpt context (fn_context outcome)
                 end;
               promises := [None];
               settled := [handedBack (run args context)] |})
    ∧ ∀ (running : Running) (args args' : Args),
        let first := run args (live running) in
        let second := run args' (live running) in
        foldl (toolEvent (wrapTools (Some tools))) running
          [Called toolName args; Settled (length (promises running))]
        = {| live := spreadOpt (live running) (merged first);
             promises := promises running ++ [None];
             settled := settled running ++ [handedBack first] |}
        ∧ foldl (toolEvent (wrapTools (Some tools))) running
            [Called toolName args; Called toolName args';
             Settled (length (promises running));
             Settled (S (length (promises running)))]
          = {| live := spreadOpt (spreadOpt (live running) (merged first)) (merged second);
               promises := promises running ++ [None; None];
               settled := settled running ++ [handedBack first; handedBack second] |}.
Proof.
  intros Htool.
  assert (Hlookup : (wrapTool <$> tools) !! toolName
                    = Some (wrapTool (AgentFunctionTool description parameters execute))).
  { rewrite lookup_fmap, Htool. reflexivity. }
  rewrite wrapTool_function in Hlookup.
  exists (wrapTool <$> tools). eexists. eexists.
  split; [reflexivity|]. split; [exact Hlookup|]. split; [reflexivity|].
  split.
  2:{ intros running args args'. cbv zeta.
      set (run := if inShape SWARM_CONTEXT_PROPERTY_NAME parameters
                  then injectContext (functionWrapper execute)
                  else functionWrapper execute).
      assert (Hexecutor : executorOf (wrapTools (Some tools)) toolName = Some run).
      { unfold executorOf. cbn [wrapTools]. rewrite Hlookup. reflexivity. }
      cbn [foldl].
      rewrite !(toolEvent_Called _ _ _ _ run Hexecutor). cbn [live promises settled].
      split.
      - rewrite (toolEvent_Settled _ _ (promises running) [] (run args (live running)))
          by reflexivity.
        reflexivity.
      - rewrite (toolEvent_Settled _ _ (promises running)
                   [Some (run args' (live running))] (run args (live running)))
          by (cbn [promises]; rewrite <- app_assoc; reflexivity).
        replace (S (length (promises running)))
          with (length (promises running ++ [None]))
          by (rewrite length_app; cbn; lia).
        rewrite (toolEvent_Settled _ _ (promises running ++ [None]) []
                   (run args' (live running)))
          by (cbn [promises]; rewrite <- app_assoc; reflexivity).
        cbn [live promises settled]. rewrite <- !app_assoc. reflexivity. }
  intros args context. cbv zeta.
  assert (Hrun : (if inShape SWARM_CONTEXT_PROPERTY_NAME parameters
                  then injectContext (functionWrapper execute)
                  else functionWrapper execute) args context
                 = match execute (if inShape SWARM_CONTEXT_PROPERTY_NAME parameters
                                  then <[SWARM_CONTEXT_PROPERTY_NAME := JObject context]> args
                                  else args) with
                   | inl e => {| handedBack := Throw e; merged := None |}
                   | inr outcome =>
                       {| handedBack := Normal (ReturnResult (fn_result outcome));
                          merged := fn_context outcome |}
                   end).
  { destruct (inShape SWARM_CONTEXT_PROPERTY_NAME parameters);
      unfold injectContext, functionWrapper; reflexivity. }
  split; [exact Hrun|].
  rewrite runTools_alone. unfold executorOf. cbn [wrapTools]. rewrite Hlookup.
  cbn [CoreTool.execute]. rewrite Hrun.
  destruct (execute _); reflexivity.
Qed.

(** The model forges a context; the executor is passed the context of the
    swarm, answers with its user, and its patch is merged. *)
Lemma wrapTools_function_executor_witness :
  ∃ run : Executor,
    (∃ wrapped wrappedTool,
       wrapTools (Some deskTools) = Some wrapped
       ∧ wrapped !! "whoAmI" = Some wrappedTool
       ∧ CoreTool.execute wrappedTool = Some run)
    ∧ handedBack (run {[ SWARM_CONTEXT_PROPERTY_NAME := JString "forged" ]}
                      {[ "user" := JString "ada" ]})
      = Normal (ReturnResult (JString "ada"))
    ∧ live (runTools (wrapTools (Some deskTools))
              [Called "whoAmI" {[ SWARM_CONTEXT_PROPERTY_NAME := JString "forged" ]};
               Settled 0]
              {[ "user" := JString "ada" ]})
      = {[ "asked" := JBool true; "user" := JString "ada" ]}.
Proof.
  destruct (wrapTools_function_executor deskTools "whoAmI" (Some "Name the user")
              {[ SWARM_CONTEXT_PROPERTY_NAME := ZodAny ]}
              (λ args,
                 match args !! SWARM_CONTEXT_PROPERTY_NAME with
                 | Some (JObject context) =>
                     inr {| fn_result := default JNull (context !! "user");
                            fn_context := Some {[ "asked" := JBool true ]} |}
                 | _ => inl (Thrown "no context")
                 end)
              eq_refl)
    as (wrapped & wrappedTool & run & Hwrapped & Hlookup & Hrun & Hbehaves & _).
  exists run. split; [eauto|].
  destruct (Hbehaves {[ SWARM_CONTEXT_PROPERTY_NAME := JString "forged" ]}
              {[ "user" := JString "ada" ]}) as [Hresult Halone].
  split.
  - rewrite Hresult. reflexivity.
  - injection Hwrapped as <-. rewrite Halone. vm_compute. reflexivity.
Defined.

(** * The keys of the context *)

Lemma dom_spread (base patch : gmap string JSONValue) :
  dom (spread base patch) = dom patch ∪ dom base.
Proof. unfold spread. apply dom_union_L. Qed.

Lemma dom_spreadOpt (base : Context) (patch : option Context) :
  dom base ⊆ dom (spreadOpt base patch).
Proof.
  destruct patch as [patch|]; cbn; [|reflexivity].
  rewrite dom_spread. set_solver.
Qed.

Lemma toolEvent_keeps_keys (tools : option (gmap string CoreTool.t))
    (running : Running) (event : ToolEvent) :
  dom (live running) ⊆ dom (live (toolEvent tools running event)).
Proof.
  destruct event as [toolName args|run]; cbn; [reflexivity|].
  destruct (promises running !! run) as [[settlement|]|]; cbn;
    [apply dom_spreadOpt|reflexivity|reflexivity].
Qed.

Lemma runTools_keeps_keys (tools : option (gmap string CoreTool.t))
    (events : list ToolEvent) (context : Context) :
  dom context ⊆ dom (live (runTools tools events context)).
Proof.
  unfold runTools.
  change context with (live {| live := context; promises := []; settled := [] |}) at 1.
  generalize {| live := context; promises := []; settled := [] |}.
  induction events as [|event events IH]; intros running; cbn; [reflexivity|].
  etransitivity; [apply (toolEvent_keeps_keys tools running event)|apply IH].
Qed.

Lemma keepsKeys_refl (this : Swarm.t) : keepsKeys this this.
Proof. unfold keepsKeys. reflexivity. Qed.

Lemma keepsKeys_trans (a b c : Swarm.t) : keepsKeys a b → keepsKeys b c → keepsKeys a c.
Proof. unfold keepsKeys. intros H1 H2. etransitivity; eassumption. Qed.

Section ContextKeys.

Variable agents : AgentRef → Agent.t.
Variable engine : nat → EngineRequest.t → EngineRun.t.

Lemma executeHandover_keepsKeys (mode : Mode) (handoverCalls : list ToolCall.t)
    (this : Swarm.t) :
  keepsKeys this (executeHandover agents mode handoverCalls this).2.
Proof.
  unfold executeHandover.
  destruct handoverCalls as [|call rest]; cbn; [apply keepsKeys_refl|].
  destruct (Agent.tools _) as [tools|]; cbn; [|apply keepsKeys_refl].
  destruct (tools !! _) as [[? ? ?|? ? execute]|]; cbn; try apply keepsKeys_refl.
  destruct (execute _); cbn; [apply keepsKeys_refl|].
  unfold keepsKeys. cbn. apply dom_spreadOpt.
Qed.

Lemma forcedReturn_context (initialAgent : AgentRef) (lastResult : EngineResult.t)
    (maxTotalSteps : Z) (responseMessages : list SwarmMessage) (this : Swarm.t) :
  Swarm.context
    (forcedReturn agents initialAgent lastResult maxTotalSteps responseMessages this)
  = Swarm.context this.
Proof. unfold forcedReturn. destruct (_ && _)%bool; reflexivity. Qed.

Lemma processTurn_keepsKeys (mode : Mode) (initialAgent : AgentRef)
    (lastResult : EngineResult.t) (maxTotalSteps : Z) (acc : Accumulated)
    (this : Swarm.t) :
  keepsKeys this
    (processTurn agents mode initialAgent lastResult maxTotalSteps acc this).2.
Proof.
  unfold processTurn.
  destruct (findHandoverCalls _ _) as [handoverCalls|e]; cbn; [|apply keepsKeys_refl].
  pose proof (executeHandover_keepsKeys mode handoverCalls this) as Hexec.
  destruct (executeHandover agents mode handoverCalls this) as [[result|e] this1];
    cbn in *; [|exact Hexec].
  destruct (recordHandover _ _ _); cbn; [|exact Hexec].
  unfold keepsKeys in *. rewrite forcedReturn_context. exact Hexec.
Qed.

Lemma iteration_keepsKeys (mode : Mode) (options : SwarmInvocationOptions.t)
    (initialMessages : list SwarmMessage) (maxTotalSteps : Z) (call : nat)
    (acc : Accumulated) (this : Swarm.t) :
  keepsKeys this
    (iteration agents engine mode options initialMessages maxTotalSteps call acc this).2.
Proof.
  unfold iteration. cbv zeta.
  set (request := engineRequest _ _ _ _ _ _ _).
  set (ran := engineRan _ _ this).
  assert (Hran : keepsKeys this ran).
  { unfold keepsKeys, ran, engineRan. cbn. apply runTools_keeps_keys. }
  destruct (EngineRun.outcome _) as [e|lastResult]; cbn; [exact Hran|].
  destruct (endsGeneration _); cbn; [exact Hran|].
  match goal with
  | |- context [processTurn agents mode ?i lastResult maxTotalSteps ?a ran] =>
      pose proof (processTurn_keepsKeys mode i lastResult maxTotalSteps a ran) as Hturn;
      destruct (processTurn agents mode i lastResult maxTotalSteps a ran)
        as [[acc'|e] this2]
  end; cbn in Hturn |- *; exact (keepsKeys_trans _ _ _ Hran Hturn).
Qed.

Lemma turnLoop_keepsKeys (fuel : nat) (mode : Mode)
    (options : SwarmInvocationOptions.t) (initialMessages : list SwarmMessage)
    (maxTotalSteps : Z) (call : nat) (acc : Accumulated) (this : Swarm.t)
    (completion : Completion (EngineResult.t * Accumulated)) (this' : Swarm.t) :
  turnLoop agents engine fuel mode options initialMessages maxTotalSteps call acc this
    = Some (completion, this') →
  keepsKeys this this'.
Proof.
  revert call acc this.
  induction fuel as [|fuel IH]; intros call acc this; cbn; [discriminate|].
  pose proof (iteration_keepsKeys mode options initialMessages maxTotalSteps
                call acc this) as Hstep.
  destruct (iteration agents engine mode options initialMessages maxTotalSteps call acc this)
    as [[[[broke lastResult] acc1]|e] this1]; cbn in Hstep.
  - destruct broke.
    + intros [= <- <-]. exact Hstep.
    + destruct (_ <? _)%Z.
      * intros Hloop. eapply keepsKeys_trans; [exact Hstep|]. eapply IH. exact Hloop.
      * intros [= <- <-]. exact Hstep.
  - intros [= <- <-]. exact Hstep.
Qed.

(** X3: an invocation never removes a key from the context.  Whether the
    call of [generateText], or the task of [streamText], ends by a value or
    by an exception, every key that the context had before the call, and
    every key of the
    context update of the call, is a key of the context afterwards: the
    update of the call, the patches of the function tools and the patches of
    the handovers are all merged in. *)
Theorem invocation_keeps_context_keys (mode : Mode) (fuel : nat)
    (options : SwarmInvocationOptions.t) (this : Swarm.t)
    (completion : Completion Output.t) (final : Swarm.t) :
  invoke agents engine mode fuel options this = Some (completion, final) →
  dom (Swarm.context this) ⊆ dom (Swarm.context final)
  ∧ (∀ update : Context,
       SwarmInvocationOptions.contextUpdate options = Some update →
       dom update ⊆ dom (Swarm.context final)).
Proof.
  intros H. unfold invoke in H. cbv zeta in H.
  destruct (turnLoop _ _ _ _ _ _ _ _ _ _) as [[loopCompletion loopEnd]|] eqn:Hloop;
    [|discriminate].
  apply turnLoop_keepsKeys in Hloop. unfold keepsKeys in Hloop.
  assert (Hfinal : Swarm.context final = Swarm.context loopEnd).
  { destruct loopCompletion as [[lastResult acc]|e].
    - unfold complete in H. injection H as _ <-.
      destruct (Swarm.returnToQueen _); reflexivity.
    - injection H as _ <-. reflexivity. }
  rewrite Hfinal.
  assert (Hstart : Swarm.context (handleUpdatesAndOverrides options this)
                   = spreadOpt (Swarm.context this)
                       (SwarmInvocationOptions.contextUpdate options)).
  { unfold handleUpdatesAndOverrides.
    destruct (SwarmInvocationOptions.setAgent options),
      (SwarmInvocationOptions.input options); reflexivity. }
  rewrite Hstart in Hloop. split.
  - etransitivity; [apply dom_spreadOpt|exact Hloop].
  - intros update Hupdate. rewrite Hupdate in Hloop. cbn in Hloop.
    rewrite dom_spread in Hloop. set_solver.
Qed.

End ContextKeys.

(** The context update of the call, the patch of the order lookup and the
    patch of the handover to the refunds agent add keys; the keys of before
    are all there. *)
Lemma invocation_keeps_context_keys_witness :
  ∃ (completion : Completion Output.t) (final : Swarm.t),
    generateText exampleAgents engineLooksUpAndAsksRefunds 5 askWithPlan exampleSwarm
    = Some (completion, final)
    ∧ dom (Swarm.context exampleSwarm) ⊆ dom (Swarm.context final)
    ∧ dom ({[ "plan" := JString "pro" ]} : Context) ⊆ dom (Swarm.context final)
    ∧ Swarm.context final !! "topic" = Some (JString "refund")
    ∧ Swarm.context final !! "lastOrder" = Some (JString "A-17").
Proof.
  destruct (generateText exampleAgents engineLooksUpAndAsksRefunds 5 askWithPlan
              exampleSwarm) as [[completion final]|] eqn:Hrun.
  - exists completion, final. split; [reflexivity|].
    destruct (invocation_keeps_context_keys exampleAgents engineLooksUpAndAsksRefunds
                Blocking 5 askWithPlan exampleSwarm completion final Hrun)
      as [Hkeys Hupdate].
    split; [exact Hkeys|]. split; [apply Hupdate; reflexivity|].
    vm_compute in Hrun. injection Hrun as _ <-. split; reflexivity.
  - vm_compute in Hrun. discriminate.
Defined.

(** * Further properties of the loop and of an invocation *)

Section LoopProperties.

Variable agents : AgentRef → Agent.t.
Variable engine : nat → EngineRequest.t → EngineRun.t.

(** The loop ends normally only on a [break] or at the ceiling. *)
Lemma turnLoop_ends (fuel : nat) (mode : Mode) (options : SwarmInvocationOptions.t)
    (initialMessages : list SwarmMessage) (maxTotalSteps : Z) (call : nat)
    (acc : Accumulated) (this : Swarm.t) (lastResult : EngineResult.t)
    (acc' : Accumulated) (this' : Swarm.t) :
  turnLoop agents engine fuel mode options initialMessages maxTotalSteps call acc this
    = Some (Normal (lastResult, acc'), this') →
  endsGeneration (EngineResult.finishReason lastResult) = true
  ∨ (maxTotalSteps ≤ assistantCount (responseMessages acc'))%Z.
Proof.
  revert call acc this.
  induction fuel as [|fuel IH]; intros call acc this; cbn; [discriminate|].
  destruct (iteration agents engine mode options initialMessages maxTotalSteps call acc this)
    as [[[[broke result] acc1]|e] this1] eqn:Hturn; [|discriminate].
  apply iteration_Normal in Hturn. cbv zeta in Hturn.
  destruct Hturn as (_ & Hbroke & _).
  destruct broke.
  - intros [= <- <- <-]. left. symmetry. exact Hbroke.
  - destruct (_ <? _)%Z eqn:Hbelow.
    + apply IH.
    + intros [= <- <- <-]. right. apply Z.ltb_ge. exact Hbelow.
Qed.

(** X4: [generateText] returns, and the promises of [streamText] resolve,
    only when the last answer of the engine has one of the finish reasons
    stop, length, content-filter and error, which is then the finish reason
    reported, or when the
    assistant messages of the call have reached the ceiling (the turn
    ceiling of the invocation, else that of the swarm). *)
Theorem invocation_returns_on_final_answer_or_ceiling (mode : Mode) (fuel : nat)
    (options : SwarmInvocationOptions.t) (this : Swarm.t)
    (output : Output.t) (final : Swarm.t) :
  invoke agents engine mode fuel options this = Some (Normal output, final) →
  endsGeneration (Output.finishReason output) = true
  ∨ (default (Swarm.maxTurns this) (SwarmInvocationOptions.maxTurns options)
     ≤ assistantCount (Output.messages output))%Z.
Proof.
  intros H. apply invoke_Normal in H. cbv zeta in H.
  destruct H as (lastResult & acc & loopEnd & Hloop & _ & Hcomplete).
  apply turnLoop_ends in Hloop.
  destruct (handleUpdatesAndOverrides_settings options this) as (_ & _ & Hmax & _).
  rewrite Hmax in Hloop.
  unfold complete in Hcomplete. injection Hcomplete as -> _. cbn. exact Hloop.
Qed.

(** X5: when the first answer of the engine has one of the finish reasons
    stop, length, content-filter and error, the invocation is over after
    that one engine call, whatever tool calls the answer holds: the messages
    returned are those of the answer under the name of the active agent,
    the history grows by them, the context is the one that the executors
    called by the engine left, each having read the context of the time of
    its call and merged its patch when its promise settled, and the active
    agent is the one the call began with, or the queen for a swarm built to
    return to her. *)
Theorem invocation_of_one_turn (mode : Mode) (fuel : nat)
    (options : SwarmInvocationOptions.t) (this : Swarm.t)
    (lastResult : EngineResult.t) :
  let start := handleUpdatesAndOverrides options this in
  let ceiling :=
    default (Swarm.maxTurns start) (SwarmInvocationOptions.maxTurns options) in
  let request :=
    engineRequest agents mode options (initialMessagesOf options start) ceiling [] start in
  EngineRun.outcome (engine 0 request) = inr lastResult →
  endsGeneration (EngineResult.finishReason lastResult) = true →
  ∃ (output : Output.t) (final : Swarm.t),
    invoke agents engine mode (S fuel) options this = Some (Normal output, final)
    ∧ Output.finishReason output = EngineResult.finishReason lastResult
    ∧ Output.text output = EngineResult.text lastResult
    ∧ Output.messages output
      = (Message.setSender (Agent.name (agents (Swarm._activeAgent start)))
           <$> EngineResult.messages lastResult)
    ∧ Swarm.messages final = Swarm.messages start ++ Output.messages output
    ∧ Swarm.context final
      = live (runTools (wrapTools (Agent.tools (agents (Swarm._activeAgent start))))
                (EngineRun.toolRuns (engine 0 request)) (Swarm.context start))
    ∧ Output.context output = Swarm.context final
    ∧ Swarm._activeAgent final
      = (if Swarm.returnToQueen this then Swarm.queen this
         else Swarm._activeAgent start).
Proof.
  intros start ceiling request Hout Hends.
  destruct (handleUpdatesAndOverrides_settings options this) as (Hqueen & Hflag & _).
  fold start in Hqueen, Hflag.
  set (ran := engineRan request (engine 0 request) start).
  set (acc1 := pushResponse agents mode 0 lastResult
                 {| responseMessages := []; stream := [] |} ran).
  assert (Hinvoke : invoke agents engine mode (S fuel) options this
                    = Some (Normal (complete lastResult acc1 ran).1,
                            (complete lastResult acc1 ran).2)).
  { unfold invoke. cbv zeta. fold start. fold ceiling.
    cbn [turnLoop]. unfold iteration. cbv zeta.
    cbn [responseMessages]. fold request. rewrite Hout, Hends.
    fold ran. fold acc1. destruct (complete lastResult acc1 ran). reflexivity. }
  exists (complete lastResult acc1 ran).1, (complete lastResult acc1 ran).2.
  split; [exact Hinvoke|]. clear Hinvoke.
  assert (Hran : Swarm.returnToQueen ran = Swarm.returnToQueen this
                 ∧ Swarm.queen ran = Swarm.queen this
                 ∧ Swarm._activeAgent ran = Swarm._activeAgent start
                 ∧ Swarm.messages ran = Swarm.messages start).
  { unfold ran, engineRan. cbn. auto. }
  destruct Hran as (Hf & Hq & Ha & Hm).
  assert (Hcontext : Swarm.context ran
                     = live (runTools
                               (wrapTools (Agent.tools (agents (Swarm._activeAgent start))))
                               (EngineRun.toolRuns (engine 0 request))
                               (Swarm.context start))).
  { reflexivity. }
  clearbody ran. clearbody start.
  unfold complete, acc1, pushResponse.
  cbn [fst snd Output.finishReason Output.text Output.messages Output.context
       responseMessages Swarm.returnToQueen Swarm.setMessages Swarm.messages app].
  rewrite Hf, Ha.
  destruct (Swarm.returnToQueen this); cbn; rewrite ?Hm, ?Hq, ?Ha, <- ?Hcontext;
    repeat split; reflexivity.
Qed.

(** With no assistant message left under the ceiling the loop is one turn. *)
Lemma turnLoop_at_the_ceiling (fuel : nat) (mode : Mode)
    (options : SwarmInvocationOptions.t) (initialMessages : list SwarmMessage)
    (maxTotalSteps : Z) (call : nat) (acc : Accumulated) (this : Swarm.t) :
  (maxTotalSteps ≤ 0)%Z →
  turnLoop agents engine (S fuel) mode options initialMessages maxTotalSteps call acc this
  = let turn :=
      iteration agents engine mode options initialMessages maxTotalSteps call acc this in
    Some (match turn.1 with
          | Normal (_, lastResult, acc) => Normal (lastResult, acc)
          | Throw e => Throw e
          end, turn.2).
Proof.
  intros Hceiling. cbn [turnLoop]. cbv zeta.
  destruct (iteration _ _ _ _ _ _ _ _ _) as [[[[broke lastResult] acc1]|e] this1];
    cbn; [|reflexivity].
  destruct broke; [reflexivity|].
  pose proof (assistantCount_nonneg (responseMessages acc1)) as Hnonneg.
  destruct (Z.ltb_spec (assistantCount (responseMessages acc1)) maxTotalSteps)
    as [Hlt|Hge]; [lia|reflexivity].
Qed.

(** X6: the body of the loop runs before the ceiling is looked at.  With a
    ceiling of zero or less the invocation makes one engine call, with the
    handover of that turn if there is one, and completes: more turns change
    nothing. *)
Theorem invocation_with_no_turns_left_runs_one_turn (mode : Mode)
    (options : SwarmInvocationOptions.t) (this : Swarm.t) :
  (default (Swarm.maxTurns this) (SwarmInvocationOptions.maxTurns options) ≤ 0)%Z →
  is_Some (invoke agents engine mode 1 options this)
  ∧ ∀ fuel : nat,
      invoke agents engine mode (S fuel) options this
      = invoke agents engine mode 1 options this.
Proof.
  intros Hceiling.
  destruct (handleUpdatesAndOverrides_settings options this) as (_ & _ & Hmax & _).
  rewrite <- Hmax in Hceiling.
  split.
  - unfold invoke. cbv zeta. rewrite (turnLoop_at_the_ceiling 0) by exact Hceiling.
    cbv zeta.
    destruct (iteration _ _ _ _ _ _ _ _ _) as [[[[broke lastResult] acc]|e] this1];
      cbn; [|eauto].
    destruct (complete lastResult acc this1). eauto.
  - intros fuel. unfold invoke. cbv zeta.
    rewrite (turnLoop_at_the_ceiling fuel), (turnLoop_at_the_ceiling 0)
      by exact Hceiling.
    reflexivity.
Qed.

(** X7: when every answer of the engine holds an assistant message, an
    invocation completes, by a value or by an exception, within as many
    engine calls as the ceiling counts, and one at least; allowing more
    turns changes nothing of the outcome. *)
Theorem invocation_completes_within_the_ceiling (mode : Mode)
    (options : SwarmInvocationOptions.t) (this : Swarm.t) :
  answersWithAssistant engine →
  let ceiling :=
    default (Swarm.maxTurns this) (SwarmInvocationOptions.maxTurns options) in
  ∃ outcome : Completion Output.t * Swarm.t,
    ∀ fuel : nat,
      S (Z.to_nat ceiling) ≤ fuel →
      invoke agents engine mode fuel options this = Some outcome.
Proof.
  intros Hengine ceiling.
  destruct (handleUpdatesAndOverrides_settings options this) as (_ & _ & Hmax & _).
  destruct (invoke_completes agents engine mode options this Hengine)
    as [outcome Houtcome].
  rewrite Hmax in Houtcome. fold ceiling in Houtcome.
  exists outcome. intros fuel Hfuel.
  eapply invoke_more_fuel; eassumption.
Qed.

(** X8: what an invocation does to the history and to the settings.  The
    history it starts from is the list of the call when the call brings
    messages, the stored history when it brings content.  When the call
    returns, the history is that list followed by the messages returned;
    when it ends by an exception (which [generateText] throws and the task
    of [streamText] loses), the history is that list, so that messages
    brought by a failed call have replaced the earlier history.  The queen,
    the ceiling,
    the return flag, the default model and the name never change. *)
Theorem invocation_history_and_settings (mode : Mode) (fuel : nat)
    (options : SwarmInvocationOptions.t) (this : Swarm.t)
    (completion : Completion Output.t) (final : Swarm.t) :
  invoke agents engine mode fuel options this = Some (completion, final) →
  let base :=
    match SwarmInvocationOptions.input options with
    | WithMessages messages => messages
    | WithContent _ => Swarm.messages this
    end in
  Swarm.messages final
  = base ++ match completion with
            | Normal output => Output.messages output
            | Throw _ => []
            end
  ∧ Swarm.queen final = Swarm.queen this
  ∧ Swarm.maxTurns final = Swarm.maxTurns this
  ∧ Swarm.returnToQueen final = Swarm.returnToQueen this
  ∧ Swarm.defaultModel final = Swarm.defaultModel this
  ∧ Swarm.name final = Swarm.name this.
Proof.
  intros H base.
  assert (Hstart : Swarm.messages (handleUpdatesAndOverrides options this) = base
                   ∧ keepsSettings' this (handleUpdatesAndOverrides options this)).
  { unfold handleUpdatesAndOverrides, base, keepsSettings'.
    destruct (SwarmInvocationOptions.setAgent options),
      (SwarmInvocationOptions.input options); cbn; auto 10. }
  destruct Hstart as [Hbase (Hq & Hm & Hr & Hd & Hn)].
  unfold invoke in H. cbv zeta in H.
  destruct (turnLoop _ _ _ _ _ _ _ _ _ _) as [[loopCompletion loopEnd]|] eqn:Hloop;
    [|discriminate].
  apply turnLoop_keepsSettings in Hloop.
  destruct Hloop as (Hd' & Hn' & Hq' & Hmsg' & Hm' & Hr').
  destruct loopCompletion as [[lastResult acc]|e].
  - unfold complete in H. injection H as <- <-.
    cbn [Output.messages].
    assert (Hsame : ∀ (b : bool) (q : AgentRef) (x : Swarm.t),
              let y := if b then Swarm.setActiveAgent q x else x in
              Swarm.messages y = Swarm.messages x
              ∧ Swarm.queen y = Swarm.queen x
              ∧ Swarm.maxTurns y = Swarm.maxTurns x
              ∧ Swarm.returnToQueen y = Swarm.returnToQueen x
              ∧ Swarm.defaultModel y = Swarm.defaultModel x
              ∧ Swarm.name y = Swarm.name x).
    { intros [] q x; cbn; auto 10. }
    match goal with
    | |- context [if ?b then Swarm.setActiveAgent ?q ?x else ?x] =>
        destruct (Hsame b q x) as (-> & -> & -> & -> & -> & ->)
    end.
    cbn. rewrite Hmsg', Hbase. repeat split; congruence.
  - injection H as <- <-. rewrite app_nil_r.
    repeat split; congruence.
Qed.

End LoopProperties.

(** * Worked invocations, continued *)

(** With a ceiling of zero the call returns after the turn of the handover,
    on the finish reason of that turn. *)
Lemma invocation_returns_on_final_answer_or_ceiling_witness :
  ∃ (output : Output.t) (final : Swarm.t),
    generateText exampleAgents engineHandsOver 3 askOnce exampleSwarm
    = Some (Normal output, final)
    ∧ Output.finishReason output = FinishToolCalls
    ∧ (endsGeneration (Output.finishReason output) = true
       ∨ (0 ≤ assistantCount (Output.messages output))%Z).
Proof.
  destruct (generateText exampleAgents engineHandsOver 3 askOnce exampleSwarm)
    as [[[output|e] final]|] eqn:Hrun.
  - exists output, final. split; [reflexivity|]. split.
    + vm_compute in Hrun. injection Hrun as <- _. reflexivity.
    + exact (invocation_returns_on_final_answer_or_ceiling exampleAgents engineHandsOver
               Blocking 3 askOnce exampleSwarm output final Hrun).
  - vm_compute in Hrun. discriminate.
  - vm_compute in Hrun. discriminate.
Defined.

(** In one step the engine starts two executors, each of which copies one
    key of the context it is passed to the other key, and then awaits both:
    both read the context of before, and the keys are swapped. *)
Lemma invocation_of_one_turn_witness :
  ∃ (output : Output.t) (final : Swarm.t),
    generateText swapAgents engineSwaps 4 askBilling swapSwarm
    = Some (Normal output, final)
    ∧ Output.finishReason output = FinishStop
    ∧ Swarm.context swapSwarm = {[ "x" := JNumber 1; "y" := JNumber 2 ]}
    ∧ Swarm.context final = {[ "x" := JNumber 2; "y" := JNumber 1 ]}
    ∧ Swarm.messages final = [Message.setSender "swapper" (assistantSays "Swapped.")]
    ∧ Swarm._activeAgent final = queenRef.
Proof.
  destruct (invocation_of_one_turn swapAgents engineSwaps Blocking 3 askBilling
              swapSwarm swapped eq_refl eq_refl)
    as (output & final & Hinvoke & Hreason & _ & Hmessages & Hhistory & Hcontext
        & _ & Hagent).
  exists output, final.
  split; [exact Hinvoke|]. split; [exact Hreason|]. split; [reflexivity|]. split.
  - rewrite Hcontext. vm_compute. reflexivity.
  - split; [|exact Hagent]. rewrite Hhistory, Hmessages. reflexivity.
Defined.

(** A ceiling of zero: the handover of the one turn is made, and seven turns
    of allowance give what one gives. *)
Lemma invocation_with_no_turns_left_runs_one_turn_witness :
  is_Some (generateText exampleAgents engineHandsOver 1 askOnce exampleSwarm)
  ∧ generateText exampleAgents engineHandsOver 7 askOnce exampleSwarm
    = generateText exampleAgents engineHandsOver 1 askOnce exampleSwarm.
Proof.
  destruct (invocation_with_no_turns_left_runs_one_turn exampleAgents engineHandsOver
              Blocking askOnce exampleSwarm) as [Hsome Hsame].
  - cbn. lia.
  - split; [exact Hsome|exact (Hsame 6)].
Defined.

Lemma engineHandsOver_answersWithAssistant : answersWithAssistant engineHandsOver.
Proof.
  intros [|call] request lastResult H; cbn in H; injection H as <-;
    vm_compute; discriminate.
Qed.

(** Under the default ceiling of 100, 101 turns of allowance or more all
    give the same outcome. *)
Lemma invocation_completes_within_the_ceiling_witness :
  ∃ outcome : Completion Output.t * Swarm.t,
    ∀ fuel : nat,
      101 ≤ fuel →
      generateText exampleAgents engineHandsOver fuel askBilling exampleSwarm
      = Some outcome.
Proof.
  exact (invocation_completes_within_the_ceiling exampleAgents engineHandsOver Blocking
           askBilling exampleSwarm engineHandsOver_answersWithAssistant).
Defined.

(** The call brings one message and the engine fails: the history is that
    one message, the two earlier ones are gone; the queen is the queen. *)
Lemma invocation_history_and_settings_witness :
  ∃ final : Swarm.t,
    generateText exampleAgents engineFails 3 replay talkingSwarm
    = Some (Throw (Thrown "no network"), final)
    ∧ Swarm.messages talkingSwarm = earlierMessages
    ∧ Swarm.messages final = [billingQuestion]
    ∧ Swarm.queen final = queenRef.
Proof.
  destruct (generateText exampleAgents engineFails 3 replay talkingSwarm)
    as [[completion final]|] eqn:Hrun; [|vm_compute in Hrun; discriminate].
  assert (Hcompletion : completion = Throw (Thrown "no network")).
  { vm_compute in Hrun. injection Hrun as <- _. reflexivity. }
  subst completion. exists final. split; [reflexivity|]. split; [reflexivity|].
  destruct (invocation_history_and_settings exampleAgents engineFails Blocking 3 replay
              talkingSwarm _ final Hrun) as (Hhistory & Hqueen & _).
  split; [exact Hhistory|exact Hqueen].
Defined.

(** * Further properties of a turn *)

Lemma List_filter_all {A : Type} (f : A → bool) (l : list A) :
  (∀ x, f x = true) → List.filter f l = l.
Proof.
  intros Hall. induction l as [|x l IH]; [reflexivity|].
  cbn. rewrite Hall, IH. reflexivity.
Qed.

Lemma cleanAssistantMessage_nothing_unused (m : SwarmMessage) :
  cleanAssistantMessage [] m = m.
Proof.
  unfold cleanAssistantMessage. destruct m as [role content sender].
  destruct content as [text|parts]; cbn; [reflexivity|].
  rewrite List_filter_all; [reflexivity|].
  intros [| | |call|]; reflexivity.
Qed.

Lemma recordHandover_nothing (messages recorded : list SwarmMessage) :
  recordHandover None [] messages = Normal recorded → recorded = messages.
Proof.
  unfold recordHandover. cbn [unusedToolCallIds tail fmap list_fmap].
  destruct (atIndex _ _) as [i|]; [|discriminate].
  intros [= <-]. apply list_alter_id. apply cleanAssistantMessage_nothing_unused.
Qed.

Lemma filterC_Throw {A : Type} (p : A → Completion bool) (l : list A) (x : A)
    (e : Exception) :
  x ∈ l →
  p x = Throw e →
  (∀ y e', p y = Throw e' → e' = e) →
  filterC p l = Throw e.
Proof.
  intros Hin Hx Hsame. induction Hin as [x l|x y l Hin IH]; cbn.
  - rewrite Hx. reflexivity.
  - destruct (p y) as [keep|e'] eqn:Hy.
    + rewrite (IH Hx). reflexivity.
    + rewrite (Hsame y e' Hy). reflexivity.
Qed.

Lemma List_filter_Forall {A : Type} (f : A → bool) (l : list A) :
  Forall (λ x, f x = true) l → List.filter f l = l.
Proof.
  induction 1 as [|x l Hx _ IH]; [reflexivity|].
  cbn. rewrite Hx, IH. reflexivity.
Qed.

(** What holds of every message before the record of a handover holds of
    every message after it, if cleaning a message, adding the result of the
    handover to a tool message and making up a tool message for it keep
    it. *)
Lemma recordHandover_Forall (P : SwarmMessage → Prop)
    (handoverToolResult : option ToolResultPart.t) (handoverCalls : list ToolCall.t)
    (messages recorded : list SwarmMessage) :
  (∀ unused m, P m → P (cleanAssistantMessage unused m)) →
  (∀ r parts m,
     handoverToolResult = Some r → P m → Message.content m = ArrayContent parts →
     P (Message.setContent (ArrayContent (parts ++ [ToolResult r])) m)) →
  (∀ r, handoverToolResult = Some r → P (toolMessageOf r)) →
  Forall P messages →
  recordHandover handoverToolResult handoverCalls messages = Normal recorded →
  Forall P recorded.
Proof.
  intros Hclean Hcontent Htool Hall. unfold recordHandover.
  set (toolMessage := match at_ messages (-1) with
                      | Some m => if decide (Message.role m = RoleTool) then Some m else None
                      | None => None
                      end).
  assert (HtoolMessage : ∀ m, toolMessage = Some m → P m).
  { intros m. unfold toolMessage.
    destruct (at_ messages (-1)) as [m'|] eqn:Hlast; [|discriminate].
    destruct (decide _); [|discriminate]. intros [= <-].
    apply at_last_lookup in Hlast. eapply Forall_lookup_1; eassumption. }
  destruct (atIndex _ _) as [i|].
  - destruct handoverToolResult as [r|].
    + destruct toolMessage as [m|].
      * destruct (Message.content m) as [text|parts] eqn:Hparts; [discriminate|].
        intros [= <-]. apply Forall_alter; [|auto].
        apply Forall_insert; [exact Hall|]. eapply Hcontent; eauto.
      * intros [= <-]. apply Forall_alter; [|auto].
        apply Forall_app_2; [exact Hall|]. constructor; [apply Htool; reflexivity|constructor].
    + intros [= <-]. apply Forall_alter; auto.
  - destruct handoverToolResult as [r|]; [destruct toolMessage as [m|];
      [destruct (Message.content m)|]|]; discriminate.
Qed.

Lemma senders_alter (f : SwarmMessage → SwarmMessage) (i : nat) (l : list SwarmMessage) :
  (∀ m, Message.sender (f m) = Message.sender m) →
  Message.sender <$> alter f i l = Message.sender <$> l.
Proof.
  intros Hf. revert i. induction l as [|m l IH]; intros [|i]; cbn; try reflexivity.
  - rewrite Hf. reflexivity.
  - f_equal. apply IH.
Qed.

Lemma senders_insert (i : nat) (x m : SwarmMessage) (l : list SwarmMessage) :
  l !! i = Some m →
  Message.sender x = Message.sender m →
  Message.sender <$> <[i:=x]> l = Message.sender <$> l.
Proof.
  intros Hlookup Hsender. revert i Hlookup.
  induction l as [|y l IH]; intros [|i] Hlookup; cbn in *; try discriminate.
  - injection Hlookup as ->. rewrite Hsender. reflexivity.
  - f_equal. apply IH. exact Hlookup.
Qed.

Lemma sender_cleanAssistantMessage (unused : list string) (m : SwarmMessage) :
  Message.sender (cleanAssistantMessage unused m) = Message.sender m.
Proof. unfold cleanAssistantMessage. destruct (Message.content m); reflexivity. Qed.

(** The record of a handover keeps the senders and adds at most a tool
    message without sender. *)
Lemma recordHandover_senders (handoverToolResult : option ToolResultPart.t)
    (handoverCalls : list ToolCall.t) (messages recorded : list SwarmMessage) :
  recordHandover handoverToolResult handoverCalls messages = Normal recorded →
  ∃ tail : list (option string),
    (tail = [] ∨ tail = [None])
    ∧ Message.sender <$> recorded = (Message.sender <$> messages) ++ tail.
Proof.
  unfold recordHandover. intros H.
  destruct (at_ messages (-1)) as [m|] eqn:Hlast.
  - destruct (decide (Message.role m = RoleTool)) as [Htool|Hnot].
    + destruct (atIndex _ _) as [i|]; [|destruct handoverToolResult as [r|];
        [destruct (Message.content m)|]; discriminate].
      exists []. split; [auto|]. rewrite app_nil_r.
      destruct handoverToolResult as [r|].
      * destruct (Message.content m) as [text|parts]; [discriminate|].
        injection H as <-.
        rewrite senders_alter by apply sender_cleanAssistantMessage.
        apply (senders_insert _ _ m); [|reflexivity].
        apply at_last_lookup. exact Hlast.
      * injection H as <-. apply senders_alter, sender_cleanAssistantMessage.
    + destruct (atIndex _ _) as [i|]; [|destruct handoverToolResult; discriminate].
      destruct handoverToolResult as [r|]; injection H as <-;
        rewrite senders_alter by apply sender_cleanAssistantMessage.
      * exists [None]. split; [auto|]. rewrite fmap_app. reflexivity.
      * exists []. split; [auto|]. rewrite app_nil_r. reflexivity.
  - destruct (atIndex _ _) as [i|]; [|destruct handoverToolResult; discriminate].
    destruct handoverToolResult as [r|]; injection H as <-;
      rewrite senders_alter by apply sender_cleanAssistantMessage.
    + exists [None]. split; [auto|]. rewrite fmap_app. reflexivity.
    + exists []. split; [auto|]. rewrite app_nil_r. reflexivity.
Qed.

Lemma named_cleanAssistantMessage (agents : AgentRef → Agent.t) (mode : Mode)
    (unused : list string) (m : SwarmMessage) :
  named agents mode m → named agents mode (cleanAssistantMessage unused m).
Proof.
  intros [Hsender|(Hrole & Hsender & parts & Hcontent & Hsome & Hparts)].
  - left. unfold cleanAssistantMessage. destruct (Message.content m); exact Hsender.
  - right. unfold cleanAssistantMessage. rewrite Hcontent.
    assert (Hkept : List.filter (keepPart unused) parts = parts).
    { apply List_filter_Forall. eapply list.Forall_impl; [exact Hparts|].
      intros part (call & previous & next & ->). reflexivity. }
    rewrite Hkept. split; [exact Hrole|]. split; [exact Hsender|].
    exists parts. split; [reflexivity|]. split; assumption.
Qed.

Lemma named_pushed (agents : AgentRef → Agent.t) (mode : Mode) (call : ToolCall.t)
    (previous next : AgentRef) (parts : list ContentPart) (m : SwarmMessage) :
  named agents mode m →
  Message.content m = ArrayContent parts →
  named agents mode
    (Message.setContent
       (ArrayContent
          (parts ++ [ToolResult (makeHandoverToolResult mode call
                                   (agents previous) (agents next))]))
       m).
Proof.
  intros [Hsender|(Hrole & Hsender & parts' & Hcontent' & Hsome & Hparts)] Hcontent.
  - left. exact Hsender.
  - right. rewrite Hcontent in Hcontent'. injection Hcontent' as <-.
    split; [exact Hrole|]. split; [exact Hsender|].
    eexists. split; [reflexivity|]. split.
    + destruct parts; discriminate.
    + apply Forall_app_2; [exact Hparts|]. constructor; [eauto|constructor].
Qed.

Lemma named_toolMessageOf (agents : AgentRef → Agent.t) (mode : Mode)
    (call : ToolCall.t) (previous next : AgentRef) :
  named agents mode
    (toolMessageOf (makeHandoverToolResult mode call (agents previous) (agents next))).
Proof.
  right. split; [reflexivity|]. split; [reflexivity|].
  eexists. split; [reflexivity|]. split; [discriminate|].
  constructor; [eauto|constructor].
Qed.

Section MoreTurnProperties.

Variable agents : AgentRef → Agent.t.
Variable engine : nat → EngineRequest.t → EngineRun.t.

(** The result made up for a handover: the call names a handover tool of
    the active agent, whose executor returned the agent it names. *)
Lemma executeHandover_result (mode : Mode) (handoverCalls : list ToolCall.t)
    (this handedOver : Swarm.t) (part : ToolResultPart.t) :
  executeHandover agents mode handoverCalls this = (Normal (Some part), handedOver) →
  ∃ (tools : gmap string AgentTool) (call : ToolCall.t) (description : option string)
    (parameters : ZodObject) (execute : Args → Exception + HandoverExecuteResult)
    (result : HandoverExecuteResult),
    Agent.tools (agents (Swarm._activeAgent this)) = Some tools
    ∧ tools !! ToolCall.toolName call
      = Some (AgentHandoverTool description parameters execute)
    ∧ execute (handoverArguments call (Swarm.context this)) = inr result
    ∧ part = makeHandoverToolResult mode call (agents (Swarm._activeAgent this))
               (agents (ho_agent result)).
Proof.
  unfold executeHandover.
  destruct handoverCalls as [|call rest]; [discriminate|].
  destruct (Agent.tools _) as [tools|] eqn:Htools; [|discriminate].
  destruct (tools !! _) as [[? ? ?|d p execute]|] eqn:Htool; try discriminate.
  destruct (execute _) as [e|result] eqn:Hrun; [discriminate|].
  intros [= <- _]. exists tools, call, d, p, execute, result. auto.
Qed.


Lemma iteration_named (mode : Mode) (options : SwarmInvocationOptions.t)
    (initialMessages : list SwarmMessage) (maxTotalSteps : Z) (call : nat)
    (acc : Accumulated) (this : Swarm.t) (broke : bool)
    (lastResult : EngineResult.t) (acc' : Accumulated) (this' : Swarm.t) :
  iteration agents engine mode options initialMessages maxTotalSteps call acc this
    = (Normal (broke, lastResult, acc'), this') →
  Forall (named agents mode) (responseMessages acc) →
  Forall (named agents mode) (responseMessages acc').
Proof.
  intros H Hall. apply iteration_Normal in H. cbv zeta in H.
  destruct H as (_ & _ & H).
  assert (Hpushed : ∀ ran,
            Forall (named agents mode)
              (responseMessages (pushResponse agents mode call lastResult acc ran))).
  { intros ran. cbn [pushResponse responseMessages].
    apply Forall_app_2; [exact Hall|]. apply Forall_fmap.
    apply list.Forall_forall. intros m _. left. cbn. eauto. }
  destruct broke.
  - destruct H as [-> _]. apply Hpushed.
  - apply processTurn_Normal in H.
    destruct H as (handoverCalls & handoverToolResult & handedOver
                   & _ & Hexec & Hrecord & _).
    assert (Hresult : ∀ r, handoverToolResult = Some r →
              ∃ (handoverCall : ToolCall.t) (previous next : AgentRef),
                r = makeHandoverToolResult mode handoverCall (agents previous) (agents next)).
    { intros r ->. apply executeHandover_result in Hexec.
      destruct Hexec as (tools & handoverCall & d & p & execute & result & _ & _ & _ & ->).
      eauto. }
    eapply recordHandover_Forall; [| | | |exact Hrecord]; try apply Hpushed.
    + apply named_cleanAssistantMessage.
    + intros r parts m Hr Hm Hcontent.
      destruct (Hresult r Hr) as (handoverCall & previous & next & ->).
      apply named_pushed; assumption.
    + intros r Hr. destruct (Hresult r Hr) as (handoverCall & previous & next & ->).
      apply named_toolMessageOf.
Qed.

Lemma turnLoop_named (fuel : nat) (mode : Mode) (options : SwarmInvocationOptions.t)
    (initialMessages : list SwarmMessage) (maxTotalSteps : Z) (call : nat)
    (acc : Accumulated) (this : Swarm.t) (lastResult : EngineResult.t)
    (acc' : Accumulated) (this' : Swarm.t) :
  turnLoop agents engine fuel mode options initialMessages maxTotalSteps call acc this
    = Some (Normal (lastResult, acc'), this') →
  Forall (named agents mode) (responseMessages acc) →
  Forall (named agents mode) (responseMessages acc').
Proof.
  revert call acc this.
  induction fuel as [|fuel IH]; intros call acc this; cbn; [discriminate|].
  destruct (iteration agents engine mode options initialMessages maxTotalSteps call acc this)
    as [[[[broke result] acc1]|e] this1] eqn:Hturn; [|discriminate].
  intros H Hall. pose proof (iteration_named _ _ _ _ _ _ _ _ _ _ _ Hturn Hall) as Hnext.
  destruct broke.
  - injection H as <- <- <-. exact Hnext.
  - destruct (_ <? _)%Z.
    + eapply IH; eassumption.
    + injection H as <- <- <-. exact Hnext.
Qed.

(** The senders that a turn adds: the name of the agent of the turn for
    every message of the engine, and none for a tool message made up. *)
Lemma iteration_senders (mode : Mode) (options : SwarmInvocationOptions.t)
    (initialMessages : list SwarmMessage) (maxTotalSteps : Z) (call : nat)
    (acc : Accumulated) (this : Swarm.t) (broke : bool)
    (lastResult : EngineResult.t) (acc' : Accumulated) (this' : Swarm.t) :
  iteration agents engine mode options initialMessages maxTotalSteps call acc this
    = (Normal (broke, lastResult, acc'), this') →
  ∃ tail : list (option string),
    (tail = [] ∨ tail = [None])
    ∧ Message.sender <$> responseMessages acc'
      = (Message.sender <$> responseMessages acc)
        ++ ((λ _, Some (Agent.name (agents (Swarm._activeAgent this))))
              <$> EngineResult.messages lastResult)
        ++ tail.
Proof.
  intros H. apply iteration_Normal in H. cbv zeta in H.
  destruct H as (_ & _ & H).
  assert (Hpushed : ∀ ran,
            Swarm._activeAgent ran = Swarm._activeAgent this →
            Message.sender
              <$> responseMessages (pushResponse agents mode call lastResult acc ran)
            = (Message.sender <$> responseMessages acc)
              ++ ((λ _, Some (Agent.name (agents (Swarm._activeAgent this))))
                    <$> EngineResult.messages lastResult)).
  { intros ran Hran. cbn [pushResponse responseMessages].
    rewrite fmap_app, <- list_fmap_compose, Hran. reflexivity. }
  destruct broke.
  - destruct H as [-> _]. exists []. split; [auto|].
    rewrite app_nil_r. apply Hpushed. reflexivity.
  - apply processTurn_Normal in H.
    destruct H as (handoverCalls & handoverToolResult & handedOver
                   & _ & _ & Hrecord & _).
    apply recordHandover_senders in Hrecord.
    destruct Hrecord as (tail & Htail & Hsenders).
    exists tail. split; [exact Htail|].
    rewrite Hsenders, Hpushed by reflexivity. rewrite <- app_assoc. reflexivity.
Qed.

(** X9: every message that [generateText] returns or that the task of
    [streamText] accumulates is under the name of an agent of the swarm,
    except the tool messages made up for a handover, which have no sender
    and hold nothing but results made up for handovers; so every message
    of the engine, assistant or tool, names an agent, and a message without
    sender is a made-up one.  The name is that of the agent of the turn:
    a turn adds the messages of the engine under the name of the agent that
    was active when the turn began, then at most one message without
    sender, and changes no sender of before. *)
Theorem returned_messages_are_named (mode : Mode) (fuel : nat)
    (options : SwarmInvocationOptions.t) (this : Swarm.t)
    (output : Output.t) (final : Swarm.t) :
  invoke agents engine mode fuel options this = Some (Normal output, final) →
  Forall (named agents mode) (Output.messages output)
  ∧ (∀ message : SwarmMessage,
       message ∈ Output.messages output →
       Message.role message = RoleAssistant →
       ∃ ref : AgentRef, Message.sender message = Some (Agent.name (agents ref)))
  ∧ (∀ message : SwarmMessage,
       message ∈ Output.messages output →
       Message.sender message = None →
       madeUp agents mode message)
  ∧ (∀ (initialMessages : list SwarmMessage) (maxTotalSteps : Z) (call : nat)
       (acc : Accumulated) (current : Swarm.t) (broke : bool)
       (lastResult : EngineResult.t) (acc' : Accumulated) (current' : Swarm.t),
       iteration agents engine mode options initialMessages maxTotalSteps
         call acc current
       = (Normal (broke, lastResult, acc'), current') →
       ∃ tail : list (option string),
         (tail = [] ∨ tail = [None])
         ∧ Message.sender <$> responseMessages acc'
           = (Message.sender <$> responseMessages acc)
             ++ ((λ _, Some (Agent.name (agents (Swarm._activeAgent current))))
                   <$> EngineResult.messages lastResult)
             ++ tail).
Proof.
  intros H. split; [|split; [|split]];
    [| | |intros initialMessages maxTotalSteps call acc current broke lastResult acc'
            current' Hturn; eapply iteration_senders; exact Hturn].
  all: apply invoke_Normal in H; cbv zeta in H.
  all: destruct H as (lastResult & acc & loopEnd & Hloop & _ & Hcomplete).
  all: apply turnLoop_named in Hloop; [|constructor].
  all: unfold complete in Hcomplete; injection Hcomplete as -> _; cbn.
  all: try exact Hloop.
  all: rewrite list.Forall_forall in Hloop.
  - intros message Hin Hrole.
    destruct (Hloop message Hin) as [Hnamed|[Htool _]]; [exact Hnamed|].
    rewrite Hrole in Htool. discriminate.
  - intros message Hin Hnone.
    destruct (Hloop message Hin) as [[ref Hnamed]|HmadeUp]; [|exact HmadeUp].
    rewrite Hnone in Hnamed. discriminate.
Qed.


(** X10: a turn that goes on after the engine and finds no unhandled call
    of a handover tool, as every turn of an agent without tools does, leaves
    the messages of the engine as they are, enqueues nothing, and leaves the
    context as the engine's tool runs left it; the active agent is the one
    of the turn, or the queen. *)
Theorem turn_without_handover_calls (mode : Mode) (options : SwarmInvocationOptions.t)
    (initialMessages : list SwarmMessage) (maxTotalSteps : Z) (call : nat)
    (acc : Accumulated) (this : Swarm.t) (lastResult : EngineResult.t)
    (acc' : Accumulated) (this' : Swarm.t) :
  let request :=
    engineRequest agents mode options initialMessages maxTotalSteps
      (responseMessages acc) this in
  let ran := engineRan request (engine call request) this in
  iteration agents engine mode options initialMessages maxTotalSteps call acc this
    = (Normal (false, lastResult, acc'), this') →
  findHandoverCalls (Agent.tools (agents (Swarm._activeAgent this))) lastResult
    = Normal [] →
  acc' = pushResponse agents mode call lastResult acc ran
  ∧ Swarm.context this' = Swarm.context ran
  ∧ (Swarm._activeAgent this' = Swarm._activeAgent this
     ∨ Swarm._activeAgent this' = Swarm.queen this)
  ∧ (Agent.tools (agents (Swarm._activeAgent this)) = None →
     findHandoverCalls None lastResult = Normal []).
Proof.
  intros request ran Hiter Hfind.
  apply iteration_Normal in Hiter. cbv zeta in Hiter.
  destruct Hiter as (_ & _ & Hturn). cbv iota in Hturn.
  fold request in Hturn. fold ran in Hturn.
  unfold processTurn in Hturn.
  change (Agent.tools (agents (Swarm._activeAgent ran)))
    with (Agent.tools (agents (Swarm._activeAgent this))) in Hturn.
  rewrite Hfind in Hturn. cbn [executeHandover] in Hturn.
  destruct (recordHandover None [] _) as [recorded|e] eqn:Hrecord; [|discriminate].
  apply recordHandover_nothing in Hrecord. subst recorded.
  injection Hturn as <- <-.
  split.
  { destruct mode; reflexivity. }
  split; [apply forcedReturn_context|]. split.
  - unfold forcedReturn. destruct (_ && _)%bool; [right|left]; reflexivity.
  - intros _. unfold findHandoverCalls.
    generalize (unhandledToolCalls lastResult).
    intros l. induction l as [|x l IH]; [reflexivity|]. cbn. rewrite IH. reflexivity.
Qed.

(** A filter whose callback never throws is the plain filter. *)
Lemma filterC_filter {A : Type} (p : A → Completion bool) (f : A → bool) (l : list A) :
  (∀ x, x ∈ l → p x = Normal (f x)) →
  filterC p l = Normal (List.filter f l).
Proof.
  induction l as [|x l IH]; intros Hp; [reflexivity|].
  cbn. rewrite (Hp x) by constructor.
  rewrite IH by (intros y Hy; apply Hp; constructor; exact Hy).
  reflexivity.
Qed.

(** X11: a call that the engine left without result is looked up in the
    tool set of the active agent, a plain object.  When its name is neither
    a tool of the agent nor a member that every object inherits, reading
    the type of the tool throws: the turn completes by a TypeError before
    any handover is run, and the swarm is as the engine left it.  A name
    that every object inherits, as toString, reads a member without type:
    nothing throws, the call is passed over, and the handover calls are the
    unhandled calls of handover tools of the agent. *)
Theorem turn_throws_on_call_of_unknown_tool (mode : Mode)
    (options : SwarmInvocationOptions.t) (initialMessages : list SwarmMessage)
    (maxTotalSteps : Z) (call : nat) (acc : Accumulated) (this : Swarm.t)
    (lastResult : EngineResult.t) (tools : gmap string AgentTool) :
  let request :=
    engineRequest agents mode options initialMessages maxTotalSteps
      (responseMessages acc) this in
  EngineRun.outcome (engine call request) = inr lastResult →
  endsGeneration (EngineResult.finishReason lastResult) = false →
  Agent.tools (agents (Swarm._activeAgent this)) = Some tools →
  (∀ toolCall : ToolCall.t,
     toolCall ∈ unhandledToolCalls lastResult →
     tools !! ToolCall.toolName toolCall = None →
     ToolCall.toolName toolCall ∉ objectPrototypeNames →
     iteration agents engine mode options initialMessages maxTotalSteps call acc this
     = (Throw (TypeError "Cannot read properties of undefined (reading 'type')"),
        engineRan request (engine call request) this))
  ∧ ((∀ toolCall : ToolCall.t,
        toolCall ∈ unhandledToolCalls lastResult →
        is_Some (tools !! ToolCall.toolName toolCall)
        ∨ ToolCall.toolName toolCall ∈ objectPrototypeNames) →
     findHandoverCalls (Some tools) lastResult
     = Normal (List.filter (namesHandoverTool tools) (unhandledToolCalls lastResult))).
Proof.
  intros request Hout Hgoes Htools. split.
  - intros toolCall Hin Hmissing Hstrange.
    unfold iteration. cbv zeta. fold request. rewrite Hout, Hgoes.
    unfold processTurn.
    change (Agent.tools (agents (Swarm._activeAgent
              (engineRan request (engine call request) this))))
      with (Agent.tools (agents (Swarm._activeAgent this))).
    rewrite Htools. unfold findHandoverCalls.
    rewrite (filterC_Throw _ _ toolCall
               (TypeError "Cannot read properties of undefined (reading 'type')")).
    + reflexivity.
    + exact Hin.
    + unfold isHandoverCall, member. rewrite Hmissing.
      rewrite bool_decide_eq_false_2 by exact Hstrange. reflexivity.
    + intros y e'. unfold isHandoverCall, member.
      destruct (tools !! ToolCall.toolName y); [discriminate|].
      destruct (bool_decide _); [discriminate|].
      intros [= <-]. reflexivity.
  - intros Hknown. unfold findHandoverCalls. apply filterC_filter.
    intros toolCall Hin. unfold isHandoverCall, member, namesHandoverTool.
    destruct (tools !! ToolCall.toolName toolCall) as [agentTool|] eqn:Hlookup;
      [reflexivity|].
    destruct (Hknown toolCall Hin) as [[agentTool Hsome]|Hinherited];
      [rewrite Hlookup in Hsome; discriminate|].
    rewrite bool_decide_eq_true_2 by exact Hinherited. reflexivity.
Qed.

(** X12: when the engine answers the first turn without any message and
    the turn goes on, there is no assistant message to clean: the turn
    completes by a TypeError, after the handover of the turn, if any, has
    been run; the swarm keeps the agent and the context of that handover. *)
Theorem turn_throws_on_answer_without_messages (mode : Mode)
    (options : SwarmInvocationOptions.t) (initialMessages : list SwarmMessage)
    (maxTotalSteps : Z) (call : nat) (acc : Accumulated) (this : Swarm.t)
    (lastResult : EngineResult.t) (handoverCalls : list ToolCall.t)
    (handoverToolResult : option ToolResultPart.t) (handedOver : Swarm.t) :
  let request :=
    engineRequest agents mode options initialMessages maxTotalSteps
      (responseMessages acc) this in
  let ran := engineRan request (engine call request) this in
  responseMessages acc = [] →
  EngineRun.outcome (engine call request) = inr lastResult →
  endsGeneration (EngineResult.finishReason lastResult) = false →
  EngineResult.messages lastResult = [] →
  findHandoverCalls (Agent.tools (agents (Swarm._activeAgent this))) lastResult
    = Normal handoverCalls →
  executeHandover agents mode handoverCalls ran = (Normal handoverToolResult, handedOver) →
  iteration agents engine mode options initialMessages maxTotalSteps call acc this
  = (Throw (TypeError "Cannot read properties of undefined (reading 'content')"),
     handedOver).
Proof.
  intros request ran Hempty Hout Hgoes Hnone Hfind Hexec.
  unfold iteration. cbv zeta. fold request. rewrite Hout, Hgoes. fold ran.
  unfold processTurn.
  change (Agent.tools (agents (Swarm._activeAgent ran)))
    with (Agent.tools (agents (Swarm._activeAgent this))).
  rewrite Hfind, Hexec.
  cbn [pushResponse responseMessages]. rewrite Hempty, Hnone. cbn [fmap list_fmap app].
  destruct handoverToolResult as [r|]; reflexivity.
Qed.

End MoreTurnProperties.

(** * Worked turns, continued *)

(** The queen hands over to the billing agent, which answers: the messages
    are the queen's, the made-up tool message, the billing agent's. *)
Lemma returned_messages_are_named_witness :
  ∃ (output : Output.t) (final : Swarm.t),
    generateText exampleAgents engineHandsOver 5 askBilling exampleSwarm
    = Some (Normal output, final)
    ∧ Forall (named exampleAgents Blocking) (Output.messages output)
    ∧ Message.sender <$> Output.messages output = [Some "queen"; None; Some "billing"].
Proof.
  destruct (generateText exampleAgents engineHandsOver 5 askBilling exampleSwarm)
    as [[[output|e] final]|] eqn:Hrun.
  - exists output, final. split; [reflexivity|]. split.
    + exact (proj1 (returned_messages_are_named exampleAgents engineHandsOver Blocking 5
                      askBilling exampleSwarm output final Hrun)).
    + vm_compute in Hrun. injection Hrun as <- _. reflexivity.
  - vm_compute in Hrun. discriminate.
  - vm_compute in Hrun. discriminate.
Defined.

(** The billing agent runs the order lookup, which the engine answers: no
    call is left unhandled, the messages of the engine stay as they are. *)
Lemma turn_without_handover_calls_witness :
  let turn :=
    iteration exampleAgents engineLooksUp Blocking askBilling [] 100 0
      noMessages billingSwarm in
  responseMessages (accumulatedBy turn)
  = (Message.setSender "billing" <$> EngineResult.messages looksUp)
  ∧ (Swarm._activeAgent turn.2 = billingRef ∨ Swarm._activeAgent turn.2 = queenRef).
Proof.
  cbv zeta.
  destruct (turn_without_handover_calls exampleAgents engineLooksUp Blocking askBilling
              [] 100 0 noMessages billingSwarm looksUp
              (accumulatedBy
                 (iteration exampleAgents engineLooksUp Blocking askBilling [] 100 0
                    noMessages billingSwarm))
              (iteration exampleAgents engineLooksUp Blocking askBilling [] 100 0
                 noMessages billingSwarm).2)
    as (Hacc & _ & Hagent & _).
  - vm_compute. reflexivity.
  - vm_compute. reflexivity.
  - split; [rewrite Hacc; reflexivity|exact Hagent].
Defined.

(** The model calls a tool that the queen does not have: the turn throws.
    The model calls [toString] and asks for the billing agent: nothing
    throws, the handover is made, and the call of [toString] stays in the
    assistant message without result. *)
Lemma turn_throws_on_call_of_unknown_tool_witness :
  let strange :=
    iteration exampleAgents engineCallsStrangeTool Blocking askBilling [] 100 0
      noMessages exampleSwarm in
  let inherited :=
    iteration exampleAgents engineCallsInheritedName Blocking askBilling [] 100 0
      noMessages exampleSwarm in
  (strange.1 = Throw (TypeError "Cannot read properties of undefined (reading 'type')")
   ∧ Swarm._activeAgent strange.2 = queenRef)
  ∧ findHandoverCalls (Some queenTools)
      (callsResult FinishToolCalls [inheritedCall; billingCall])
    = Normal [billingCall]
  ∧ Swarm._activeAgent inherited.2 = billingRef
  ∧ (toolCallIdsOf <$> responseMessages (accumulatedBy inherited))
    = [["call-8"; "call-1"]; []]
  ∧ (toolResultIdsOf <$> responseMessages (accumulatedBy inherited))
    = [[]; ["call-1"]].
Proof.
  cbv zeta. split; [|split; [|split; [|split]]].
  - destruct (turn_throws_on_call_of_unknown_tool exampleAgents engineCallsStrangeTool
                Blocking askBilling [] 100 0 noMessages exampleSwarm
                (callsResult FinishToolCalls [strangeCall]) queenTools
                eq_refl eq_refl eq_refl) as [Hthrows _].
    rewrite (Hthrows strangeCall).
    + split; reflexivity.
    + vm_compute. constructor.
    + vm_compute. reflexivity.
    + intros Hin. vm_compute in Hin.
      repeat (apply elem_of_cons in Hin; destruct Hin as [Heq|Hin]; [discriminate Heq|]).
      inversion Hin.
  - destruct (turn_throws_on_call_of_unknown_tool exampleAgents engineCallsInheritedName
                Blocking askBilling [] 100 0 noMessages exampleSwarm
                (callsResult FinishToolCalls [inheritedCall; billingCall]) queenTools
                eq_refl eq_refl eq_refl) as [_ Hpasses].
    rewrite Hpasses; [reflexivity|].
    intros toolCall Hin.
    change (unhandledToolCalls (callsResult FinishToolCalls [inheritedCall; billingCall]))
      with [inheritedCall; billingCall] in Hin.
    apply elem_of_cons in Hin. destruct Hin as [->|Hin].
    + right. apply (bool_decide_unpack _). vm_compute. exact I.
    + apply list_elem_of_singleton in Hin. subst toolCall. left. vm_compute. eauto.
  - vm_compute. reflexivity.
  - vm_compute. reflexivity.
  - vm_compute. reflexivity.
Defined.

(** The model asks for the billing agent in an answer without messages: the
    turn throws, and the billing agent is active. *)
Lemma turn_throws_on_answer_without_messages_witness :
  let turn :=
    iteration exampleAgents engineSilentHandover Blocking askBilling [] 100 0
      noMessages exampleSwarm in
  turn.1 = Throw (TypeError "Cannot read properties of undefined (reading 'content')")
  ∧ Swarm._activeAgent turn.2 = billingRef.
Proof.
  cbv zeta.
  rewrite (turn_throws_on_answer_without_messages exampleAgents engineSilentHandover
             Blocking askBilling [] 100 0 noMessages exampleSwarm silentHandover
             [billingCall]
             (Some (makeHandoverToolResult Blocking billingCall queenAgent billingAgent))
             (executeHandover exampleAgents Blocking [billingCall] exampleSwarm).2).
  - split; reflexivity.
  - reflexivity.
  - reflexivity.
  - reflexivity.
  - reflexivity.
  - vm_compute. reflexivity.
  - vm_compute. reflexivity.
Defined.

(** * The channel of [streamText] *)








Section Channel.

Variable agents : AgentRef → Agent.t.
Variable engine : nat → EngineRequest.t → EngineRun.t.





End Channel.


(** * The first request of a new swarm *)

(** X15: what the engine is asked first by a swarm just constructed.  The
    agent is the one set by the invocation, else the queen.  The model is
    the agent's, else the default model of the swarm, else gpt-4o-mini.  The
    ceiling is the one of the invocation, zero included, else the one of the
    construction unless it is zero, else 100; the steps allowed are the turn
    cap of the agent if it has one, else the ceiling.  The instructions are
    rendered against the initial context merged with the update of the
    invocation.  The messages are those of the invocation, or those of the
    construction followed by the user message of the content. *)
Theorem first_request_of_a_new_swarm (agents : AgentRef → Agent.t) (mode : Mode)
    (construction : SwarmOptions.t) (options : SwarmInvocationOptions.t) :
  let start := handleUpdatesAndOverrides options (constructor construction) in
  let ceiling :=
    default (Swarm.maxTurns start) (SwarmInvocationOptions.maxTurns options) in
  let request :=
    engineRequest agents mode options (initialMessagesOf options start) ceiling [] start in
  let active :=
    agents (default (SwarmOptions.queen construction)
                    (SwarmInvocationOptions.setAgent options)) in
  ceiling
  = match SwarmInvocationOptions.maxTurns options with
    | Some turns => turns
    | None =>
        match SwarmOptions.maxTurns construction with
        | Some turns => if (turns =? 0)%Z then 100%Z else turns
        | None => 100%Z
        end
    end
  ∧ EngineRequest.model request
    = default (default "gpt-4o-mini" (SwarmOptions.defaultModel construction))
              (Agent.model (Agent.config active))
  ∧ EngineRequest.maxSteps request
    = default ceiling (Agent.maxTurns (Agent.config active))
  ∧ EngineRequest.system request
    = Agent.getInstructions active
        (spreadOpt (SwarmOptions.initialContext construction)
                   (SwarmInvocationOptions.contextUpdate options))
  ∧ EngineRequest.tools request = wrapTools (Agent.tools active)
  ∧ EngineRequest.toolChoice request = Agent.toolChoice (Agent.config active)
  ∧ EngineRequest.messages request
    = match SwarmInvocationOptions.input options with
      | WithMessages messages => messages
      | WithContent content =>
          default [] (SwarmOptions.messages construction)
          ++ [{| Message.role := RoleUser;
                 Message.content := content;
                 Message.sender := None |}]
      end.
Proof.
  cbv zeta.
  unfold handleUpdatesAndOverrides, constructor, engineRequest, initialMessagesOf, orNumber.
  destruct (SwarmInvocationOptions.setAgent options) as [agent|],
    (SwarmInvocationOptions.input options) as [content|messages],
    (SwarmInvocationOptions.maxTurns options) as [turns|];
    cbn; rewrite ?app_nil_r; repeat split; reflexivity.
Qed.

(** * The context store, continued *)

(** X16: [updateContext] hands back the very context that [getContext]
    reads afterwards and touches nothing else of the swarm; an empty update
    changes nothing; the same update twice is the update once; and an update
    never removes a key: the keys afterwards are those of before and those
    of the update. *)
Theorem updateContext_store (update : Context) (this : Swarm.t) :
  let updated := (updateContext update this).2 in
  getContext updated = (updateContext update this).1
  ∧ Swarm.setContext (Swarm.context this) updated = this
  ∧ (updateContext ∅ this).2 = this
  ∧ (updateContext update updated).2 = updated
  ∧ dom (getContext updated) = dom update ∪ dom (getContext this).
Proof.
  cbv zeta. unfold updateContext, getContext, spread. cbn.
  split; [reflexivity|]. split; [destruct this; reflexivity|].
  split; [rewrite (left_id_L ∅ (∪)); destruct this; reflexivity|].
  split; [|apply dom_union_L].
  unfold Swarm.setContext. cbn. f_equal.
  rewrite (assoc_L (∪)), (idemp_L (∪)). reflexivity.
Qed.
